(** * morning-briefing: the aggregation and classification engine

    A shallow embedding of the Go program (the morning pipeline with its
    [classify] step, and the pure helpers of the evening mode) together
    with the properties its specification states about it.

    Conventions of the embedding:
    - a Go [float64] is a term of the Standard Library's [spec_float]
      read at precision 53 and maximal exponent 1024 (IEEE 754 binary64,
      round to nearest even), so [NaN], the infinities and the two zeros
      are all present;
    - a Go [*float64] is an [option float64], [nil] being [None];
    - a Go [string] is a [string] of bytes, compared bytewise;
    - a Go [int] is a [Z];
    - a function that mutates the briefing through a pointer is a
      function from briefings to briefings. *)

From Stdlib Require Import ZArith List String Ascii Bool Lia.
From Stdlib Require Import Floats.SpecFloat.
From Stdlib Require DecimalString.
Import ListNotations.

Local Open Scope string_scope.
Local Open Scope Z_scope.

(** ** float64 *)

Definition float64 : Type := spec_float.

Module F64.

Definition prec : Z := 53.
Definition emax : Z := 1024.

Definition add : float64 -> float64 -> float64 := SFadd prec emax.
Definition sub : float64 -> float64 -> float64 := SFsub prec emax.
Definition mul : float64 -> float64 -> float64 := SFmul prec emax.
Definition div : float64 -> float64 -> float64 := SFdiv prec emax.

(** Go's [x < y], [x <= y], [x >= y] on floats: false as soon as one
    side is NaN. *)
Definition lt (x y : float64) : bool := SFltb x y.
Definition le (x y : float64) : bool := SFleb x y.
Definition ge (x y : float64) : bool := SFleb y x.
Definition gt (x y : float64) : bool := SFltb y x.

(** [float64(n)] for an integer [n], and an integer constant used at
    type float64. *)
Definition of_Z (n : Z) : float64 := binary_normalize prec emax n 0 false.

(** A decimal constant [n / d] with [n], [d] exactly representable:
    the correctly rounded quotient is the float64 nearest to it, which
    is what the compiler stores for the constant. *)
Definition of_ratio (n d : Z) : float64 := div (of_Z n) (of_Z d).

Definition is_nan (x : float64) : bool :=
  match x with S754_nan => true | _ => false end.

(** Bounds of Go's 64-bit [int]. *)
Definition min_int : Z := - 2 ^ 63.
Definition max_int : Z := 2 ^ 63 - 1.

(** The integer part of a finite float (the fraction is discarded:
    truncation towards zero); nothing for NaN and the infinities. *)
Definition trunc (x : float64) : option Z :=
  match x with
  | S754_zero _ => Some 0
  | S754_finite s m e =>
      let a := match e with
               | Zneg p => Z.shiftr (Zpos m) (Zpos p)
               | _ => Z.shiftl (Zpos m) e
               end in
      Some (if s then - a else a)
  | _ => None
  end.

(** [int(x)]: the truncated value when it fits in an [int].  The
    language leaves the result unspecified otherwise (too large, NaN,
    infinite); the conversion still returns, and [min_int] (what the
    amd64 instruction yields) stands for that unspecified integer. *)
Definition to_int (x : float64) : Z :=
  match trunc x with
  | Some v => if (min_int <=? v) && (v <=? max_int) then v else min_int
  | None => min_int
  end.

(** The integer nearest to a finite magnitude [m * 2^e], ties going to
    the even one. *)
Definition round_half_even (m : positive) (e : Z) : Z :=
  match e with
  | Zneg p =>
      let d := Z.shiftl 1 (Zpos p) in
      let q := Zpos m / d in
      let r := Zpos m mod d in
      match Z.compare (2 * r) d with
      | Lt => q
      | Gt => q + 1
      | Eq => if Z.even q then q else q + 1
      end
  | _ => Z.shiftl (Zpos m) e
  end.

Definition decimal (n : Z) : string :=
  DecimalString.NilZero.string_of_uint (N.to_uint (Z.to_N n)).

(** [fmt.Sprintf("%.0f", x)]: no fractional digit, the nearest integer
    with ties to even, the sign kept even when the digits are [0]. *)
Definition format_f0 (x : float64) : string :=
  match x with
  | S754_nan => "NaN"
  | S754_infinity s => if s then "-Inf" else "+Inf"
  | S754_zero s => if s then "-0" else "0"
  | S754_finite s m e =>
      (if s then "-" else "") ++ decimal (round_half_even m e)
  end.

End F64.

Declare Scope f64_scope.
Delimit Scope f64_scope with f64.
Infix "+" := F64.add : f64_scope.
Infix "-" := F64.sub : f64_scope.
Infix "*" := F64.mul : f64_scope.
Infix "/" := F64.div : f64_scope.
Infix "<?" := F64.lt : f64_scope.
Infix "<=?" := F64.le : f64_scope.
Infix ">=?" := F64.ge : f64_scope.
Infix ">?" := F64.gt : f64_scope.

(** The float constants of the source. *)
Definition f0 : float64 := Eval vm_compute in F64.of_Z 0.
Definition f1 : float64 := Eval vm_compute in F64.of_Z 1.
Definition f5 : float64 := Eval vm_compute in F64.of_Z 5.
Definition f7 : float64 := Eval vm_compute in F64.of_Z 7.
Definition f20 : float64 := Eval vm_compute in F64.of_Z 20.
Definition f24 : float64 := Eval vm_compute in F64.of_Z 24.
Definition f40 : float64 := Eval vm_compute in F64.of_Z 40.
Definition f0_5 : float64 := Eval vm_compute in F64.of_ratio 1 2.
Definition f0_95 : float64 := Eval vm_compute in F64.of_ratio 95 100.

(** ** Strings *)

Module strings.

(** [strings.HasPrefix(s, prefix)]. *)
Definition HasPrefix (s pre : string) : bool := String.prefix pre s.

(** [strings.Contains(s, substr)]: [substr] occurs somewhere in [s]. *)
Fixpoint Contains (s substr : string) : bool :=
  String.prefix substr s ||
  match s with
  | EmptyString => false
  | String _ s' => Contains s' substr
  end.

(** [s < t] on Go strings: lexicographic order of the bytes. *)
Definition lt (s t : string) : bool := String.ltb s t.
Definition le (s t : string) : bool := String.leb s t.

End strings.

(** ** The report model (morning) *)

Record WorkoutSummary := {
  ID : string;
  Title : string;
  Date : string;
  Duration : string;
  Exercises : list string
}.

Record TrainingData := {
  LastWorkout : option WorkoutSummary;
  DaysSinceLast : Z;
  RecentWorkouts : list WorkoutSummary;
  WeeklyCount : Z
}.

Record SleepData := {
  TotalHours : option float64;
  DeepHours : option float64;
  REMHours : option float64;
  CoreHours : option float64;
  DataDate : string;
  IsCurrentDay : bool;
  DataAvailable : bool
}.

Record VitalsData := {
  RestingHR : option float64;
  HRV : option float64;
  SpO2 : option float64;
  RespiratoryRate : option float64
}.

Record CalendarEvent := {
  Time : string;
  Summary : string;
  Source : string
}.

Record CalendarData := {
  MorningEvents : list CalendarEvent;
  AfternoonEvents : list CalendarEvent;
  MorningCount : Z;
  FirstEventTime : string
}.

Record MedTask := {
  Name : string;
  DueTime : string;
  DueDate : string
}.

Record MedsData := {
  DueToday : list MedTask;
  Overdue : list MedTask;
  Completed : list MedTask
}.

Record Classification := {
  SleepQuality : string;
  MorningLoad : string;
  RecoveryStatus : string;
  Recommendation : string
}.

Record MorningBriefing := {
  GeneratedAt : string;
  TargetDate : string;
  Sleep : SleepData;
  Vitals : VitalsData;
  Calendar : CalendarData;
  Meds : MedsData;
  Training : TrainingData;
  Classification_ : Classification;
  Errors : list string
}.

(** The zero values Go gives to a briefing that was only declared. *)
Definition zeroSleep : SleepData :=
  {| TotalHours := None; DeepHours := None; REMHours := None;
     CoreHours := None; DataDate := ""; IsCurrentDay := false;
     DataAvailable := false |}.
Definition zeroVitals : VitalsData :=
  {| RestingHR := None; HRV := None; SpO2 := None; RespiratoryRate := None |}.
Definition zeroCalendar : CalendarData :=
  {| MorningEvents := []; AfternoonEvents := []; MorningCount := 0;
     FirstEventTime := "" |}.
Definition zeroMeds : MedsData :=
  {| DueToday := []; Overdue := []; Completed := [] |}.
Definition zeroTraining : TrainingData :=
  {| LastWorkout := None; DaysSinceLast := 0; RecentWorkouts := [];
     WeeklyCount := 0 |}.
Definition zeroClassification : Classification :=
  {| SleepQuality := ""; MorningLoad := ""; RecoveryStatus := "";
     Recommendation := "" |}.
Definition zeroBriefing : MorningBriefing :=
  {| GeneratedAt := ""; TargetDate := ""; Sleep := zeroSleep;
     Vitals := zeroVitals; Calendar := zeroCalendar; Meds := zeroMeds;
     Training := zeroTraining; Classification_ := zeroClassification;
     Errors := [] |}.

(** Assignments through the briefing pointer, one per field written. *)
Definition setSleep (b : MorningBriefing) (x : SleepData) : MorningBriefing :=
  {| GeneratedAt := GeneratedAt b; TargetDate := TargetDate b; Sleep := x;
     Vitals := Vitals b; Calendar := Calendar b; Meds := Meds b;
     Training := Training b; Classification_ := Classification_ b;
     Errors := Errors b |}.
Definition setVitals (b : MorningBriefing) (x : VitalsData) : MorningBriefing :=
  {| GeneratedAt := GeneratedAt b; TargetDate := TargetDate b; Sleep := Sleep b;
     Vitals := x; Calendar := Calendar b; Meds := Meds b;
     Training := Training b; Classification_ := Classification_ b;
     Errors := Errors b |}.
Definition setCalendar (b : MorningBriefing) (x : CalendarData) : MorningBriefing :=
  {| GeneratedAt := GeneratedAt b; TargetDate := TargetDate b; Sleep := Sleep b;
     Vitals := Vitals b; Calendar := x; Meds := Meds b;
     Training := Training b; Classification_ := Classification_ b;
     Errors := Errors b |}.
Definition setMeds (b : MorningBriefing) (x : MedsData) : MorningBriefing :=
  {| GeneratedAt := GeneratedAt b; TargetDate := TargetDate b; Sleep := Sleep b;
     Vitals := Vitals b; Calendar := Calendar b; Meds := x;
     Training := Training b; Classification_ := Classification_ b;
     Errors := Errors b |}.
Definition setTraining (b : MorningBriefing) (x : TrainingData) : MorningBriefing :=
  {| GeneratedAt := GeneratedAt b; TargetDate := TargetDate b; Sleep := Sleep b;
     Vitals := Vitals b; Calendar := Calendar b; Meds := Meds b;
     Training := x; Classification_ := Classification_ b;
     Errors := Errors b |}.
Definition setClassification (b : MorningBriefing) (x : Classification)
  : MorningBriefing :=
  {| GeneratedAt := GeneratedAt b; TargetDate := TargetDate b; Sleep := Sleep b;
     Vitals := Vitals b; Calendar := Calendar b; Meds := Meds b;
     Training := Training b; Classification_ := x; Errors := Errors b |}.

(** [b.Errors = append(b.Errors, w)]. *)
Definition appendError (b : MorningBriefing) (w : string) : MorningBriefing :=
  {| GeneratedAt := GeneratedAt b; TargetDate := TargetDate b; Sleep := Sleep b;
     Vitals := Vitals b; Calendar := Calendar b; Meds := Meds b;
     Training := Training b; Classification_ := Classification_ b;
     Errors := Errors b ++ [w] |}.

Definition setSleepQuality (b : MorningBriefing) (q : string) : MorningBriefing :=
  let c := Classification_ b in
  setClassification b
    {| SleepQuality := q; MorningLoad := MorningLoad c;
       RecoveryStatus := RecoveryStatus c; Recommendation := Recommendation c |}.
Definition setRecoveryStatus (b : MorningBriefing) (r : string) : MorningBriefing :=
  let c := Classification_ b in
  setClassification b
    {| SleepQuality := SleepQuality c; MorningLoad := MorningLoad c;
       RecoveryStatus := r; Recommendation := Recommendation c |}.
Definition setMorningLoad (b : MorningBriefing) (l : string) : MorningBriefing :=
  let c := Classification_ b in
  setClassification b
    {| SleepQuality := SleepQuality c; MorningLoad := l;
       RecoveryStatus := RecoveryStatus c; Recommendation := Recommendation c |}.
Definition setRecommendation (b : MorningBriefing) (r : string) : MorningBriefing :=
  let c := Classification_ b in
  setClassification b
    {| SleepQuality := SleepQuality c; MorningLoad := MorningLoad c;
       RecoveryStatus := RecoveryStatus c; Recommendation := r |}.

(** ** classify *)

(** The recommendation texts of [classify]. *)
Definition msgPoorSleepPoorRecovery : string :=
  "Poor sleep + poor recovery (low HRV). Take it very easy today, prioritize rest and recovery.".
Definition msgLowHRV (hrv : float64) : string :=
  "HRV is low (" ++ F64.format_f0 hrv
  ++ "ms) indicating poor recovery. Consider lighter activity today.".
Definition msgRoughPacked : string :=
  "Rough night + packed morning. Prioritize must-dos, defer what you can. Power through essentials only.".
Definition msgRoughLight : string :=
  "Rough night but light morning. Ease in, handle the few things, then reassess energy.".
Definition msgRoughClear : string :=
  "Rough night, clear morning. Take it slow, no rush. Recovery day vibes.".
Definition msgDecentBusy : string :=
  "Decent sleep, busy morning. You've got this, stay focused.".
Definition msgWellRested : string :=
  "Well rested. Attack the day.".
Definition msgUnavailable : string :=
  "Sleep data unavailable. Check energy levels and adjust accordingly.".

(** [classify] runs four blocks in a row on the briefing; each is
    given a name here, in the order of the source. *)

(* Sleep quality (factoring in deep sleep) *)
Definition classifySleepQuality (b : MorningBriefing) : MorningBriefing :=
  if negb (DataAvailable (Sleep b)) || negb (IsCurrentDay (Sleep b)) then
    setSleepQuality b "UNKNOWN"
  else
    match TotalHours (Sleep b) with
    | Some hours =>
        let b :=
          if (hours >=? f7)%f64 then setSleepQuality b "GOOD"
          else if (hours >=? f5)%f64 then setSleepQuality b "OK"
          else setSleepQuality b "POOR" in
        (* Downgrade sleep quality if deep sleep is insufficient (<1hr) *)
        match DeepHours (Sleep b) with
        | Some deep =>
            if (deep <? f1)%f64 then
              if (SleepQuality (Classification_ b) =? "GOOD")%string
              then setSleepQuality b "OK"
              else if (SleepQuality (Classification_ b) =? "OK")%string
              then setSleepQuality b "POOR"
              else b
            else b
        | None => b
        end
    | None => b
    end.

(* Recovery status based on HRV *)
Definition classifyRecoveryStatus (b : MorningBriefing) : MorningBriefing :=
  match HRV (Vitals b) with
  | None => setRecoveryStatus b "UNKNOWN"
  | Some hrv =>
      if (hrv <=? f20)%f64 then setRecoveryStatus b "POOR"
      else if (hrv <? f40)%f64 then setRecoveryStatus b "OK"
      else setRecoveryStatus b "GOOD"
  end.

(* Morning load *)
Definition classifyMorningLoad (b : MorningBriefing) : MorningBriefing :=
  let count := MorningCount (Calendar b) in
  if count =? 0 then setMorningLoad b "CLEAR"
  else if count <=? 2 then setMorningLoad b "LIGHT"
  else setMorningLoad b "PACKED".

(* Generate recommendation (now includes recovery status) *)
Definition classifyRecommendation (b : MorningBriefing) : MorningBriefing :=
  let sleep := SleepQuality (Classification_ b) in
  let load := MorningLoad (Classification_ b) in
  let recovery := RecoveryStatus (Classification_ b) in
  (* Poor recovery takes priority in recommendations *)
  match (recovery =? "POOR")%string, HRV (Vitals b) with
  | true, Some hrv =>
      if (sleep =? "POOR")%string
      then setRecommendation b msgPoorSleepPoorRecovery
      else setRecommendation b (msgLowHRV hrv)
  | _, _ =>
      if (sleep =? "POOR")%string && (load =? "PACKED")%string
      then setRecommendation b msgRoughPacked
      else if (sleep =? "POOR")%string && (load =? "LIGHT")%string
      then setRecommendation b msgRoughLight
      else if (sleep =? "POOR")%string && (load =? "CLEAR")%string
      then setRecommendation b msgRoughClear
      else if (sleep =? "OK")%string && (load =? "PACKED")%string
      then setRecommendation b msgDecentBusy
      else if (sleep =? "GOOD")%string
      then setRecommendation b msgWellRested
      else setRecommendation b msgUnavailable
  end.

Definition classify (b : MorningBriefing) : MorningBriefing :=
  classifyRecommendation
    (classifyMorningLoad (classifyRecoveryStatus (classifySleepQuality b))).

(** ** The metrics store (database/sql over SQLite)

    The store is the [metrics] table: rows of a metric name, a timestamp
    text and a value that may be NULL.  A store whose queries fail (file
    or table missing, I/O error) carries the failure's text.  The four
    query shapes the program sends are given their SQL meaning below;
    the date argument is a formatted date (digits and dashes), so
    [timestamp LIKE date || '%'] is the prefix test. *)

Module sql.

Inductive error :=
| ErrNoRows
| Failure (msg : string).

(** [fmt.Sprintf("%v", err)]. *)
Definition Error (e : error) : string :=
  match e with
  | ErrNoRows => "sql: no rows in result set"
  | Failure msg => msg
  end.

Record Row := {
  metric_name : string;
  timestamp : string;
  value : option float64
}.

Record DB := {
  fault : option string;
  metrics : list Row
}.

Definition like_prefix (text pat : string) : bool :=
  strings.HasPrefix text pat.

(** [WHERE metric_name = ? AND timestamp LIKE ? || '%'], in table order. *)
Definition select (db : DB) (name date : string) : list Row :=
  filter (fun r => (metric_name r =? name)%string
                   && like_prefix (timestamp r) date) (metrics db).

(** The non-NULL values of a column. *)
Fixpoint non_null (vs : list (option float64)) : list float64 :=
  match vs with
  | [] => []
  | Some v :: vs' => v :: non_null vs'
  | None :: vs' => non_null vs'
  end.

(** [SUM(value)]: NULL when no row has a value, else the values added
    up in floating point. *)
Definition SUM (rows : list Row) : option float64 :=
  match non_null (map value rows) with
  | [] => None
  | vs => Some (fold_left F64.add vs f0)
  end.

(** [AVG(value)]: NULL when no row has a value, else sum over count. *)
Definition AVG (rows : list Row) : option float64 :=
  match non_null (map value rows) with
  | [] => None
  | vs => Some (F64.div (fold_left F64.add vs f0)
                        (F64.of_Z (Z.of_nat (List.length vs))))
  end.

Definition COALESCE (v : option float64) (d : float64) : float64 :=
  match v with Some x => x | None => d end.

(** [ORDER BY timestamp DESC LIMIT 1]: a row of greatest timestamp
    (bytewise), the earliest such in table order. *)
Fixpoint latest (rows : list Row) : option Row :=
  match rows with
  | [] => None
  | r :: rows' =>
      match latest rows' with
      | Some r' => if strings.lt (timestamp r) (timestamp r')
                   then Some r' else Some r
      | None => Some r
      end
  end.

End sql.

(** Go's [(value, err)] results are pairs whose second component is
    [None] for a nil error. *)

(* Query average HRV for a given date from SQLite *)
Definition queryAverageHRV (db : sql.DB) (date : string)
  : option float64 * option sql.error :=
  match sql.fault db with
  | Some msg => (None, Some (sql.Failure msg))
  | None =>
      match sql.AVG (sql.select db "heart_rate_variability" date) with
      | None => (None, None)          (* !avg.Valid *)
      | Some avg => (Some avg, None)
      end
  end.

(* Query sleep stages for a given date from SQLite *)
Definition querySleepStages (db : sql.DB) (date : string)
  : option float64 * option float64 * option float64 * option sql.error :=
  match sql.fault db with
  | Some msg => (None, None, None, Some (sql.Failure msg))
  | None =>
      let rows :=
        filter (fun r =>
                  ((sql.metric_name r =? "sleep_deep")%string
                   || (sql.metric_name r =? "sleep_rem")%string
                   || (sql.metric_name r =? "sleep_core")%string)
                  && sql.like_prefix (sql.timestamp r) date)
               (sql.metrics db) in
      let '(deep, rem, core) :=
        fold_left
          (fun (acc : option float64 * option float64 * option float64) r =>
             let '(deep, rem, core) := acc in
             match sql.value r with
             | None => acc            (* rows.Scan fails on NULL: continue *)
             | Some v =>
                 if (sql.metric_name r =? "sleep_deep")%string
                 then (Some v, rem, core)
                 else if (sql.metric_name r =? "sleep_rem")%string
                 then (deep, Some v, core)
                 else if (sql.metric_name r =? "sleep_core")%string
                 then (deep, rem, Some v)
                 else acc
             end)
          rows (None, None, None) in
      (deep, rem, core, None)
  end.

(* queryLatestValue (evening.go): the latest value of a metric for a date *)
Definition queryLatestValue (db : sql.DB) (metricName date : string)
  : option float64 * option sql.error :=
  match sql.fault db with
  | Some msg => (None, Some (sql.Failure msg))
  | None =>
      match sql.latest (sql.select db metricName date) with
      | None => (None, None)          (* err == sql.ErrNoRows *)
      | Some r =>
          match sql.value r with
          | None => (None, None)      (* !value.Valid *)
          | Some v => (Some v, None)
          end
      end
  end.

(* Query latest respiratory rate for a given date from SQLite *)
Definition queryLatestRespiratoryRate (db : sql.DB) (date : string)
  : option float64 * option sql.error :=
  queryLatestValue db "respiratory_rate" date.

(* queryDayTotal: SELECT COALESCE(SUM(value), 0) ... *)
Definition queryDayTotal (db : sql.DB) (metricName date : string)
  : float64 * option sql.error :=
  match sql.fault db with
  | Some msg => (f0, Some (sql.Failure msg))
  | None => (sql.COALESCE (sql.SUM (sql.select db metricName date)) f0, None)
  end.

(** ** The pure helpers of the evening mode *)

(* User stats for calculations *)
Definition UserAge : Z := 41.
Definition UserWeightKg : float64 := Eval vm_compute in F64.of_Z 73.
Definition UserHeightCm : float64 := Eval vm_compute in F64.of_Z 177.
Definition UserIsMale : bool := true.
Definition UserBMRKcal : Z := 1636.
Definition UserProteinTargetG : Z := 152.

(* CalculateBMR calculates Basal Metabolic Rate using Mifflin-St Jeor formula *)
Definition CalculateBMR (weightKg heightCm : float64) (age : Z) (isMale : bool)
  : Z :=
  let bmr := ((F64.of_Z 10 * weightKg) + (F64.of_ratio 625 100 * heightCm)
              - (F64.of_Z 5 * F64.of_Z age))%f64 in
  let bmr := if isMale then (bmr + F64.of_Z 5)%f64
             else (bmr - F64.of_Z 161)%f64 in
  F64.to_int (bmr + f0_5)%f64.

(* CalculateEnergyBalance calculates caloric deficit or surplus *)
Definition CalculateEnergyBalance (bmr : Z) (activeEnergy consumedEnergy : float64)
  : Z * string :=
  let totalBurned := (F64.of_Z bmr + activeEnergy)%f64 in
  let balance := F64.to_int (consumedEnergy - totalBurned + f0_5)%f64 in
  let status :=
    if balance <? -50 then "deficit"
    else if balance >? 50 then "surplus"
    else "maintenance" in
  (balance, status).

(* CalculateProteinStatus calculates remaining protein needed *)
Definition CalculateProteinStatus (consumed target : float64) : float64 * bool :=
  let remaining := (target - consumed)%f64 in
  let remaining := if (remaining <? f0)%f64 then f0 else remaining in
  (* On track if consumed >= 95% of target *)
  let onTrack := (consumed >=? target * f0_95)%f64 in
  (remaining, onTrack).

(* ParseMode determines the briefing mode from CLI flags *)
Definition ParseMode (morning evening : bool) : string * option string :=
  if morning && evening then
    ("", Some "cannot specify both --morning and --evening")
  else if evening then ("evening", None)
  else ("morning", None).

(** ** The time package

    The program parses, formats and compares times through Go's [time]
    package.  The package is an interface here; every definition and
    theorem below holds for each implementation of it. *)

Module time.

Class Lib := {
  Time : Type;
  (** the zero [Time], what [Parse] returns together with an error *)
  zero : Time;
  (** [time.Parse(time.RFC3339, s)]; [None] when it returns an error *)
  Parse_RFC3339 : string -> option Time;
  (** [time.Parse("2006-01-02", s)] *)
  Parse_date : string -> option Time;
  (** [t.Hour()] *)
  Hour : Time -> Z;
  (** [t.Format("15:04")] *)
  Format_clock : Time -> string;
  (** [t.Format("2006-01-02")] *)
  Format_date : Time -> string;
  (** [t.Format(time.RFC3339)] *)
  Format_RFC3339 : Time -> string;
  (** [t.AddDate(years, months, days)] *)
  AddDate : Time -> Z -> Z -> Z -> Time;
  (** [t.After(u)] *)
  After : Time -> Time -> bool;
  (** [t.Sub(u).Hours()] *)
  Sub_Hours : Time -> Time -> float64
}.

End time.

(** ** What the external commands answer *)

(** The outcome of running a command and decoding its output:
    [cmd.Output()] failed, or [json.Unmarshal] failed, or a value. *)
Inductive Fetched (A : Type) :=
| ExecError (err : string)
| JSONError (err : string)
| Payload (a : A).
Arguments ExecError {A} err.
Arguments JSONError {A} err.
Arguments Payload {A} a.

(* Health ingest summary structure *)
Module HealthSummary.
Record Stat := {
  Value : float64;
  Unit : string;
  Timestamp : string
}.
(** [LatestStats] is a Go map: at most one entry per key. *)
Record t := { LatestStats : list (string * Stat) }.

(** [v, ok := m[key]]. *)
Fixpoint lookup (m : list (string * Stat)) (key : string) : option Stat :=
  match m with
  | [] => None
  | (k, v) :: m' => if (k =? key)%string then Some v else lookup m' key
  end.
End HealthSummary.

(* Todoist response structure *)
Module Todoist.
Record Due_ := {
  Date : string;
  DateTime : string
}.
Record Task := {
  Content : string;
  Labels : list string;
  IsCompleted : bool;
  Due : option Due_
}.
Record Response := { Results : list Task }.
End Todoist.

(* Calendar response from gog *)
Module Gog.
Record Start_ := {
  DateTime : string;
  Date : string
}.
Record CalendarEvent := {
  Start : Start_;
  Summary : string
}.
Record CalendarResponse := { Events : list CalendarEvent }.
End Gog.

(* Hevy workout response *)
Module Hevy.
Record Exercise := { Name : string }.
Record Workout := {
  ID : string;
  Title : string;
  StartTime : string;
  Duration : string;
  Exercises : list Exercise
}.
End Hevy.

(** The two labels that mark a medication or protocol task, byte for
    byte as the source spells them. *)
Definition labelMeds : string := "ðŸ’ŠMeds".
Definition labelInjection : string := "ðŸ’‰".

Definition accountPersonal : string := "jai@govindani.com".
Definition accountWork : string := "jai.g@ewa-services.com".

Section Pipeline.

Context {T : time.Lib}.

(** Everything outside the program that one run observes. *)
Record World := {
  (** [time.Now()] in [main] *)
  now_main : time.Time;
  (** [time.Now()] in [getTrainingData] *)
  now_training : time.Time;
  (** [health-ingest summary --json] *)
  health_ingest : Fetched HealthSummary.t;
  (** [sql.Open("sqlite", path)]: an error text or the store *)
  health_db : string + sql.DB;
  (** [gog calendar events --account=... --json], per account *)
  gog_calendar : string -> Fetched Gog.CalendarResponse;
  (** [td today --json] *)
  td_today : Fetched Todoist.Response;
  (** [mcporter call hevy.get-workouts page=1 pageSize=10] *)
  hevy_workouts : Fetched (list Hevy.Workout)
}.

Definition yesterday (today : string) : string :=
  let t := match time.Parse_date today with
           | Some t => t
           | None => time.zero
           end in
  time.Format_date (time.AddDate t 0 0 (-1)).

(** What [getHealthData] does with a decoded summary. *)
Definition applyHealthSummary (summary : HealthSummary.t) (today : string)
  (b : MorningBriefing) : MorningBriefing :=
  (* Sleep data with date validation *)
  let b :=
    match HealthSummary.lookup (HealthSummary.LatestStats summary)
            "sleep_total" with
    | Some sleep =>
        let s := Sleep b in
        let ts := HealthSummary.Timestamp sleep in
        setSleep b
          {| TotalHours := Some (HealthSummary.Value sleep);
             DeepHours := DeepHours s; REMHours := REMHours s;
             CoreHours := CoreHours s;
             DataDate := ts;
             IsCurrentDay :=
               if strings.Contains ts today
                  || strings.Contains ts (yesterday today)
               then true else IsCurrentDay s;
             DataAvailable := true |}
    | None => b
    end in
  let b :=
    match HealthSummary.lookup (HealthSummary.LatestStats summary)
            "sleep_deep" with
    | Some deep =>
        let s := Sleep b in
        setSleep b
          {| TotalHours := TotalHours s;
             DeepHours := Some (HealthSummary.Value deep);
             REMHours := REMHours s; CoreHours := CoreHours s;
             DataDate := DataDate s; IsCurrentDay := IsCurrentDay s;
             DataAvailable := DataAvailable s |}
    | None => b
    end in
  let b :=
    match HealthSummary.lookup (HealthSummary.LatestStats summary)
            "sleep_rem" with
    | Some rem =>
        let s := Sleep b in
        setSleep b
          {| TotalHours := TotalHours s; DeepHours := DeepHours s;
             REMHours := Some (HealthSummary.Value rem);
             CoreHours := CoreHours s;
             DataDate := DataDate s; IsCurrentDay := IsCurrentDay s;
             DataAvailable := DataAvailable s |}
    | None => b
    end in
  (* Vitals *)
  let b :=
    match HealthSummary.lookup (HealthSummary.LatestStats summary)
            "resting_heart_rate" with
    | Some rhr =>
        let v := Vitals b in
        setVitals b
          {| RestingHR := Some (HealthSummary.Value rhr); HRV := HRV v;
             SpO2 := SpO2 v; RespiratoryRate := RespiratoryRate v |}
    | None => b
    end in
  let b :=
    match HealthSummary.lookup (HealthSummary.LatestStats summary)
            "heart_rate_variability" with
    | Some hrv =>
        let v := Vitals b in
        setVitals b
          {| RestingHR := RestingHR v;
             HRV := Some (HealthSummary.Value hrv);
             SpO2 := SpO2 v; RespiratoryRate := RespiratoryRate v |}
    | None => b
    end in
  match HealthSummary.lookup (HealthSummary.LatestStats summary)
            "blood_oxygen_saturation" with
  | Some spo2 =>
      let v := Vitals b in
      setVitals b
        {| RestingHR := RestingHR v; HRV := HRV v;
           SpO2 := Some (HealthSummary.Value spo2);
           RespiratoryRate := RespiratoryRate v |}
  | None => b
  end.

Definition getHealthData (w : World) (b : MorningBriefing) (today : string)
  : MorningBriefing :=
  match health_ingest w with
  | ExecError err => appendError b ("health-ingest error: " ++ err)
  | JSONError err => appendError b ("health JSON parse error: " ++ err)
  | Payload summary => applyHealthSummary summary today b
  end.

(** The three blocks of [getHealthDataFromSQLite], each a query and
    what is done with its result. *)

(* Get average HRV for today *)
Definition storeAverageHRV (db : sql.DB) (today : string)
  (b : MorningBriefing) : MorningBriefing :=
  match queryAverageHRV db today with
  | (_, Some err) => appendError b ("HRV query error: " ++ sql.Error err)
  | (Some avgHRV, None) =>
      let v := Vitals b in
      setVitals b
        {| RestingHR := RestingHR v; HRV := Some avgHRV;
           SpO2 := SpO2 v; RespiratoryRate := RespiratoryRate v |}
  | (None, None) => b
  end.

(* Get sleep stages *)
Definition storeSleepStages (db : sql.DB) (today : string)
  (b : MorningBriefing) : MorningBriefing :=
  match querySleepStages db today with
  | (_, _, _, Some err) =>
      appendError b ("sleep stages query error: " ++ sql.Error err)
  | (deep, rem, core, None) =>
      let s := Sleep b in
      setSleep b
        {| TotalHours := TotalHours s;
           DeepHours := match deep with
                        | Some _ => deep | None => DeepHours s end;
           REMHours := match rem with
                       | Some _ => rem | None => REMHours s end;
           CoreHours := match core with
                        | Some _ => core | None => CoreHours s end;
           DataDate := DataDate s; IsCurrentDay := IsCurrentDay s;
           DataAvailable := DataAvailable s |}
  end.

(* Get latest respiratory rate *)
Definition storeRespiratoryRate (db : sql.DB) (today : string)
  (b : MorningBriefing) : MorningBriefing :=
  match queryLatestRespiratoryRate db today with
  | (_, Some err) =>
      appendError b ("respiratory rate query error: " ++ sql.Error err)
  | (Some rr, None) =>
      let v := Vitals b in
      setVitals b
        {| RestingHR := RestingHR v; HRV := HRV v;
           SpO2 := SpO2 v; RespiratoryRate := Some rr |}
  | (None, None) => b
  end.

(* Fetch additional metrics from SQLite database *)
Definition getHealthDataFromSQLite (w : World) (b : MorningBriefing)
  (today : string) : MorningBriefing :=
  match health_db w with
  | inl err => appendError b ("sqlite open error: " ++ err)
  | inr db =>
      let b := storeAverageHRV db today b in
      let b := storeSleepStages db today b in
      storeRespiratoryRate db today b
  end.

(** The body of the loop over the events of one account. *)
Definition calendarEventStep (today source : string)
  (b : MorningBriefing) (e : Gog.CalendarEvent) : MorningBriefing :=
  let startTime := Gog.DateTime (Gog.Start e) in
  if (startTime =? "")%string then b       (* Skip all-day events *)
  else if negb (strings.HasPrefix startTime today) then b (* Not today *)
  else
    (* Parse time *)
    match time.Parse_RFC3339 startTime with
    | None => b
    | Some t =>
        let hour := time.Hour t in
        let event :=
          {| Time := time.Format_clock t;
             Summary := Gog.Summary e;
             Source := source |} in
        let c := Calendar b in
        if hour <? 12 then
          setCalendar b
            {| MorningEvents := MorningEvents c ++ [event];
               AfternoonEvents := AfternoonEvents c;
               MorningCount := MorningCount c;
               FirstEventTime := FirstEventTime c |}
        else if hour <? 18 then
          setCalendar b
            {| MorningEvents := MorningEvents c;
               AfternoonEvents := AfternoonEvents c ++ [event];
               MorningCount := MorningCount c;
               FirstEventTime := FirstEventTime c |}
        else b
    end.

Definition getCalendarEvents (w : World) (b : MorningBriefing)
  (today account source : string) : MorningBriefing :=
  match gog_calendar w account with
  | ExecError err =>
      appendError b ("calendar error (" ++ source ++ "): " ++ err)
  | JSONError err =>
      appendError b ("calendar JSON parse error (" ++ source ++ "): " ++ err)
  | Payload resp =>
      fold_left (calendarEventStep today source) (Gog.Events resp) b
  end.

Definition getCalendarData (w : World) (b : MorningBriefing) (today : string)
  : MorningBriefing :=
  (* Personal calendar *)
  let b := getCalendarEvents w b today accountPersonal "personal" in
  (* Work calendar *)
  let b := getCalendarEvents w b today accountWork "work" in
  let c := Calendar b in
  let b :=
    setCalendar b
      {| MorningEvents := MorningEvents c;
         AfternoonEvents := AfternoonEvents c;
         MorningCount := Z.of_nat (List.length (MorningEvents c));
         FirstEventTime := FirstEventTime c |} in
  let c := Calendar b in
  match MorningEvents c with
  | first :: _ =>
      setCalendar b
        {| MorningEvents := MorningEvents c;
           AfternoonEvents := AfternoonEvents c;
           MorningCount := MorningCount c;
           FirstEventTime := Time first |}
  | [] => b
  end.

(** The label loop of the task fetchers: some label is one of the two. *)
Definition isMed (labels : list string) : bool :=
  existsb (fun label => (label =? labelMeds)%string
                        || (label =? labelInjection)%string) labels.

(** The [MedTask] built for a task: its name, and the due date and
    time when the task has a due object. *)
Definition medTaskOf (task : Todoist.Task) : MedTask :=
  match Todoist.Due task with
  | Some due =>
      {| Name := Todoist.Content task;
         DueTime :=
           if negb (Todoist.DateTime due =? "")%string then
             match time.Parse_RFC3339 (Todoist.DateTime due) with
             | Some t => time.Format_clock t
             | None => ""
             end
           else "";
         DueDate := Todoist.Date due |}
  | None =>
      {| Name := Todoist.Content task; DueTime := ""; DueDate := "" |}
  end.

(** The body of the loop over the tasks. *)
Definition medsStep (today : string) (b : MorningBriefing)
  (task : Todoist.Task) : MorningBriefing :=
  (* Check if it's a med task *)
  if negb (isMed (Todoist.Labels task)) then b
  else
    let med := medTaskOf task in
    let m := Meds b in
    if Todoist.IsCompleted task then
      setMeds b {| DueToday := DueToday m; Overdue := Overdue m;
                   Completed := Completed m ++ [med] |}
    else if match Todoist.Due task with
            | Some due => strings.lt (Todoist.Date due) today
            | None => false
            end then
      setMeds b {| DueToday := DueToday m;
                   Overdue := Overdue m ++ [med];
                   Completed := Completed m |}
    else
      setMeds b {| DueToday := DueToday m ++ [med];
                   Overdue := Overdue m;
                   Completed := Completed m |}.

Definition getMedsData (w : World) (b : MorningBriefing) (today : string)
  : MorningBriefing :=
  match td_today w with
  | ExecError err => appendError b ("todoist error: " ++ err)
  | JSONError err => appendError b ("todoist JSON parse error: " ++ err)
  | Payload resp => fold_left (medsStep today) (Todoist.Results resp) b
  end.

(** The body of the loop over the workouts: [i] is the index, [acc]
    the training data and the weekly count so far. *)
Definition trainingStep (now weekAgo : time.Time)
  (acc : TrainingData * Z) (iw : nat * Hevy.Workout) : TrainingData * Z :=
  let '(tr, weeklyCount) := acc in
  let '(i, w) := iw in
  match time.Parse_RFC3339 (Hevy.StartTime w) with
  | None => acc
  | Some workoutDate =>
      let exercises := map Hevy.Name (Hevy.Exercises w) in
      let summary :=
        {| ID := Hevy.ID w; Title := Hevy.Title w;
           Date := time.Format_date workoutDate;
           Duration := Hevy.Duration w; Exercises := exercises |} in
      let tr :=
        match i with
        | O =>
            {| LastWorkout := Some summary;
               DaysSinceLast :=
                 F64.to_int (time.Sub_Hours now workoutDate / f24)%f64;
               RecentWorkouts := RecentWorkouts tr;
               WeeklyCount := WeeklyCount tr |}
        | S _ => tr
        end in
      let weeklyCount :=
        if time.After workoutDate weekAgo then weeklyCount + 1
        else weeklyCount in
      ({| LastWorkout := LastWorkout tr; DaysSinceLast := DaysSinceLast tr;
          RecentWorkouts := RecentWorkouts tr ++ [summary];
          WeeklyCount := WeeklyCount tr |}, weeklyCount)
  end.

Definition getTrainingData (w : World) (b : MorningBriefing) (today : string)
  : MorningBriefing :=
  match hevy_workouts w with
  | ExecError err => appendError b ("hevy error: " ++ err)
  | JSONError err => appendError b ("hevy JSON parse error: " ++ err)
  | Payload [] => b
  | Payload workouts =>
      (* Calculate days since last workout *)
      let now := now_training w in
      let weekAgo := time.AddDate now 0 0 (-7) in
      let '(tr, weeklyCount) :=
        fold_left (trainingStep now weekAgo)
                  (combine (seq 0 (List.length workouts)) workouts)
                  (Training b, 0) in
      setTraining b
        {| LastWorkout := LastWorkout tr; DaysSinceLast := DaysSinceLast tr;
           RecentWorkouts := RecentWorkouts tr;
           WeeklyCount := weeklyCount |}
  end.

(** [main], up to the printing of the briefing: the value that is
    marshalled. *)
Definition main (w : World) : MorningBriefing :=
  let now := now_main w in
  let today := time.Format_date now in
  let briefing :=
    {| GeneratedAt := time.Format_RFC3339 now; TargetDate := today;
       Sleep := zeroSleep; Vitals := zeroVitals; Calendar := zeroCalendar;
       Meds := zeroMeds; Training := zeroTraining;
       Classification_ := zeroClassification; Errors := [] |} in
  (* 1. Get health data (from health-ingest CLI and SQLite) *)
  let briefing := getHealthData w briefing today in
  let briefing := getHealthDataFromSQLite w briefing today in
  (* 2. Get calendar data (both personal and work) *)
  let briefing := getCalendarData w briefing today in
  (* 3. Get meds from Todoist *)
  let briefing := getMedsData w briefing today in
  (* 4. Get training data from Hevy *)
  let briefing := getTrainingData w briefing today in
  (* 5. Classify and recommend *)
  classify briefing.

(** The status of a task as the report model describes it: none for a
    task without a medication label; completed by the completion flag;
    overdue when a due object is present and its date is before the
    target date; due today otherwise. *)
Inductive MedStatus := StatusDueToday | StatusOverdue | StatusCompleted.

Definition medStatus (today : string) (task : Todoist.Task) : option MedStatus :=
  if negb (isMed (Todoist.Labels task)) then None
  else if Todoist.IsCompleted task then Some StatusCompleted
  else match Todoist.Due task with
       | Some due => if strings.lt (Todoist.Date due) today
                     then Some StatusOverdue else Some StatusDueToday
       | None => Some StatusDueToday
       end.

Definition hasStatus (today : string) (k : MedStatus) (task : Todoist.Task)
  : bool :=
  match medStatus today task, k with
  | Some StatusDueToday, StatusDueToday
  | Some StatusOverdue, StatusOverdue
  | Some StatusCompleted, StatusCompleted => true
  | _, _ => false
  end.

(** The tasks of one status, as [MedTask]s, in the order received. *)
Definition medTasksWith (today : string) (k : MedStatus)
  (tasks : list Todoist.Task) : list MedTask :=
  map medTaskOf (filter (hasStatus today k) tasks).

(** The end of [getCalendarData]: the count and the first event time. *)
Definition calendarTotals (b : MorningBriefing) : MorningBriefing :=
  let c := Calendar b in
  let b :=
    setCalendar b
      {| MorningEvents := MorningEvents c;
         AfternoonEvents := AfternoonEvents c;
         MorningCount := Z.of_nat (List.length (MorningEvents c));
         FirstEventTime := FirstEventTime c |} in
  let c := Calendar b in
  match MorningEvents c with
  | first :: _ =>
      setCalendar b
        {| MorningEvents := MorningEvents c;
           AfternoonEvents := AfternoonEvents c;
           MorningCount := MorningCount c;
           FirstEventTime := Time first |}
  | [] => b
  end.

(** The target date of a run and the briefing [main] starts from. *)
Definition todayOf (w : World) : string := time.Format_date (now_main w).

Definition initialBriefing (w : World) : MorningBriefing :=
  {| GeneratedAt := time.Format_RFC3339 (now_main w);
     TargetDate := todayOf w;
     Sleep := zeroSleep; Vitals := zeroVitals; Calendar := zeroCalendar;
     Meds := zeroMeds; Training := zeroTraining;
     Classification_ := zeroClassification; Errors := [] |}.

(** The briefing after the two health fetchers. *)
Definition afterHealth (w : World) : MorningBriefing :=
  getHealthDataFromSQLite w
    (getHealthData w (initialBriefing w) (todayOf w)) (todayOf w).

End Pipeline.

(** ** The report model (evening) and its health fetcher *)

Module Evening.

Record EnergyData := {
  DeficitOrSurplusKcal : Z;
  Status : string;
  BMRKcal : Z;
  ActiveKcal : float64;
  TotalBurnedKcal : float64;
  ConsumedKcal : float64
}.

Record ProteinData := {
  ConsumedG : float64;
  TargetG : Z;
  RemainingG : float64;
  OnTrack : bool
}.

Record WorkoutInfo := {
  Done : bool;
  Title : string;
  Duration : string
}.

Record ActivityData := {
  Steps : Z;
  Workout : option WorkoutInfo;
  StandHours : Z
}.

Record SleepInfo := {
  TotalHrs : float64;
  DeepHrs : float64
}.

Record RecoveryData := {
  HRVMS : float64;
  HRVYesterdayMS : float64;
  RestingHRBPM : float64;
  SleepLastNight : SleepInfo
}.

Record ProtocolsData := {
  Completed : list string;
  Missed : list string
}.

Record EventInfo := {
  Time : string;
  Summary : string
}.

Record TomorrowData := {
  FirstEvent : option EventInfo;
  WorkoutScheduled : bool;
  MedsDue : list string
}.

Record EveningBriefing := {
  Mode : string;
  GeneratedAt : string;
  TargetDate : string;
  Energy : EnergyData;
  Protein : ProteinData;
  Activity : ActivityData;
  Recovery : RecoveryData;
  Protocols : ProtocolsData;
  Tomorrow : TomorrowData;
  Errors : list string
}.

Definition setEnergy (b : EveningBriefing) (x : EnergyData) :=
  {| Mode := Mode b; GeneratedAt := GeneratedAt b; TargetDate := TargetDate b;
     Energy := x; Protein := Protein b; Activity := Activity b;
     Recovery := Recovery b; Protocols := Protocols b;
     Tomorrow := Tomorrow b; Errors := Errors b |}.
Definition setProtein (b : EveningBriefing) (x : ProteinData) :=
  {| Mode := Mode b; GeneratedAt := GeneratedAt b; TargetDate := TargetDate b;
     Energy := Energy b; Protein := x; Activity := Activity b;
     Recovery := Recovery b; Protocols := Protocols b;
     Tomorrow := Tomorrow b; Errors := Errors b |}.
Definition setActivity (b : EveningBriefing) (x : ActivityData) :=
  {| Mode := Mode b; GeneratedAt := GeneratedAt b; TargetDate := TargetDate b;
     Energy := Energy b; Protein := Protein b; Activity := x;
     Recovery := Recovery b; Protocols := Protocols b;
     Tomorrow := Tomorrow b; Errors := Errors b |}.
Definition setRecovery (b : EveningBriefing) (x : RecoveryData) :=
  {| Mode := Mode b; GeneratedAt := GeneratedAt b; TargetDate := TargetDate b;
     Energy := Energy b; Protein := Protein b; Activity := Activity b;
     Recovery := x; Protocols := Protocols b;
     Tomorrow := Tomorrow b; Errors := Errors b |}.
Definition appendError (b : EveningBriefing) (w : string) :=
  {| Mode := Mode b; GeneratedAt := GeneratedAt b; TargetDate := TargetDate b;
     Energy := Energy b; Protein := Protein b; Activity := Activity b;
     Recovery := Recovery b; Protocols := Protocols b;
     Tomorrow := Tomorrow b; Errors := Errors b ++ [w] |}.

(** The briefing [RunEveningBriefing] starts from: the composite
    literal, every field it does not name being the zero value. *)
Definition initial (generatedAt today : string) : EveningBriefing :=
  {| Mode := "evening"; GeneratedAt := generatedAt; TargetDate := today;
     Energy := {| DeficitOrSurplusKcal := 0; Status := "";
                  BMRKcal := UserBMRKcal; ActiveKcal := f0;
                  TotalBurnedKcal := f0; ConsumedKcal := f0 |};
     Protein := {| ConsumedG := f0; TargetG := UserProteinTargetG;
                   RemainingG := f0; OnTrack := false |};
     Activity := {| Steps := 0; Workout := None; StandHours := 0 |};
     Recovery := {| HRVMS := f0; HRVYesterdayMS := f0; RestingHRBPM := f0;
                    SleepLastNight := {| TotalHrs := f0; DeepHrs := f0 |} |};
     Protocols := {| Completed := []; Missed := [] |};
     Tomorrow := {| FirstEvent := None; WorkoutScheduled := false;
                    MedsDue := [] |};
     Errors := [] |}.

(** The first three blocks of [getEveningHealthData]: the two energy
    totals and the balance computed from them. *)
Definition energyBlocks (db : sql.DB) (today : string) (b : EveningBriefing)
  : EveningBriefing :=
  (* Get active energy for today *)
  let b :=
    match queryDayTotal db "active_energy" today with
    | (_, Some err) =>
        appendError b ("active_energy query error: " ++ sql.Error err)
    | (activeEnergy, None) =>
        let e := Energy b in
        setEnergy b
          {| DeficitOrSurplusKcal := DeficitOrSurplusKcal e;
             Status := Status e; BMRKcal := BMRKcal e;
             ActiveKcal := activeEnergy;
             TotalBurnedKcal := TotalBurnedKcal e;
             ConsumedKcal := ConsumedKcal e |}
    end in
  (* Get dietary energy (consumed) for today *)
  let b :=
    match queryDayTotal db "dietary_energy" today with
    | (_, Some err) =>
        appendError b ("dietary_energy query error: " ++ sql.Error err)
    | (consumedEnergy, None) =>
        let e := Energy b in
        setEnergy b
          {| DeficitOrSurplusKcal := DeficitOrSurplusKcal e;
             Status := Status e; BMRKcal := BMRKcal e;
             ActiveKcal := ActiveKcal e;
             TotalBurnedKcal := TotalBurnedKcal e;
             ConsumedKcal := consumedEnergy |}
    end in
  (* Calculate energy balance *)
  let e := Energy b in
  let '(balance, status) :=
    CalculateEnergyBalance (BMRKcal e) (ActiveKcal e) (ConsumedKcal e) in
  setEnergy b
    {| DeficitOrSurplusKcal := balance; Status := status;
       BMRKcal := BMRKcal e; ActiveKcal := ActiveKcal e;
       TotalBurnedKcal := (F64.of_Z (BMRKcal e) + ActiveKcal e)%f64;
       ConsumedKcal := ConsumedKcal e |}.

(** [getEveningHealthData]; [opened] is what [sql.Open] returned. *)
Definition getEveningHealthData (opened : string + sql.DB)
  (b : EveningBriefing) (today yesterday : string) : EveningBriefing :=
  match opened with
  | inl err => appendError b ("sqlite open error: " ++ err)
  | inr db =>
      let b := energyBlocks db today b in
      (* Get protein for today *)
      let b :=
        match queryDayTotal db "protein" today with
        | (_, Some err) =>
            appendError b ("protein query error: " ++ sql.Error err)
        | (protein, None) =>
            let p := Protein b in
            let '(remaining, onTrack) :=
              CalculateProteinStatus protein (F64.of_Z (TargetG p)) in
            setProtein b
              {| ConsumedG := protein; TargetG := TargetG p;
                 RemainingG := remaining; OnTrack := onTrack |}
        end in
      (* Get steps for today *)
      let b :=
        match queryDayTotal db "steps" today with
        | (_, Some err) =>
            appendError b ("steps query error: " ++ sql.Error err)
        | (steps, None) =>
            let a := Activity b in
            setActivity b
              {| Steps := F64.to_int steps; Workout := Workout a;
                 StandHours := StandHours a |}
        end in
      (* Get stand hours for today *)
      let b :=
        match queryDayTotal db "stand_hours" today with
        | (_, Some err) =>
            appendError b ("stand_hours query error: " ++ sql.Error err)
        | (standHours, None) =>
            let a := Activity b in
            setActivity b
              {| Steps := Steps a; Workout := Workout a;
                 StandHours := F64.to_int standHours |}
        end in
      (* Get HRV for today *)
      let b :=
        match queryAverageHRV db today with
        | (Some hrvToday, None) =>
            let r := Recovery b in
            setRecovery b
              {| HRVMS := hrvToday; HRVYesterdayMS := HRVYesterdayMS r;
                 RestingHRBPM := RestingHRBPM r;
                 SleepLastNight := SleepLastNight r |}
        | _ => b
        end in
      (* Get HRV for yesterday *)
      let b :=
        match queryAverageHRV db yesterday with
        | (Some hrvYesterday, None) =>
            let r := Recovery b in
            setRecovery b
              {| HRVMS := HRVMS r; HRVYesterdayMS := hrvYesterday;
                 RestingHRBPM := RestingHRBPM r;
                 SleepLastNight := SleepLastNight r |}
        | _ => b
        end in
      (* Get resting HR *)
      let b :=
        match queryLatestValue db "resting_heart_rate" today with
        | (Some rhr, None) =>
            let r := Recovery b in
            setRecovery b
              {| HRVMS := HRVMS r; HRVYesterdayMS := HRVYesterdayMS r;
                 RestingHRBPM := rhr;
                 SleepLastNight := SleepLastNight r |}
        | _ => b
        end in
      (* Get last night's sleep *)
      let b :=
        match queryLatestValue db "sleep_total" today with
        | (Some sleepTotal, None) =>
            let r := Recovery b in
            setRecovery b
              {| HRVMS := HRVMS r; HRVYesterdayMS := HRVYesterdayMS r;
                 RestingHRBPM := RestingHRBPM r;
                 SleepLastNight :=
                   {| TotalHrs := sleepTotal;
                      DeepHrs := DeepHrs (SleepLastNight r) |} |}
        | _ => b
        end in
      match queryLatestValue db "sleep_deep" today with
      | (Some sleepDeep, None) =>
          let r := Recovery b in
          setRecovery b
            {| HRVMS := HRVMS r; HRVYesterdayMS := HRVYesterdayMS r;
               RestingHRBPM := RestingHRBPM r;
               SleepLastNight :=
                 {| TotalHrs := TotalHrs (SleepLastNight r);
                    DeepHrs := sleepDeep |} |}
      | _ => b
      end
  end.

End Evening.

(** ** The other fetchers of the evening mode *)

Definition setProtocols (b : Evening.EveningBriefing) (x : Evening.ProtocolsData)
  : Evening.EveningBriefing :=
  {| Evening.Mode := Evening.Mode b;
     Evening.GeneratedAt := Evening.GeneratedAt b;
     Evening.TargetDate := Evening.TargetDate b;
     Evening.Energy := Evening.Energy b; Evening.Protein := Evening.Protein b;
     Evening.Activity := Evening.Activity b;
     Evening.Recovery := Evening.Recovery b; Evening.Protocols := x;
     Evening.Tomorrow := Evening.Tomorrow b; Evening.Errors := Evening.Errors b |}.

Definition setTomorrow (b : Evening.EveningBriefing) (x : Evening.TomorrowData)
  : Evening.EveningBriefing :=
  {| Evening.Mode := Evening.Mode b;
     Evening.GeneratedAt := Evening.GeneratedAt b;
     Evening.TargetDate := Evening.TargetDate b;
     Evening.Energy := Evening.Energy b; Evening.Protein := Evening.Protein b;
     Evening.Activity := Evening.Activity b;
     Evening.Recovery := Evening.Recovery b;
     Evening.Protocols := Evening.Protocols b;
     Evening.Tomorrow := x; Evening.Errors := Evening.Errors b |}.

(** [b.Activity.Workout = &WorkoutInfo{...}]. *)
Definition setWorkout (b : Evening.EveningBriefing) (x : Evening.WorkoutInfo)
  : Evening.EveningBriefing :=
  let a := Evening.Activity b in
  Evening.setActivity b
    {| Evening.Steps := Evening.Steps a; Evening.Workout := Some x;
       Evening.StandHours := Evening.StandHours a |}.

(** [&WorkoutInfo{Done: false}]. *)
Definition workoutNotDone : Evening.WorkoutInfo :=
  {| Evening.Done := false; Evening.Title := ""; Evening.Duration := "" |}.

(** The four words that mark a calendar event as a workout. *)
Definition workoutKeywords : list string :=
  ["workout"; "gym"; "training"; "jesper"].

Section EveningPipeline.

Context {T : time.Lib}.

(** [t.Before(u)] and [strings.ToLower], taken as given like the rest
    of the two packages. *)
Variable Before : time.Time -> time.Time -> bool.
Variable ToLower : string -> string.

(** Everything outside the program that one evening run observes. *)
Record EveningWorld := {
  (** [time.Now()] in [RunEveningBriefing] *)
  now_evening : time.Time;
  (** [sql.Open("sqlite", path)] *)
  evening_db : string + sql.DB;
  (** [mcporter call hevy.get-workouts page=1 pageSize=5] *)
  hevy_recent : Fetched (list Hevy.Workout);
  (** [td today --json] *)
  td_today_evening : Fetched Todoist.Response;
  (** [gog calendar events --account=... --json], per account *)
  gog_calendar_evening : string -> Fetched Gog.CalendarResponse;
  (** [td filter <filter> --json], per filter text *)
  td_filter : string -> Fetched Todoist.Response
}.

Definition getEveningWorkoutData (w : EveningWorld)
  (b : Evening.EveningBriefing) (today : string) : Evening.EveningBriefing :=
  match hevy_recent w with
  | ExecError err =>
      setWorkout (Evening.appendError b ("hevy error: " ++ err)) workoutNotDone
  | JSONError err =>
      setWorkout (Evening.appendError b ("hevy JSON parse error: " ++ err))
                 workoutNotDone
  | Payload workouts =>
      (* Check if any workout is from today *)
      let b := setWorkout b workoutNotDone in
      match find (fun w => strings.HasPrefix (Hevy.StartTime w) today)
                 workouts with
      | Some w =>
          setWorkout b
            {| Evening.Done := true; Evening.Title := Hevy.Title w;
               Evening.Duration := Hevy.Duration w |}
      | None => b
      end
  end.

(** The body of the loop over the tasks in [getEveningProtocolData]. *)
Definition protocolStep (today : string) (b : Evening.EveningBriefing)
  (task : Todoist.Task) : Evening.EveningBriefing :=
  (* Check if it's a med/protocol task *)
  if negb (isMed (Todoist.Labels task)) then b
  else
    let p := Evening.Protocols b in
    if Todoist.IsCompleted task then
      setProtocols b
        {| Evening.Completed := Evening.Completed p ++ [Todoist.Content task];
           Evening.Missed := Evening.Missed p |}
    else
      (* Check if overdue or just not done yet today *)
      if match Todoist.Due task with
         | Some due => strings.le (Todoist.Date due) today
         | None => false
         end then
        setProtocols b
          {| Evening.Completed := Evening.Completed p;
             Evening.Missed := Evening.Missed p ++ [Todoist.Content task] |}
      else b.

Definition getEveningProtocolData (w : EveningWorld)
  (b : Evening.EveningBriefing) (today : string) : Evening.EveningBriefing :=
  match td_today_evening w with
  | ExecError err => Evening.appendError b ("todoist error: " ++ err)
  | JSONError err => Evening.appendError b ("todoist JSON parse error: " ++ err)
  | Payload resp => fold_left (protocolStep today) (Todoist.Results resp) b
  end.

(** [calendarEventWithTime]: a calendar event and its parsed start. *)
Record calendarEventWithTime := {
  event : CalendarEvent;
  parsedTime : time.Time
}.

(** [getCalendarEventsForDate]; the briefing it is passed is not used. *)
Definition getCalendarEventsForDate (w : EveningWorld) (date account : string)
  : list calendarEventWithTime :=
  match gog_calendar_evening w account with
  | ExecError _ => []
  | JSONError _ => []
  | Payload resp =>
      fold_left
        (fun (events : list calendarEventWithTime) e =>
           let startTime := Gog.DateTime (Gog.Start e) in
           if (startTime =? "")%string then events   (* Skip all-day events *)
           else if negb (strings.HasPrefix startTime date) then events
           else
             match time.Parse_RFC3339 startTime with
             | None => events
             | Some t =>
                 (events ++
                  [ {| event := {| Time := time.Format_clock t;
                                   Summary := Gog.Summary e;
                                   Source := "" |};
                       parsedTime := t |} ])%list
             end)
        (Gog.Events resp) []
  end.

(** The test of the workout check: the lowered summary contains one of
    the four words. *)
Definition looksLikeWorkout (summary : string) : bool :=
  let lowerSummary := ToLower summary in
  strings.Contains lowerSummary "workout"
  || strings.Contains lowerSummary "gym"
  || strings.Contains lowerSummary "training"
  || strings.Contains lowerSummary "jesper".

(** The body of the loop of [getTomorrowCalendar]: the state is the
    first event so far, its time, and the briefing. *)
Definition tomorrowStep
  (st : option Evening.EventInfo * time.Time * Evening.EveningBriefing)
  (e : calendarEventWithTime)
  : option Evening.EventInfo * time.Time * Evening.EveningBriefing :=
  let '(firstEvent, firstTime, b) := st in
  let '(firstEvent, firstTime) :=
    if match firstEvent with None => true | Some _ => false end
       || Before (parsedTime e) firstTime
    then (Some {| Evening.Time := Time (event e);
                  Evening.Summary := Summary (event e) |},
          parsedTime e)
    else (firstEvent, firstTime) in
  (* Check if it's a workout *)
  let b :=
    if looksLikeWorkout (Summary (event e)) then
      let t := Evening.Tomorrow b in
      setTomorrow b
        {| Evening.FirstEvent := Evening.FirstEvent t;
           Evening.WorkoutScheduled := true;
           Evening.MedsDue := Evening.MedsDue t |}
    else b in
  (firstEvent, firstTime, b).

Definition getTomorrowCalendar (w : EveningWorld)
  (b : Evening.EveningBriefing) (tomorrow : string) : Evening.EveningBriefing :=
  (* Personal calendar *)
  let events := getCalendarEventsForDate w tomorrow accountPersonal in
  let events :=
    (events ++ getCalendarEventsForDate w tomorrow accountWork)%list in
  match events with
  | [] => b
  | _ =>
      (* Find first event *)
      let '(firstEvent, _, b) :=
        fold_left tomorrowStep events (None, time.zero, b) in
      let t := Evening.Tomorrow b in
      setTomorrow b
        {| Evening.FirstEvent := firstEvent;
           Evening.WorkoutScheduled := Evening.WorkoutScheduled t;
           Evening.MedsDue := Evening.MedsDue t |}
  end.

Definition getTomorrowMeds (w : EveningWorld)
  (b : Evening.EveningBriefing) (tomorrow : string) : Evening.EveningBriefing :=
  (* Query Todoist for tomorrow's meds *)
  match td_filter w ("due: " ++ tomorrow) with
  | ExecError _ => b
  | JSONError _ => b
  | Payload resp =>
      fold_left
        (fun b task =>
           if isMed (Todoist.Labels task) then
             let t := Evening.Tomorrow b in
             setTomorrow b
               {| Evening.FirstEvent := Evening.FirstEvent t;
                  Evening.WorkoutScheduled := Evening.WorkoutScheduled t;
                  Evening.MedsDue := Evening.MedsDue t ++ [Todoist.Content task] |}
           else b)
        (Todoist.Results resp) b
  end.

Definition addDays (date : string) (days : Z) : string :=
  let t := match time.Parse_date date with
           | Some t => t
           | None => time.zero
           end in
  time.Format_date (time.AddDate t 0 0 days).

Definition getTomorrowData (w : EveningWorld)
  (b : Evening.EveningBriefing) (today : string) : Evening.EveningBriefing :=
  let tomorrow := addDays today 1 in
  (* Get tomorrow's calendar events *)
  let b := getTomorrowCalendar w b tomorrow in
  (* Get tomorrow's meds from Todoist *)
  getTomorrowMeds w b tomorrow.

(** [RunEveningBriefing], up to the printing of the briefing. *)
Definition RunEveningBriefing (w : EveningWorld) : Evening.EveningBriefing :=
  let now := now_evening w in
  let today := time.Format_date now in
  let yesterdayDate := yesterday today in
  let briefing := Evening.initial (time.Format_RFC3339 now) today in
  (* Get data from health-ingest SQLite *)
  let briefing :=
    Evening.getEveningHealthData (evening_db w) briefing today yesterdayDate in
  (* Get today's workout from Hevy *)
  let briefing := getEveningWorkoutData w briefing today in
  (* Get protocol completion from Todoist *)
  let briefing := getEveningProtocolData w briefing today in
  (* Get tomorrow's preview *)
  getTomorrowData w briefing today.

End EveningPipeline.

(** ** Definitions used to state the properties *)

(** What each block of [classify] writes, as a function of the briefing
    it is given. *)
Definition sleepQualityOf (b : MorningBriefing) : string :=
  if negb (DataAvailable (Sleep b)) || negb (IsCurrentDay (Sleep b))
  then "UNKNOWN"
  else match TotalHours (Sleep b) with
       | None => SleepQuality (Classification_ b)
       | Some h =>
           let low := match DeepHours (Sleep b) with
                      | Some d => F64.lt d f1
                      | None => false
                      end in
           if F64.ge h f7 then (if low then "OK" else "GOOD")
           else if F64.ge h f5 then (if low then "POOR" else "OK")
           else "POOR"
       end.

Definition recoveryStatusOf (b : MorningBriefing) : string :=
  match HRV (Vitals b) with
  | None => "UNKNOWN"
  | Some v => if F64.le v f20 then "POOR"
              else if F64.lt v f40 then "OK" else "GOOD"
  end.

Definition morningLoadOf (b : MorningBriefing) : string :=
  if MorningCount (Calendar b) =? 0 then "CLEAR"
  else if MorningCount (Calendar b) <=? 2 then "LIGHT" else "PACKED".

(** The quality the total hours alone give: GOOD from 7 hours, OK from
    5 hours and below 7, POOR below 5. *)
Definition baseQuality (h : float64) (q : string) : Prop :=
  In q ["GOOD"; "OK"; "POOR"] /\
  (F64.ge h f7 = true -> q = "GOOD") /\
  (F64.ge h f5 = true -> F64.lt h f7 = true -> q = "OK") /\
  (F64.lt h f5 = true -> q = "POOR").

(** One step down: GOOD to OK, OK to POOR, POOR stays POOR. *)
Definition downgrade (q : string) : string :=
  if (q =? "GOOD")%string then "OK"
  else if (q =? "OK")%string then "POOR"
  else q.

(** Deep-sleep hours are present and below 1.0. *)
Definition deepSleepLow (deep : option float64) : bool :=
  match deep with
  | Some d => F64.lt d f1
  | None => false
  end.

(** The quality the threshold switch of [classify] computes. *)
Definition thresholdQuality (h : float64) : string :=
  if F64.ge h f7 then "GOOD" else if F64.ge h f5 then "OK" else "POOR".

(** The priority list of the specification: each rule is its trigger,
    evaluated on the three classifications and the HRV value, with its
    message; the first rule whose trigger holds gives the message. *)
Definition recommendationRules (sleep load recovery : string)
  (hrv : option float64) : list (bool * string) :=
  [ (* 1 *) match hrv with
            | Some v => ((recovery =? "POOR")%string,
                         if (sleep =? "POOR")%string
                         then msgPoorSleepPoorRecovery else msgLowHRV v)
            | None => (false, "")
            end;
    (* 2 *) ((sleep =? "POOR")%string && (load =? "PACKED")%string,
             msgRoughPacked);
    (* 3 *) ((sleep =? "POOR")%string && (load =? "LIGHT")%string,
             msgRoughLight);
    (* 4 *) ((sleep =? "POOR")%string && (load =? "CLEAR")%string,
             msgRoughClear);
    (* 5 *) ((sleep =? "OK")%string && (load =? "PACKED")%string,
             msgDecentBusy);
    (* 6 *) ((sleep =? "GOOD")%string, msgWellRested) ].

Fixpoint firstMatch (rules : list (bool * string)) (default : string) : string :=
  match rules with
  | [] => default
  | (true, msg) :: _ => msg
  | (false, _) :: rules' => firstMatch rules' default
  end.

Definition f15 : float64 := Eval vm_compute in F64.of_Z 15.

Definition f152 : float64 := Eval vm_compute in F64.of_Z 152.
Definition f144_4 : float64 := Eval vm_compute in F64.of_ratio 1444 10.

(** ** A time package for the examples

    An implementation of the [time] interface that reads a timestamp
    as a wall clock in one zone (the offset suffix is checked, not
    applied).  The theorems are stated for every implementation; this
    one evaluates them on concrete worlds. *)

Module WallClock.

Record t := {
  year : Z; month : Z; day : Z;
  hour : Z; minute : Z; second : Z
}.

Definition zero : t :=
  {| year := 1; month := 1; day := 1; hour := 0; minute := 0; second := 0 |}.

Definition digit (c : ascii) : option Z :=
  let n := Z.of_nat (nat_of_ascii c) in
  if (48 <=? n) && (n <=? 57) then Some (n - 48) else None.

(** The number written by the [len] digits of [s] from position [i]. *)
Fixpoint number (s : string) (i len : nat) (acc : Z) : option Z :=
  match len with
  | O => Some acc
  | S len' =>
      match String.get i s with
      | Some c =>
          match digit c with
          | Some d => number s (S i) len' (10 * acc + d)
          | None => None
          end
      | None => None
      end
  end.

Definition charAt (s : string) (i : nat) (c : string) : bool :=
  (String.substring i 1 s =? c)%string.

Definition isLeap (y : Z) : bool :=
  ((y mod 4 =? 0) && negb (y mod 100 =? 0)) || (y mod 400 =? 0).

Definition daysIn (y m : Z) : Z :=
  if m =? 2 then (if isLeap y then 29 else 28)
  else if (m =? 4) || (m =? 6) || (m =? 9) || (m =? 11) then 30
  else 31.

Definition validDate (y m d : Z) : bool :=
  (1 <=? m) && (m <=? 12) && (1 <=? d) && (d <=? daysIn y m).

Definition Parse_date (s : string) : option t :=
  match number s 0 4 0, number s 5 2 0, number s 8 2 0 with
  | Some y, Some m, Some d =>
      if (String.length s =? 10)%nat && charAt s 4 "-" && charAt s 7 "-"
         && validDate y m d
      then Some {| year := y; month := m; day := d;
                   hour := 0; minute := 0; second := 0 |}
      else None
  | _, _, _ => None
  end.

(** The zone suffix: [Z], or a sign and [hh:mm]. *)
Definition validZone (z : string) : bool :=
  (z =? "Z")%string
  || ((String.length z =? 6)%nat
      && (charAt z 0 "+" || charAt z 0 "-") && charAt z 3 ":"
      && match number z 1 2 0, number z 4 2 0 with
         | Some h, Some m => (h <? 24) && (m <? 60)
         | _, _ => false
         end).

Definition Parse_RFC3339 (s : string) : option t :=
  match Parse_date (String.substring 0 10 s),
        number s 11 2 0, number s 14 2 0, number s 17 2 0 with
  | Some d, Some h, Some mi, Some se =>
      if charAt s 10 "T" && charAt s 13 ":" && charAt s 16 ":"
         && (h <? 24) && (mi <? 60) && (se <? 60)
         && validZone (String.substring 19 (String.length s - 19) s)
      then Some {| year := year d; month := month d; day := day d;
                   hour := h; minute := mi; second := se |}
      else None
  | _, _, _, _ => None
  end.

(** Days since 1970-01-01 of a civil date, and back. *)
Definition daysFromCivil (y m d : Z) : Z :=
  let y := if m <=? 2 then y - 1 else y in
  let era := y / 400 in
  let yoe := y - era * 400 in
  let doy := (153 * (if m >? 2 then m - 3 else m + 9) + 2) / 5 + d - 1 in
  let doe := yoe * 365 + yoe / 4 - yoe / 100 + doy in
  era * 146097 + doe - 719468.

Definition civilFromDays (z : Z) : Z * Z * Z :=
  let z := z + 719468 in
  let era := z / 146097 in
  let doe := z - era * 146097 in
  let yoe := (doe - doe / 1460 + doe / 36524 - doe / 146096) / 365 in
  let y := yoe + era * 400 in
  let doy := doe - (365 * yoe + yoe / 4 - yoe / 100) in
  let mp := (5 * doy + 2) / 153 in
  let d := doy - (153 * mp + 2) / 5 + 1 in
  let m := if mp <? 10 then mp + 3 else mp - 9 in
  (if m <=? 2 then y + 1 else y, m, d).

Definition seconds (x : t) : Z :=
  ((daysFromCivil (year x) (month x) (day x) * 24 + hour x) * 60 + minute x)
  * 60 + second x.

Definition AddDate (x : t) (years months days : Z) : t :=
  let m0 := month x - 1 + months in
  let y := year x + years + m0 / 12 in
  let m := m0 mod 12 + 1 in
  let '(y', m', d') := civilFromDays (daysFromCivil y m (day x) + days) in
  {| year := y'; month := m'; day := d';
     hour := hour x; minute := minute x; second := second x |}.

Definition pad (width : nat) (n : Z) : string :=
  let s := F64.decimal n in
  String.concat "" (repeat "0" (width - String.length s)) ++ s.

Definition Format_date (x : t) : string :=
  pad 4 (year x) ++ "-" ++ pad 2 (month x) ++ "-" ++ pad 2 (day x).

Definition Format_clock (x : t) : string :=
  pad 2 (hour x) ++ ":" ++ pad 2 (minute x).

Definition Format_RFC3339 (x : t) : string :=
  Format_date x ++ "T" ++ Format_clock x ++ ":" ++ pad 2 (second x) ++ "Z".

Definition After (x u : t) : bool := seconds x >? seconds u.

Definition Sub_Hours (x u : t) : float64 :=
  F64.div (F64.of_Z (seconds x - seconds u)) (F64.of_Z 3600).

#[export] Instance lib : time.Lib := {|
  time.Time := t;
  time.zero := zero;
  time.Parse_RFC3339 := Parse_RFC3339;
  time.Parse_date := Parse_date;
  time.Hour := hour;
  time.Format_clock := Format_clock;
  time.Format_date := Format_date;
  time.Format_RFC3339 := Format_RFC3339;
  time.AddDate := AddDate;
  time.After := After;
  time.Sub_Hours := Sub_Hours
|}.

End WallClock.

(** A fetcher [f] is confined to a part of the briefing, with warnings
    [ws]: it appends exactly [ws], leaves the rest of the briefing as it
    was, and computes its part from the value that part had. *)
Definition confined {A O : Type}
  (part : MorningBriefing -> A) (rest : MorningBriefing -> O)
  (ws : list string) (f : MorningBriefing -> MorningBriefing) : Prop :=
  forall b : MorningBriefing,
    Errors (f b) = (Errors b ++ ws)%list /\
    rest (f b) = rest b /\
    (forall b' : MorningBriefing, part b = part b' -> part (f b) = part (f b')).

(** The parts of the report and what lies outside each. *)
Definition healthPart (b : MorningBriefing) := (Sleep b, Vitals b).
Definition healthRest (b : MorningBriefing) :=
  (GeneratedAt b, TargetDate b, Calendar b, Meds b, Training b,
   Classification_ b).
Definition calendarRest (b : MorningBriefing) :=
  (GeneratedAt b, TargetDate b, Sleep b, Vitals b, Meds b, Training b,
   Classification_ b).
Definition medsRest (b : MorningBriefing) :=
  (GeneratedAt b, TargetDate b, Sleep b, Vitals b, Calendar b, Training b,
   Classification_ b).
Definition trainingRest (b : MorningBriefing) :=
  (GeneratedAt b, TargetDate b, Sleep b, Vitals b, Calendar b, Meds b,
   Classification_ b).

(** The warnings of each source, as functions of what it answered. *)
Definition healthWarnings (r : Fetched HealthSummary.t) : list string :=
  match r with
  | ExecError err => ["health-ingest error: " ++ err]
  | JSONError err => ["health JSON parse error: " ++ err]
  | Payload _ => []
  end.

Definition queryWarning (what : string) (err : option sql.error) : list string :=
  match err with
  | Some e => [what ++ sql.Error e]
  | None => []
  end.

Definition storeWarnings (r : string + sql.DB) (today : string) : list string :=
  match r with
  | inl err => ["sqlite open error: " ++ err]
  | inr db =>
      queryWarning "HRV query error: " (snd (queryAverageHRV db today))
      ++ queryWarning "sleep stages query error: "
           (snd (querySleepStages db today))
      ++ queryWarning "respiratory rate query error: "
           (snd (queryLatestRespiratoryRate db today))
  end.

Definition calendarWarnings (source : string)
  (r : Fetched Gog.CalendarResponse) : list string :=
  match r with
  | ExecError err => ["calendar error (" ++ source ++ "): " ++ err]
  | JSONError err => ["calendar JSON parse error (" ++ source ++ "): " ++ err]
  | Payload _ => []
  end.

Definition medsWarnings (r : Fetched Todoist.Response) : list string :=
  match r with
  | ExecError err => ["todoist error: " ++ err]
  | JSONError err => ["todoist JSON parse error: " ++ err]
  | Payload _ => []
  end.

Definition trainingWarnings (r : Fetched (list Hevy.Workout)) : list string :=
  match r with
  | ExecError err => ["hevy error: " ++ err]
  | JSONError err => ["hevy JSON parse error: " ++ err]
  | Payload _ => []
  end.

(** The value the summary provider reports under a key, if any. *)
Definition summaryValue (r : Fetched HealthSummary.t) (key : string)
  : option float64 :=
  match r with
  | Payload summary =>
      option_map HealthSummary.Value
        (HealthSummary.lookup (HealthSummary.LatestStats summary) key)
  | _ => None
  end.

(** The values the metrics store reports for a date: nothing when the
    store cannot be opened, when the query fails, or when the answer is
    NULL or empty. *)
Definition storeHRV (r : string + sql.DB) (date : string) : option float64 :=
  match r with
  | inr db => match queryAverageHRV db date with
              | (v, None) => v
              | (_, Some _) => None
              end
  | inl _ => None
  end.

Definition storeDeep (r : string + sql.DB) (date : string) : option float64 :=
  match r with
  | inr db => match querySleepStages db date with
              | (deep, _, _, None) => deep
              | (_, _, _, Some _) => None
              end
  | inl _ => None
  end.

Definition storeREM (r : string + sql.DB) (date : string) : option float64 :=
  match r with
  | inr db => match querySleepStages db date with
              | (_, rem, _, None) => rem
              | (_, _, _, Some _) => None
              end
  | inl _ => None
  end.

Definition storeRR (r : string + sql.DB) (date : string) : option float64 :=
  match r with
  | inr db => match queryLatestRespiratoryRate db date with
              | (v, None) => v
              | (_, Some _) => None
              end
  | inl _ => None
  end.

(** Last write wins: the store's value when it reports one, else the
    value already in place. *)
Definition override (store inPlace : option float64) : option float64 :=
  match store with
  | Some v => Some v
  | None => inPlace
  end.

(** ** Two concrete worlds

    A morning on 2024-01-15 with every source answering, and the same
    morning with the calendar command failing for both accounts. *)

Module Sample.

Import WallClock.

Definition stat (v : float64) (ts : string) : HealthSummary.Stat :=
  {| HealthSummary.Value := v; HealthSummary.Unit := "";
     HealthSummary.Timestamp := ts |}.

Definition summary : HealthSummary.t :=
  {| HealthSummary.LatestStats :=
       [ ("sleep_total", stat (F64.of_ratio 75 10) "2024-01-15T06:30:00Z");
         ("sleep_deep", stat (F64.of_ratio 15 10) "2024-01-15T06:30:00Z");
         ("resting_heart_rate", stat (F64.of_Z 52) "2024-01-15T06:30:00Z");
         ("heart_rate_variability", stat (F64.of_Z 45) "2024-01-15T06:30:00Z");
         ("respiratory_rate", stat (F64.of_Z 14) "2024-01-15T06:30:00Z") ] |}.

Definition row (name ts : string) (v : float64) : sql.Row :=
  {| sql.metric_name := name; sql.timestamp := ts; sql.value := Some v |}.

Definition store : sql.DB :=
  {| sql.fault := None;
     sql.metrics :=
       [ row "heart_rate_variability" "2024-01-15T02:00:00Z" (F64.of_Z 30);
         row "heart_rate_variability" "2024-01-15T05:00:00Z" (F64.of_Z 34);
         row "sleep_deep" "2024-01-15T06:30:00Z" (F64.of_ratio 8 10);
         row "active_energy" "2024-01-15T18:00:00Z" (F64.of_Z 611) ] |}.

Definition event (start summary : string) : Gog.CalendarEvent :=
  {| Gog.Start := {| Gog.DateTime := start; Gog.Date := "" |};
     Gog.Summary := summary |}.

Definition calendars (account : string) : Fetched Gog.CalendarResponse :=
  if (account =? accountPersonal)%string then
    Payload {| Gog.Events := [ event "2024-01-15T09:00:00+07:00" "Dentist";
                               event "" "Birthday" ] |}
  else
    Payload {| Gog.Events := [ event "2024-01-15T10:30:00+07:00" "Standup";
                               event "2024-01-15T14:00:00+07:00" "Review";
                               event "2024-01-16T09:00:00+07:00" "Planning" ] |}.

Definition task (content : string) (labels : list string) (done : bool)
  (due : option (string * string)) : Todoist.Task :=
  {| Todoist.Content := content; Todoist.Labels := labels;
     Todoist.IsCompleted := done;
     Todoist.Due :=
       option_map (fun d => {| Todoist.Date := fst d;
                               Todoist.DateTime := snd d |}) due |}.

Definition tasks : Todoist.Response :=
  {| Todoist.Results :=
       [ task "Take vitamin D" [labelMeds] false
              (Some ("2024-01-15", "2024-01-15T08:00:00+07:00"));
         task "HCG injection" [labelInjection] true
              (Some ("2024-01-15", "2024-01-15T07:00:00+07:00"));
         task "Buy groceries" ["errands"] false (Some ("2024-01-15", ""));
         task "Creatine" [labelMeds] false None;
         task "Refill prescription" [labelMeds] false
              (Some ("2024-01-14", "")) ] |}.

Definition workouts : list Hevy.Workout :=
  [ {| Hevy.ID := "w1"; Hevy.Title := "Push day";
       Hevy.StartTime := "2024-01-13T17:00:00Z"; Hevy.Duration := "1h 5m";
       Hevy.Exercises := [ {| Hevy.Name := "Bench Press" |} ] |} ].

Definition clock : WallClock.t :=
  {| year := 2024; month := 1; day := 15; hour := 7; minute := 0; second := 0 |}.

Definition today : string := "2024-01-15".

Definition world : World :=
  {| now_main := clock; now_training := clock;
     health_ingest := Payload summary;
     health_db := inr store;
     gog_calendar := calendars;
     td_today := Payload tasks;
     hevy_workouts := Payload workouts |}.

Definition worldCalendarDown : World :=
  {| now_main := clock; now_training := clock;
     health_ingest := Payload summary;
     health_db := inr store;
     gog_calendar := fun _ => ExecError "exit status 1";
     td_today := Payload tasks;
     hevy_workouts := Payload workouts |}.

End Sample.

Definition failed {A : Type} (r : Fetched A) : bool :=
  match r with
  | Payload _ => false
  | _ => true
  end.

(** The warnings of a list that mention a word. *)
Definition mentioning (word : string) (warnings : list string) : list string :=
  filter (fun x => strings.Contains x word) warnings.

(** The blocks of [getEveningHealthData] after the energy balance leave
    the energy record alone. *)
Definition keepsEnergy (f : Evening.EveningBriefing -> Evening.EveningBriefing)
  : Prop :=
  forall b, Evening.Energy (f b) = Evening.Energy b.

(** ** Definitions used to state further properties *)

(** An event that has a start time on the given day: neither an
    all-day event nor an event of another day. *)
Definition eventOfDay (today : string) (e : Gog.CalendarEvent) : bool :=
  negb (Gog.DateTime (Gog.Start e) =? "")%string
  && strings.HasPrefix (Gog.DateTime (Gog.Start e)) today.

(** What a fetch delivered: the decoded list, nothing on a failure. *)
Definition fetchedEvents (r : Fetched Gog.CalendarResponse)
  : list Gog.CalendarEvent :=
  match r with
  | Payload resp => Gog.Events resp
  | _ => []
  end.

Definition fetchedTasks (r : Fetched Todoist.Response) : list Todoist.Task :=
  match r with
  | Payload resp => Todoist.Results resp
  | _ => []
  end.

Definition fetchedWorkouts (r : Fetched (list Hevy.Workout))
  : list Hevy.Workout :=
  match r with
  | Payload workouts => workouts
  | _ => []
  end.

(** The entry the summary provider has under a key, if any. *)
Definition summaryStat (r : Fetched HealthSummary.t) (key : string)
  : option HealthSummary.Stat :=
  match r with
  | Payload summary =>
      HealthSummary.lookup (HealthSummary.LatestStats summary) key
  | _ => None
  end.

(** The store was opened and none of the three queries of the morning
    report returned an error. *)
Definition storeAnswers (r : string + sql.DB) (today : string) : bool :=
  match r with
  | inr db =>
      match snd (queryAverageHRV db today), snd (querySleepStages db today),
            snd (queryLatestRespiratoryRate db today) with
      | None, None, None => true
      | _, _, _ => false
      end
  | inl _ => false
  end.

(** The load that goes with a number of morning events. *)
Definition loadOfCount (n : nat) : string :=
  match n with
  | O => "CLEAR"
  | 1%nat | 2%nat => "LIGHT"
  | _ => "PACKED"
  end.


Section TrainingSummaries.

Context {T : time.Lib}.

(** The summary entry of a workout whose start time parsed to [t]. *)
Definition workoutSummaryOf (w : Hevy.Workout) (t : time.Time)
  : WorkoutSummary :=
  {| ID := Hevy.ID w; Title := Hevy.Title w; Date := time.Format_date t;
     Duration := Hevy.Duration w;
     Exercises := map Hevy.Name (Hevy.Exercises w) |}.

(** The summaries of the workouts whose start time parses, in order. *)
Definition parsedSummaries (ws : list Hevy.Workout) : list WorkoutSummary :=
  flat_map (fun w => match time.Parse_RFC3339 (Hevy.StartTime w) with
                     | Some t => [workoutSummaryOf w t]
                     | None => []
                     end) ws.

(** A workout whose start time parses to a time after [weekAgo]. *)
Definition startedAfter (weekAgo : time.Time) (w : Hevy.Workout) : bool :=
  match time.Parse_RFC3339 (Hevy.StartTime w) with
  | Some t => time.After t weekAgo
  | None => false
  end.

End TrainingSummaries.


(** A medication task that is completed, and one that counts as missed
    in the evening: not completed, with a due object whose date is not
    after the target date. *)
Definition protocolDone (task : Todoist.Task) : bool :=
  isMed (Todoist.Labels task) && Todoist.IsCompleted task.

Definition protocolMissed (today : string) (task : Todoist.Task) : bool :=
  isMed (Todoist.Labels task) && negb (Todoist.IsCompleted task)
  && match Todoist.Due task with
     | Some due => strings.le (Todoist.Date due) today
     | None => false
     end.

(** The warnings of the evening workout fetch. *)
Definition eveningWorkoutWarnings (r : Fetched (list Hevy.Workout))
  : list string :=
  match r with
  | ExecError err => ["hevy error: " ++ err]
  | JSONError err => ["hevy JSON parse error: " ++ err]
  | Payload _ => []
  end.

(** What the evening fetchers after the health data never touch. *)
Definition eveningFixed (b : Evening.EveningBriefing) :=
  (Evening.Mode b, Evening.GeneratedAt b, Evening.TargetDate b,
   Evening.BMRKcal (Evening.Energy b), Evening.TargetG (Evening.Protein b)).

(** An evening world for the examples: the wall clock's order of
    instants, and lowering of the ASCII letters. *)
Module SampleEvening.

Import WallClock.

Definition before (x u : WallClock.t) : bool := seconds x <? seconds u.

Definition lowerChar (c : ascii) : ascii :=
  let n := nat_of_ascii c in
  if ((65 <=? n) && (n <=? 90))%nat then ascii_of_nat (n + 32) else c.

Fixpoint lower (s : string) : string :=
  match s with
  | EmptyString => EmptyString
  | String c s' => String (lowerChar c) (lower s')
  end.

Definition calendars (account : string) : Fetched Gog.CalendarResponse :=
  if (account =? accountPersonal)%string then
    Payload {| Gog.Events :=
                 [ Sample.event "2024-01-16T18:30:00+07:00" "Dinner";
                   Sample.event "2024-01-16T08:00:00+07:00" "Gym with Jesper" ] |}
  else
    Payload {| Gog.Events :=
                 [ Sample.event "2024-01-16T09:30:00+07:00" "Standup" ] |}.

Definition tomorrowTasks : Todoist.Response :=
  {| Todoist.Results :=
       [ Sample.task "Testosterone (Tue AM)" [labelInjection] false
                     (Some ("2024-01-16", ""));
         Sample.task "Pay rent" ["errands"] false (Some ("2024-01-16", "")) ] |}.

Definition clock : WallClock.t :=
  {| year := 2024; month := 1; day := 15; hour := 21; minute := 0;
     second := 0 |}.

Definition world : EveningWorld :=
  {| now_evening := clock;
     evening_db := inr Sample.store;
     hevy_recent := Payload Sample.workouts;
     td_today_evening := Payload Sample.tasks;
     gog_calendar_evening := calendars;
     td_filter := fun _ => Payload tomorrowTasks |}.

End SampleEvening.


(** What [getEveningHealthData] never writes: the header, the two
    constants of the user, the workout entry, the protocol lists and the
    preview of the day after. *)
Definition healthUntouched (b : Evening.EveningBriefing) :=
  (eveningFixed b, Evening.Workout (Evening.Activity b),
   Evening.Protocols b, Evening.Tomorrow b).

(** The warning of a day total: one when its query fails. *)
Definition dayTotalWarning (db : sql.DB) (metricName date : string)
  : list string :=
  match queryDayTotal db metricName date with
  | (_, Some err) => [metricName ++ " query error: " ++ sql.Error err]
  | (_, None) => []
  end.

(** The warnings of the evening health data. *)
Definition eveningHealthWarnings (opened : string + sql.DB) (today : string)
  : list string :=
  match opened with
  | inl err => ["sqlite open error: " ++ err]
  | inr db =>
      dayTotalWarning db "active_energy" today
      ++ dayTotalWarning db "dietary_energy" today
      ++ dayTotalWarning db "protein" today
      ++ dayTotalWarning db "steps" today
      ++ dayTotalWarning db "stand_hours" today
  end.

(** A block that appends the given warnings and writes nothing of
    [healthUntouched]. *)
Definition eveningEffect (ws : list string)
  (f : Evening.EveningBriefing -> Evening.EveningBriefing) : Prop :=
  forall b, healthUntouched (f b) = healthUntouched b
            /\ Evening.Errors (f b) = (Evening.Errors b ++ ws)%list.

(** The workout entry that goes with the workouts fetched. *)
Definition workoutToday (today : string) (workouts : list Hevy.Workout)
  : Evening.WorkoutInfo :=
  match find (fun x => strings.HasPrefix (Hevy.StartTime x) today) workouts with
  | Some x => {| Evening.Done := true; Evening.Title := Hevy.Title x;
                 Evening.Duration := Hevy.Duration x |}
  | None => workoutNotDone
  end.

(** Raising the workout flag of the day after, when asked to. *)
Definition flagWorkout (raise : bool) (b : Evening.EveningBriefing)
  : Evening.EveningBriefing :=
  if raise then
    let t := Evening.Tomorrow b in
    setTomorrow b
      {| Evening.FirstEvent := Evening.FirstEvent t;
         Evening.WorkoutScheduled := true;
         Evening.MedsDue := Evening.MedsDue t |}
  else b.

(** Adding names to the medications due the day after. *)
Definition addMedsDue (names : list string) (b : Evening.EveningBriefing)
  : Evening.EveningBriefing :=
  let t := Evening.Tomorrow b in
  setTomorrow b
    {| Evening.FirstEvent := Evening.FirstEvent t;
       Evening.WorkoutScheduled := Evening.WorkoutScheduled t;
       Evening.MedsDue := Evening.MedsDue t ++ names |}.

Section TomorrowEvents.

Context {T : time.Lib}.
Variable ToLower : string -> string.

(** The events of the day after, personal account first. *)
Definition tomorrowEvents (w : EveningWorld) (tomorrow : string)
  : list calendarEventWithTime :=
  (getCalendarEventsForDate w tomorrow accountPersonal
   ++ getCalendarEventsForDate w tomorrow accountWork)%list.

Definition eventInfoOf (e : calendarEventWithTime) : Evening.EventInfo :=
  {| Evening.Time := Time (event e); Evening.Summary := Summary (event e) |}.

Definition isWorkoutEvent (e : calendarEventWithTime) : bool :=
  looksLikeWorkout ToLower (Summary (event e)).

End TomorrowEvents.

Section ListedEvents.

Context {T : time.Lib}.

(** The entries one account's events give to a bucket of hours: of each
    event of the day whose start time parses to an hour of the bucket,
    the clock time, the summary and the source tag, in order. *)
Definition listedEvents (today source : string) (inBucket : Z -> bool)
  (events : list Gog.CalendarEvent) : list CalendarEvent :=
  flat_map
    (fun e =>
       if eventOfDay today e then
         match time.Parse_RFC3339 (Gog.DateTime (Gog.Start e)) with
         | Some t =>
             if inBucket (time.Hour t) then
               [ {| Time := time.Format_clock t; Summary := Gog.Summary e;
                    Source := source |} ]
             else []
         | None => []
         end
       else [])
    events.

Definition morningHour (h : Z) : bool := h <? 12.
Definition afternoonHour (h : Z) : bool := negb (h <? 12) && (h <? 18).

End ListedEvents.

(** The value of the last row that has one, [old] when none has. *)
Definition lastValueOr (old : option float64) (rows : list sql.Row)
  : option float64 :=
  fold_left (fun acc r => match sql.value r with
                          | Some v => Some v
                          | None => acc
                          end) rows old.

Definition lastValue (rows : list sql.Row) : option float64 :=
  lastValueOr None rows.

(** A night of six and a half hours. *)
Definition decentNight : MorningBriefing :=
  setSleep zeroBriefing
    {| TotalHours := Some (F64.of_ratio 65 10); DeepHours := None;
       REMHours := None; CoreHours := None; DataDate := "2024-01-15";
       IsCurrentDay := true; DataAvailable := true |}.

(** * Properties *)

(** ** The order of float64 values

    [SFcompare] orders the finite values by sign, exponent and
    mantissa; what the threshold rules need is that the comparisons
    exclude one another and chain. *)

Ltac order_cases :=
  repeat match goal with
  | |- context [Z.compare ?a ?b] => destruct (Z.compare_spec a b)
  | |- context [Pos.compare_cont Eq ?a ?b] =>
      change (Pos.compare_cont Eq a b) with (Pos.compare a b);
      destruct (Pos.compare_spec a b)
  end.

Ltac sf_order :=
  unfold F64.lt, F64.le, F64.ge, F64.gt, SFltb, SFleb;
  repeat match goal with
  | x : float64 |- _ => destruct x as [[]|[]| |[] ? ?]
  | x : spec_float |- _ => destruct x as [[]|[]| |[] ? ?]
  end;
  simpl; order_cases; simpl; intros;
  try discriminate; try reflexivity; try lia.

Lemma lt_not_ge (x y : float64) :
  F64.lt x y = true -> F64.ge x y = false.
Proof. sf_order. Qed.

Lemma le_not_gt (x y : float64) :
  F64.le x y = true -> F64.gt x y = false.
Proof. sf_order. Qed.

Lemma lt_le_trans (x y z : float64) :
  F64.lt x y = true -> F64.le y z = true -> F64.lt x z = true.
Proof. sf_order. Qed.

Lemma le_lt_trans (x y z : float64) :
  F64.le x y = true -> F64.lt y z = true -> F64.lt x z = true.
Proof. sf_order. Qed.

Lemma lt_irrefl (x : float64) : F64.lt x x = false.
Proof. sf_order. Qed.

Lemma mul_comm (x y : float64) : F64.mul x y = F64.mul y x.
Proof.
  destruct x as [sx|sx| |sx mx ex], y as [sy|sy| |sy my ey]; simpl;
    try reflexivity; try (now rewrite xorb_comm).
  unfold F64.mul; simpl.
  now rewrite xorb_comm, Pos.mul_comm, Z.add_comm.
Qed.

(** The thresholds are ordered as written. *)
Lemma f5_lt_f7 : F64.lt f5 f7 = true.
Proof. reflexivity. Qed.
Lemma f20_lt_f40 : F64.lt f20 f40 = true.
Proof. reflexivity. Qed.

(** ** classify, field by field

    Each block of [classify] writes one field of the classification and
    reads the report; what it writes is a function of the briefing it
    was given. *)

Lemma classifySleepQuality_eq (b : MorningBriefing) :
  classifySleepQuality b = setSleepQuality b (sleepQualityOf b).
Proof.
  unfold classifySleepQuality, sleepQualityOf.
  destruct (negb (DataAvailable (Sleep b)) || negb (IsCurrentDay (Sleep b)));
    [reflexivity|].
  destruct (TotalHours (Sleep b)) as [h|].
  - destruct (F64.ge h f7); [|destruct (F64.ge h f5)]; simpl;
      (destruct (DeepHours (Sleep b)) as [d|]; [destruct (F64.lt d f1)|]);
      reflexivity.
  - destruct b as [? ? ? ? ? ? ? [? ? ? ?] ?]; reflexivity.
Qed.

Lemma classifyRecoveryStatus_eq (b : MorningBriefing) :
  classifyRecoveryStatus b = setRecoveryStatus b (recoveryStatusOf b).
Proof.
  unfold classifyRecoveryStatus, recoveryStatusOf.
  destruct (HRV (Vitals b)) as [v|]; [|reflexivity].
  destruct (F64.le v f20); [|destruct (F64.lt v f40)]; reflexivity.
Qed.

Lemma classifyMorningLoad_eq (b : MorningBriefing) :
  classifyMorningLoad b = setMorningLoad b (morningLoadOf b).
Proof.
  unfold classifyMorningLoad, morningLoadOf.
  destruct (MorningCount (Calendar b) =? 0);
    [|destruct (MorningCount (Calendar b) <=? 2)]; reflexivity.
Qed.

(** The briefing the last block of [classify] starts from. *)
Lemma classify_eq (b : MorningBriefing) :
  classify b =
  classifyRecommendation
    (setMorningLoad
       (setRecoveryStatus (setSleepQuality b (sleepQualityOf b))
                          (recoveryStatusOf b))
       (morningLoadOf b)).
Proof.
  unfold classify.
  rewrite classifySleepQuality_eq, classifyRecoveryStatus_eq,
    classifyMorningLoad_eq.
  reflexivity.
Qed.

(** The last block writes the recommendation only. *)
Lemma classifyRecommendation_fields (b : MorningBriefing) :
  let b' := classifyRecommendation b in
  SleepQuality (Classification_ b') = SleepQuality (Classification_ b) /\
  RecoveryStatus (Classification_ b') = RecoveryStatus (Classification_ b) /\
  MorningLoad (Classification_ b') = MorningLoad (Classification_ b) /\
  Sleep b' = Sleep b /\ Vitals b' = Vitals b /\ Calendar b' = Calendar b /\
  Meds b' = Meds b /\ Training b' = Training b /\ Errors b' = Errors b.
Proof.
  unfold classifyRecommendation.
  destruct (RecoveryStatus (Classification_ b) =? "POOR")%string;
    [destruct (HRV (Vitals b))|];
    repeat match goal with
    | |- context [if ?c then _ else _] => destruct c
    end; simpl; repeat split; reflexivity.
Qed.

Lemma classify_SleepQuality (b : MorningBriefing) :
  SleepQuality (Classification_ (classify b)) = sleepQualityOf b.
Proof.
  rewrite classify_eq.
  destruct (classifyRecommendation_fields
    (setMorningLoad
       (setRecoveryStatus (setSleepQuality b (sleepQualityOf b))
                          (recoveryStatusOf b))
       (morningLoadOf b))) as (H & _).
  rewrite H. reflexivity.
Qed.

Lemma classify_RecoveryStatus (b : MorningBriefing) :
  RecoveryStatus (Classification_ (classify b)) = recoveryStatusOf b.
Proof.
  rewrite classify_eq.
  destruct (classifyRecommendation_fields
    (setMorningLoad
       (setRecoveryStatus (setSleepQuality b (sleepQualityOf b))
                          (recoveryStatusOf b))
       (morningLoadOf b))) as (_ & H & _).
  rewrite H. reflexivity.
Qed.

Lemma classify_MorningLoad (b : MorningBriefing) :
  MorningLoad (Classification_ (classify b)) = morningLoadOf b.
Proof.
  rewrite classify_eq.
  destruct (classifyRecommendation_fields
    (setMorningLoad
       (setRecoveryStatus (setSleepQuality b (sleepQualityOf b))
                          (recoveryStatusOf b))
       (morningLoadOf b))) as (_ & _ & H & _).
  rewrite H. reflexivity.
Qed.

Lemma classify_Vitals (b : MorningBriefing) : Vitals (classify b) = Vitals b.
Proof.
  rewrite classify_eq.
  destruct (classifyRecommendation_fields
    (setMorningLoad
       (setRecoveryStatus (setSleepQuality b (sleepQualityOf b))
                          (recoveryStatusOf b))
       (morningLoadOf b))) as (_ & _ & _ & _ & H & _).
  rewrite H. reflexivity.
Qed.

(** ** Sleep quality *)

Lemma baseQuality_thresholds (h : float64) : baseQuality h (thresholdQuality h).
Proof.
  unfold baseQuality, thresholdQuality.
  destruct (F64.ge h f7) eqn:H7; [|destruct (F64.ge h f5) eqn:H5].
  - split; [simpl; auto|]. split; [reflexivity|]. split.
    + intros _ Hlt. apply lt_not_ge in Hlt. congruence.
    + intros Hlt.
      pose proof (lt_le_trans _ _ _ Hlt (eq_refl : F64.le f5 f7 = true)) as H.
      apply lt_not_ge in H. congruence.
  - split; [simpl; auto|]. split; [discriminate|]. split; [reflexivity|].
    intros Hlt. apply lt_not_ge in Hlt. congruence.
  - split; [simpl; auto|]. split; [discriminate|]. split; [discriminate|].
    reflexivity.
Qed.

Lemma sleepQualityOf_present (b : MorningBriefing) (h : float64) :
  DataAvailable (Sleep b) = true -> IsCurrentDay (Sleep b) = true ->
  TotalHours (Sleep b) = Some h ->
  sleepQualityOf b =
  if deepSleepLow (DeepHours (Sleep b))
  then downgrade (thresholdQuality h) else thresholdQuality h.
Proof.
  intros Ha Hc Ht. unfold sleepQualityOf, thresholdQuality.
  rewrite Ha, Hc, Ht. simpl.
  fold (deepSleepLow (DeepHours (Sleep b))).
  destruct (F64.ge h f7); [|destruct (F64.ge h f5)];
    destruct (deepSleepLow _); reflexivity.
Qed.

Lemma sleepQualityOf_unknown (b : MorningBriefing) :
  DataAvailable (Sleep b) = false \/ IsCurrentDay (Sleep b) = false ->
  sleepQualityOf b = "UNKNOWN".
Proof.
  unfold sleepQualityOf. intros [-> | ->]; [reflexivity|].
  now rewrite orb_true_r.
Qed.

(** C1. For every morning report: when the sleep data is unavailable or
    not of the current day, [classify] sets the sleep quality to UNKNOWN;
    otherwise, when the total hours [h] are present, the quality is the
    base quality of [h] (GOOD if h >= 7, OK if 5 <= h < 7, POOR if h < 5),
    taken one step down when the deep-sleep hours are present and below
    1.0, and left as it is when they are absent (or not below 1.0). *)
Theorem classify_sleep_quality (b : MorningBriefing) :
  let s := Sleep b in
  let q := SleepQuality (Classification_ (classify b)) in
  (DataAvailable s = false \/ IsCurrentDay s = false -> q = "UNKNOWN") /\
  (forall h : float64,
      DataAvailable s = true -> IsCurrentDay s = true ->
      TotalHours s = Some h ->
      exists base : string,
        baseQuality h base /\
        q = (if deepSleepLow (DeepHours s) then downgrade base else base)) /\
  (DeepHours s = None -> deepSleepLow (DeepHours s) = false).
Proof.
  intros s q. subst q s. rewrite classify_SleepQuality.
  split; [|split].
  - apply sleepQualityOf_unknown.
  - intros h Ha Hc Ht. exists (thresholdQuality h).
    split; [apply baseQuality_thresholds|].
    apply sleepQualityOf_present; assumption.
  - intros ->. reflexivity.
Qed.

(** ** Recovery status *)

(** C3. For every morning report: without an HRV value the recovery
    status is UNKNOWN; with a value [v] it is POOR when v <= 20, OK when
    20 < v < 40 and GOOD when v >= 40; so 20 gives POOR and 40 gives
    GOOD. *)
Theorem classify_recovery_status (b : MorningBriefing) :
  let r := RecoveryStatus (Classification_ (classify b)) in
  (HRV (Vitals b) = None -> r = "UNKNOWN") /\
  (forall v : float64,
      HRV (Vitals b) = Some v ->
      (F64.le v f20 = true -> r = "POOR") /\
      (F64.gt v f20 = true -> F64.lt v f40 = true -> r = "OK") /\
      (F64.ge v f40 = true -> r = "GOOD")) /\
  (HRV (Vitals b) = Some f20 -> r = "POOR") /\
  (HRV (Vitals b) = Some f40 -> r = "GOOD").
Proof.
  intros r. subst r. rewrite classify_RecoveryStatus.
  unfold recoveryStatusOf.
  split; [|split; [|split]].
  - intros ->. reflexivity.
  - intros v ->. split; [|split].
    + intros ->. reflexivity.
    + intros Hgt ->.
      destruct (F64.le v f20) eqn:Hle; [|reflexivity].
      apply le_not_gt in Hle. congruence.
    + intros Hge.
      destruct (F64.le v f20) eqn:Hle.
      * pose proof (le_lt_trans _ _ _ Hle f20_lt_f40) as Hlt.
        apply lt_not_ge in Hlt. congruence.
      * destruct (F64.lt v f40) eqn:Hlt; [|reflexivity].
        apply lt_not_ge in Hlt. congruence.
  - intros ->. reflexivity.
  - intros ->. reflexivity.
Qed.

(** The boundary values of the specification's test list. *)
Example recovery_boundaries :
  let hrv v := setVitals zeroBriefing
                 {| RestingHR := None; HRV := Some v; SpO2 := None;
                    RespiratoryRate := None |} in
  map (fun v => RecoveryStatus (Classification_ (classify (hrv v))))
      [F64.of_Z 20; F64.of_ratio 2001 100; F64.of_ratio 3999 100; F64.of_Z 40]
  = ["POOR"; "OK"; "OK"; "GOOD"].
Proof. reflexivity. Qed.

Example sleep_boundaries :
  let sleep h d := setSleep zeroBriefing
                     {| TotalHours := Some h; DeepHours := d;
                        REMHours := None; CoreHours := None; DataDate := "";
                        IsCurrentDay := true; DataAvailable := true |} in
  map (fun hd => SleepQuality (Classification_ (classify (sleep (fst hd) (snd hd)))))
      [(F64.of_Z 7, None); (F64.of_ratio 6999 1000, None);
       (F64.of_Z 5, None); (F64.of_ratio 4999 1000, None);
       (F64.of_ratio 75 10, Some (F64.of_ratio 1 2));
       (F64.of_Z 6, Some (F64.of_ratio 1 2));
       (F64.of_Z 4, Some (F64.of_ratio 1 2));
       (F64.of_ratio 75 10, None)]
  = ["GOOD"; "OK"; "OK"; "POOR"; "OK"; "POOR"; "POOR"; "GOOD"].
Proof. reflexivity. Qed.

(** ** Recommendation *)

Lemma classifyRecommendation_rules (b : MorningBriefing) :
  Recommendation (Classification_ (classifyRecommendation b)) =
  firstMatch
    (recommendationRules (SleepQuality (Classification_ b))
                         (MorningLoad (Classification_ b))
                         (RecoveryStatus (Classification_ b))
                         (HRV (Vitals b)))
    msgUnavailable.
Proof.
  unfold classifyRecommendation, recommendationRules.
  destruct (RecoveryStatus (Classification_ b) =? "POOR")%string,
    (HRV (Vitals b)) as [v|],
    (SleepQuality (Classification_ b) =? "POOR")%string,
    (SleepQuality (Classification_ b) =? "OK")%string,
    (SleepQuality (Classification_ b) =? "GOOD")%string,
    (MorningLoad (Classification_ b) =? "PACKED")%string,
    (MorningLoad (Classification_ b) =? "LIGHT")%string,
    (MorningLoad (Classification_ b) =? "CLEAR")%string;
    reflexivity.
Qed.

(** C2. For every morning report the recommendation is the message of
    the first rule of the priority list that applies to the sleep
    quality, morning load and recovery status of the report (poor
    recovery with a known HRV first, then the five sleep/load rules),
    the data-unavailable text when none does.  With HRV = 15 and sleep
    quality POOR the result is the combined message and none of the
    rough-night messages. *)
Theorem classify_recommendation (b : MorningBriefing) :
  let c := Classification_ (classify b) in
  Recommendation c =
    firstMatch
      (recommendationRules (SleepQuality c) (MorningLoad c) (RecoveryStatus c)
                           (HRV (Vitals b)))
      msgUnavailable /\
  (HRV (Vitals b) = Some f15 -> SleepQuality c = "POOR" ->
   Recommendation c = msgPoorSleepPoorRecovery /\
   ~ In (Recommendation c) [msgRoughPacked; msgRoughLight; msgRoughClear]).
Proof.
  intros c.
  assert (Hrules :
    Recommendation c =
    firstMatch
      (recommendationRules (SleepQuality c) (MorningLoad c) (RecoveryStatus c)
                           (HRV (Vitals b)))
      msgUnavailable).
  { subst c.
    rewrite classify_SleepQuality, classify_MorningLoad,
      classify_RecoveryStatus.
    rewrite classify_eq, classifyRecommendation_rules. reflexivity. }
  split; [exact Hrules|].
  intros Hhrv Hsleep.
  assert (Hrec : RecoveryStatus c = "POOR").
  { subst c. rewrite classify_RecoveryStatus. unfold recoveryStatusOf.
    rewrite Hhrv. reflexivity. }
  rewrite Hrules, Hhrv, Hsleep, Hrec. simpl.
  split; [reflexivity|].
  intros [H | [H | [H | []]]]; discriminate H.
Qed.

(** ** Energy balance *)

(** The status follows the balance that is returned: deficit below -50,
    surplus above 50, maintenance in between. *)
Lemma CalculateEnergyBalance_status (bmr : Z) (active consumed : float64) :
  let '(balance, status) := CalculateEnergyBalance bmr active consumed in
  (status = "deficit" <-> balance < -50) /\
  (status = "surplus" <-> balance > 50) /\
  (status = "maintenance" <-> -50 <= balance <= 50).
Proof.
  unfold CalculateEnergyBalance.
  set (balance := F64.to_int _).
  destruct (Z.ltb_spec balance (-50)); [|destruct (Z.gtb_spec balance 50)];
    repeat split; intros; try discriminate; try reflexivity; lia.
Qed.

(** C5. At bmr = 1636, active = 611, consumed = 1850 the difference
    consumed - (bmr + active) is exactly -397, a whole number, and
    [CalculateEnergyBalance] returns -396: adding 0.5 and truncating
    towards zero rounds a negative balance up past the nearest whole
    number. *)
Theorem CalculateEnergyBalance_negative_off_by_one :
  (F64.of_Z 1850 - (F64.of_Z 1636 + F64.of_Z 611))%f64 = F64.of_Z (-397) /\
  CalculateEnergyBalance 1636 (F64.of_Z 611) (F64.of_Z 1850)
  = (-396, "deficit").
Proof. split; reflexivity. Qed.

(** ** Protein status *)

(** C6. For all inputs, [CalculateProteinStatus] returns as remaining
    the larger of 0 and target - consumed (0 when the difference is
    below 0, the difference otherwise), which is never below 0, and is
    on track exactly when consumed >= 0.95 * target; consumed = 144.4
    with target = 152 is on track with about 7.6 remaining, and
    consumed = 0 leaves 152 and is not on track. *)
Theorem CalculateProteinStatus_spec (consumed target : float64) :
  let remaining := fst (CalculateProteinStatus consumed target) in
  let onTrack := snd (CalculateProteinStatus consumed target) in
  let diff := (target - consumed)%f64 in
  (F64.lt diff f0 = true -> remaining = f0) /\
  (F64.lt diff f0 = false -> remaining = diff) /\
  F64.lt remaining f0 = false /\
  (onTrack = true <-> F64.ge consumed (f0_95 * target)%f64 = true) /\
  (let r := fst (CalculateProteinStatus f144_4 f152) in
   snd (CalculateProteinStatus f144_4 f152) = true /\
   F64.lt (F64.of_ratio 759 100) r = true /\
   F64.lt r (F64.of_ratio 761 100) = true) /\
  CalculateProteinStatus f0 f152 = (f152, false).
Proof.
  unfold CalculateProteinStatus. simpl fst. simpl snd.
  split; [|split; [|split; [|split; [|split]]]].
  - intros ->. reflexivity.
  - intros ->. reflexivity.
  - destruct (F64.lt (target - consumed)%f64 f0) eqn:H;
      [reflexivity | exact H].
  - rewrite (mul_comm f0_95 target). reflexivity.
  - repeat split; reflexivity.
  - reflexivity.
Qed.

(** ** Mode selection *)

(** C7. For every pair of flags: [ParseMode] returns an error exactly
    when both are set, and then no mode (the empty string); the mode
    evening when only the evening flag is set; the mode morning when
    only the morning flag is set and when neither is. *)
Theorem ParseMode_spec (morning evening : bool) :
  (snd (ParseMode morning evening) <> None
   <-> morning = true /\ evening = true) /\
  (morning = true /\ evening = true ->
   fst (ParseMode morning evening) = "") /\
  (morning = false /\ evening = true ->
   ParseMode morning evening = ("evening", None)) /\
  (morning = true /\ evening = false ->
   ParseMode morning evening = ("morning", None)) /\
  (morning = false /\ evening = false ->
   ParseMode morning evening = ("morning", None)).
Proof.
  destruct morning, evening; simpl; repeat split;
    try (intros [? ?]); try discriminate; try reflexivity; try congruence;
    intros H; exfalso; apply H; reflexivity.
Qed.

(** ** Medication tasks *)

Section MedsProperties.

Context {T : time.Lib}.

Lemma medsStep_loop (today : string) (tasks : list Todoist.Task) :
  forall b : MorningBriefing,
    Meds (fold_left (medsStep today) tasks b) =
    {| DueToday := DueToday (Meds b)
                   ++ medTasksWith today StatusDueToday tasks;
       Overdue := Overdue (Meds b)
                  ++ medTasksWith today StatusOverdue tasks;
       Completed := Completed (Meds b)
                    ++ medTasksWith today StatusCompleted tasks |}.
Proof.
  unfold medTasksWith.
  induction tasks as [|task tasks IH]; intros b; simpl.
  - rewrite !app_nil_r. destruct (Meds b); reflexivity.
  - rewrite IH. unfold medsStep, hasStatus, medStatus.
    destruct (isMed (Todoist.Labels task)); simpl; [|reflexivity].
    destruct (Todoist.IsCompleted task); simpl.
    + now rewrite <- app_assoc.
    + destruct (Todoist.Due task) as [due|]; simpl.
      * destruct (strings.lt (Todoist.Date due) today); simpl;
          now rewrite <- app_assoc.
      * now rewrite <- app_assoc.
Qed.

(** C10. For every parsed task list, the due-today and overdue lists
    that [getMedsData] adds are the tasks of that status in order;
    a medication task that is not completed and has no due object has
    status due-today, with an empty due date, and so is not among the
    overdue ones; the overdue ones are exactly the medication tasks
    that are not completed and whose due date is strictly before the
    target date. *)
Theorem getMedsData_buckets (w : World) (b : MorningBriefing)
  (today : string) (resp : Todoist.Response) :
  td_today w = Payload resp ->
  let m := Meds (getMedsData w b today) in
  DueToday m = (DueToday (Meds b)
                ++ medTasksWith today StatusDueToday (Todoist.Results resp))%list /\
  Overdue m = (Overdue (Meds b)
               ++ medTasksWith today StatusOverdue (Todoist.Results resp))%list /\
  (forall task : Todoist.Task,
      isMed (Todoist.Labels task) = true ->
      Todoist.IsCompleted task = false ->
      Todoist.Due task = None ->
      hasStatus today StatusDueToday task = true /\
      hasStatus today StatusOverdue task = false /\
      DueDate (medTaskOf task) = "") /\
  (forall task : Todoist.Task,
      hasStatus today StatusOverdue task = true <->
      isMed (Todoist.Labels task) = true /\
      Todoist.IsCompleted task = false /\
      exists due, Todoist.Due task = Some due /\
                  strings.lt (Todoist.Date due) today = true).
Proof.
  intros Hfetch m. subst m. unfold getMedsData. rewrite Hfetch.
  rewrite medsStep_loop. simpl.
  split; [reflexivity|]. split; [reflexivity|]. split.
  - intros task Hmed Hdone Hdue.
    unfold hasStatus, medStatus, medTaskOf.
    rewrite Hmed, Hdone, Hdue. simpl. auto.
  - intros task. unfold hasStatus, medStatus.
    destruct (isMed (Todoist.Labels task)); simpl.
    + destruct (Todoist.IsCompleted task); simpl.
      * split; [discriminate|]. intros (_ & H & _). discriminate H.
      * destruct (Todoist.Due task) as [due|]; simpl.
        -- destruct (strings.lt (Todoist.Date due) today) eqn:Hlt; simpl.
           ++ split; [|reflexivity]. intros _.
              repeat split. exists due. auto.
           ++ split; [discriminate|].
              intros (_ & _ & due' & Heq & Hlt').
              injection Heq as <-. congruence.
        -- split; [discriminate|].
           intros (_ & _ & due' & Heq & _). discriminate Heq.
    + split; [discriminate|]. intros (H & _). discriminate H.
Qed.

End MedsProperties.

(** ** Each fetcher is confined to its own part of the report

    The warnings a fetcher appends are fixed by the world, not by the
    briefing it is given; confinement is kept by composition and by
    loops. *)

Lemma confined_id {A O : Type} (part : MorningBriefing -> A)
  (rest : MorningBriefing -> O) :
  confined part rest [] (fun b => b).
Proof.
  intros b. rewrite app_nil_r. auto.
Qed.

Lemma confined_comp {A O : Type} (part : MorningBriefing -> A)
  (rest : MorningBriefing -> O) (ws ws' : list string)
  (f f' : MorningBriefing -> MorningBriefing) :
  confined part rest ws f -> confined part rest ws' f' ->
  confined part rest (ws ++ ws') (fun b => f' (f b)).
Proof.
  intros Hf Hf' b.
  destruct (Hf b) as (He & Hr & Hp), (Hf' (f b)) as (He' & Hr' & Hp').
  split; [|split].
  - rewrite He', He. now rewrite app_assoc.
  - now rewrite Hr', Hr.
  - intros b' Hb. apply Hp', Hp, Hb.
Qed.

Lemma confined_ext {A O : Type} (part : MorningBriefing -> A)
  (rest : MorningBriefing -> O) (ws : list string)
  (f g : MorningBriefing -> MorningBriefing) :
  (forall b, f b = g b) -> confined part rest ws f -> confined part rest ws g.
Proof.
  intros Hfg Hf b. rewrite <- Hfg.
  destruct (Hf b) as (He & Hr & Hp).
  split; [exact He|]. split; [exact Hr|].
  intros b' Hb. rewrite <- Hfg. apply Hp, Hb.
Qed.

Lemma confined_fold {A O E : Type} (part : MorningBriefing -> A)
  (rest : MorningBriefing -> O)
  (step : MorningBriefing -> E -> MorningBriefing) :
  (forall e, confined part rest [] (fun b => step b e)) ->
  forall es, confined part rest [] (fun b => fold_left step es b).
Proof.
  intros Hstep es. induction es as [|e es IH]; simpl.
  - apply confined_id.
  - change (confined part rest ([] ++ [])
              (fun b => (fun b0 => fold_left step es b0)
                          ((fun b0 => step b0 e) b))).
    apply confined_comp; [apply Hstep | exact IH].
Qed.

Lemma confined_appendError {A O : Type} (part : MorningBriefing -> A)
  (rest : MorningBriefing -> O) (msg : string) :
  (forall b, part (appendError b msg) = part b) ->
  (forall b, rest (appendError b msg) = rest b) ->
  confined part rest [msg] (fun b => appendError b msg).
Proof.
  intros Hp Hr b. split; [reflexivity|]. split; [apply Hr|].
  intros b' Hb. now rewrite !Hp.
Qed.

Section Confinement.

Context {T : time.Lib}.

Ltac confined_cases :=
  intros b; simpl;
  repeat match goal with
  | |- context [if ?c then _ else _] => destruct c
  | |- context [match ?x with _ => _ end] => destruct x
  end;
  simpl; rewrite ?app_nil_r;
  (split; [reflexivity | split; [reflexivity |]]);
  intros b' Hb; simpl; try (rewrite Hb; reflexivity); try exact Hb.

Lemma calendarEventStep_confined (today source : string) (e : Gog.CalendarEvent) :
  confined Calendar calendarRest [] (fun b => calendarEventStep today source b e).
Proof.
  unfold calendarEventStep. confined_cases.
Qed.

Lemma getCalendarEvents_confined (w : World) (today account source : string) :
  confined Calendar calendarRest
    (calendarWarnings source (gog_calendar w account))
    (fun b => getCalendarEvents w b today account source).
Proof.
  unfold getCalendarEvents, calendarWarnings.
  destruct (gog_calendar w account) as [err|err|resp].
  - apply confined_appendError; reflexivity.
  - apply confined_appendError; reflexivity.
  - apply confined_fold. apply calendarEventStep_confined.
Qed.

Lemma getCalendarData_eq (w : World) (b : MorningBriefing) (today : string) :
  getCalendarData w b today =
  calendarTotals
    (getCalendarEvents w
       (getCalendarEvents w b today accountPersonal "personal")
       today accountWork "work").
Proof. reflexivity. Qed.

Lemma calendarTotals_confined : confined Calendar calendarRest [] calendarTotals.
Proof.
  unfold calendarTotals. intros b. simpl.
  split; [|split].
  - destruct (MorningEvents (Calendar b)); simpl; now rewrite app_nil_r.
  - destruct (MorningEvents (Calendar b)); reflexivity.
  - intros b' Hb. rewrite Hb. destruct (MorningEvents (Calendar b')); reflexivity.
Qed.

Lemma getCalendarData_confined (w : World) (today : string) :
  confined Calendar calendarRest
    (calendarWarnings "personal" (gog_calendar w accountPersonal)
     ++ calendarWarnings "work" (gog_calendar w accountWork))
    (fun b => getCalendarData w b today).
Proof.
  apply (confined_ext Calendar calendarRest _
           (fun b => calendarTotals
                       ((fun b0 => getCalendarEvents w
                                     ((fun b1 => getCalendarEvents w b1 today
                                                   accountPersonal "personal") b0)
                                     today accountWork "work") b))).
  { intros b. symmetry. apply getCalendarData_eq. }
  rewrite <- (app_nil_r (_ ++ _)%list).
  apply confined_comp; [|apply calendarTotals_confined].
  apply (confined_comp Calendar calendarRest _ _
           (fun b => getCalendarEvents w b today accountPersonal "personal")
           (fun b => getCalendarEvents w b today accountWork "work"));
    apply getCalendarEvents_confined.
Qed.

Lemma medsStep_confined (today : string) (task : Todoist.Task) :
  confined Meds medsRest [] (fun b => medsStep today b task).
Proof.
  unfold medsStep. confined_cases.
Qed.

Lemma getMedsData_confined (w : World) (today : string) :
  confined Meds medsRest (medsWarnings (td_today w))
    (fun b => getMedsData w b today).
Proof.
  unfold getMedsData, medsWarnings.
  destruct (td_today w) as [err|err|resp].
  - apply confined_appendError; reflexivity.
  - apply confined_appendError; reflexivity.
  - apply confined_fold. apply medsStep_confined.
Qed.

Lemma getTrainingData_confined (w : World) (today : string) :
  confined Training trainingRest (trainingWarnings (hevy_workouts w))
    (fun b => getTrainingData w b today).
Proof.
  unfold getTrainingData, trainingWarnings.
  destruct (hevy_workouts w) as [err|err|[|w0 workouts]].
  - apply confined_appendError; reflexivity.
  - apply confined_appendError; reflexivity.
  - apply confined_id.
  - intros b. split; [|split].
    + destruct (fold_left _ _ _) as [tr n]. symmetry. apply app_nil_r.
    + destruct (fold_left _ _ _) as [tr n]. reflexivity.
    + intros b' Hb. rewrite Hb.
      destruct (fold_left _ _ _) as [tr n]. reflexivity.
Qed.

Ltac health_part :=
  intros b;
  (split; [first [reflexivity | symmetry; apply app_nil_r]
          | split; [reflexivity |]]);
  let b' := fresh "b'" in
  let Hb := fresh "Hb" in
  let Hs := fresh "Hs" in
  let Hv := fresh "Hv" in
  intros b' Hb; unfold healthPart in Hb; injection Hb as Hs Hv;
  unfold healthPart;
  cbn [Sleep Vitals setSleep setVitals appendError];
  rewrite ?Hs, ?Hv; reflexivity.

(** A block followed by the rest of the function, both confined. *)
Ltac confined_blocks :=
  lazymatch goal with
  | |- confined ?p ?r [] (fun b => let x := @?f b in @?g x) =>
      apply (confined_comp p r [] [] f g); [|confined_blocks]
  | |- _ => idtac
  end.

Lemma applyHealthSummary_confined (summary : HealthSummary.t) (today : string) :
  confined healthPart healthRest [] (applyHealthSummary summary today).
Proof.
  cbv beta delta [applyHealthSummary].
  confined_blocks;
    match goal with
    | |- context [HealthSummary.lookup ?m ?k] =>
        destruct (HealthSummary.lookup m k)
    end; health_part.
Qed.

Lemma getHealthData_confined (w : World) (today : string) :
  confined healthPart healthRest (healthWarnings (health_ingest w))
    (fun b => getHealthData w b today).
Proof.
  unfold getHealthData, healthWarnings.
  destruct (health_ingest w) as [err|err|summary].
  - apply confined_appendError; reflexivity.
  - apply confined_appendError; reflexivity.
  - apply applyHealthSummary_confined.
Qed.

Lemma storeAverageHRV_confined (db : sql.DB) (today : string) :
  confined healthPart healthRest
    (queryWarning "HRV query error: " (snd (queryAverageHRV db today)))
    (storeAverageHRV db today).
Proof.
  unfold storeAverageHRV.
  destruct (queryAverageHRV db today) as [[v|] [e|]]; health_part.
Qed.

Lemma storeSleepStages_confined (db : sql.DB) (today : string) :
  confined healthPart healthRest
    (queryWarning "sleep stages query error: "
       (snd (querySleepStages db today)))
    (storeSleepStages db today).
Proof.
  unfold storeSleepStages.
  destruct (querySleepStages db today) as [[[[d|] [r|]] [c|]] [e|]];
    health_part.
Qed.

Lemma storeRespiratoryRate_confined (db : sql.DB) (today : string) :
  confined healthPart healthRest
    (queryWarning "respiratory rate query error: "
       (snd (queryLatestRespiratoryRate db today)))
    (storeRespiratoryRate db today).
Proof.
  unfold storeRespiratoryRate.
  destruct (queryLatestRespiratoryRate db today) as [[v|] [e|]]; health_part.
Qed.

Lemma getHealthDataFromSQLite_confined (w : World) (today : string) :
  confined healthPart healthRest (storeWarnings (health_db w) today)
    (fun b => getHealthDataFromSQLite w b today).
Proof.
  unfold getHealthDataFromSQLite, storeWarnings.
  destruct (health_db w) as [err|db].
  - apply confined_appendError; reflexivity.
  - rewrite app_assoc.
    apply (confined_comp healthPart healthRest _ _
             (fun b => storeSleepStages db today (storeAverageHRV db today b))
             (storeRespiratoryRate db today));
      [|apply storeRespiratoryRate_confined].
    apply (confined_comp healthPart healthRest _ _
             (storeAverageHRV db today) (storeSleepStages db today));
      [apply storeAverageHRV_confined | apply storeSleepStages_confined].
Qed.

End Confinement.

(** ** The morning pipeline, part by part *)

Lemma classify_frame (b : MorningBriefing) :
  Sleep (classify b) = Sleep b /\ Vitals (classify b) = Vitals b /\
  Calendar (classify b) = Calendar b /\ Meds (classify b) = Meds b /\
  Training (classify b) = Training b /\ Errors (classify b) = Errors b.
Proof.
  rewrite classify_eq.
  destruct (classifyRecommendation_fields
    (setMorningLoad
       (setRecoveryStatus (setSleepQuality b (sleepQualityOf b))
                          (recoveryStatusOf b))
       (morningLoadOf b))) as (_ & _ & _ & Hs & Hv & Hc & Hm & Ht & He).
  rewrite Hs, Hv, Hc, Hm, Ht, He. repeat split; reflexivity.
Qed.

Section MainProperties.

Context {T : time.Lib}.

Lemma main_eq (w : World) :
  main w =
  classify
    (getTrainingData w
       (getMedsData w
          (getCalendarData w (afterHealth w) (todayOf w))
          (todayOf w))
       (todayOf w)).
Proof. reflexivity. Qed.

(** Every part of the final report is the one its own fetcher computes
    from the initial briefing, and the warnings are those of the
    sources in the order they are queried. *)
Lemma main_parts (w : World) :
  let today := todayOf w in
  let b0 := initialBriefing w in
  Sleep (main w) = Sleep (afterHealth w) /\
  Vitals (main w) = Vitals (afterHealth w) /\
  Calendar (main w) = Calendar (getCalendarData w b0 today) /\
  Meds (main w) = Meds (getMedsData w b0 today) /\
  Training (main w) = Training (getTrainingData w b0 today) /\
  Errors (main w) =
    (healthWarnings (health_ingest w)
     ++ storeWarnings (health_db w) today
     ++ calendarWarnings "personal" (gog_calendar w accountPersonal)
     ++ calendarWarnings "work" (gog_calendar w accountWork)
     ++ medsWarnings (td_today w)
     ++ trainingWarnings (hevy_workouts w))%list.
Proof.
  intros today b0. rewrite main_eq. fold today.
  set (bH1 := getHealthData w b0 today).
  assert (HbH : afterHealth w = getHealthDataFromSQLite w bH1 today)
    by reflexivity.
  set (bH := afterHealth w) in *.
  set (bC := getCalendarData w bH today).
  set (bM := getMedsData w bC today).
  set (bT := getTrainingData w bM today).
  destruct (classify_frame bT) as (Hs & Hv & Hc & Hm & Ht & He).
  rewrite Hs, Hv, Hc, Hm, Ht, He.
  destruct (getHealthData_confined w today b0) as (E1 & R1 & _).
  destruct (getHealthDataFromSQLite_confined w today bH1) as (E2 & R2 & _).
  destruct (getCalendarData_confined w today bH) as (E3 & R3 & P3).
  destruct (getMedsData_confined w today bC) as (E4 & R4 & P4).
  destruct (getTrainingData_confined w today bM) as (E5 & R5 & P5).
  fold bH1 in E1, R1. rewrite <- HbH in E2, R2.
  fold bC in E3, R3. fold bM in E4, R4. fold bT in E5, R5.
  unfold healthRest in R1, R2. unfold calendarRest in R3.
  unfold medsRest in R4. unfold trainingRest in R5.
  injection R1 as ? ? C1 M1 T1 ?. injection R2 as ? ? C2 M2 T2 ?.
  injection R3 as ? ? S3 V3 M3 T3 ?. injection R4 as ? ? S4 V4 C4 T4 ?.
  injection R5 as ? ? S5 V5 C5 M5 ?.
  repeat split.
  - congruence.
  - congruence.
  - rewrite C5, C4. apply P3. fold bH. rewrite C2, C1. reflexivity.
  - rewrite M5. apply P4. fold bC. rewrite M3, M2, M1. reflexivity.
  - apply P5. fold bM. rewrite T4, T3, T2, T1. reflexivity.
  - rewrite E5, E4, E3, E2, E1. simpl. now rewrite <- !app_assoc.
Qed.

End MainProperties.

(** ** Precedence of the metrics store over the summary *)

Section Precedence.

Context {T : time.Lib}.

Lemma applyHealthSummary_fields (summary : HealthSummary.t) (today : string)
  (b : MorningBriefing) :
  let stats := HealthSummary.LatestStats summary in
  let pick key old :=
    match HealthSummary.lookup stats key with
    | Some st => Some (HealthSummary.Value st)
    | None => old
    end in
  let b' := applyHealthSummary summary today b in
  HRV (Vitals b') = pick "heart_rate_variability" (HRV (Vitals b)) /\
  DeepHours (Sleep b') = pick "sleep_deep" (DeepHours (Sleep b)) /\
  REMHours (Sleep b') = pick "sleep_rem" (REMHours (Sleep b)) /\
  RespiratoryRate (Vitals b') = RespiratoryRate (Vitals b) /\
  CoreHours (Sleep b') = CoreHours (Sleep b).
Proof.
  cbv zeta. cbv beta delta [applyHealthSummary].
  set (o1 := HealthSummary.lookup _ "sleep_total").
  set (o2 := HealthSummary.lookup _ "sleep_deep").
  set (o3 := HealthSummary.lookup _ "sleep_rem").
  set (o4 := HealthSummary.lookup _ "resting_heart_rate").
  set (o5 := HealthSummary.lookup _ "heart_rate_variability").
  set (o6 := HealthSummary.lookup _ "blood_oxygen_saturation").
  destruct o1, o2, o3, o4, o5, o6; repeat split; reflexivity.
Qed.

(** What the summary step leaves in a fresh briefing. *)
Lemma getHealthData_fields (w : World) (b : MorningBriefing) (today : string) :
  Sleep b = zeroSleep -> Vitals b = zeroVitals ->
  let b' := getHealthData w b today in
  HRV (Vitals b') = summaryValue (health_ingest w) "heart_rate_variability" /\
  DeepHours (Sleep b') = summaryValue (health_ingest w) "sleep_deep" /\
  REMHours (Sleep b') = summaryValue (health_ingest w) "sleep_rem" /\
  RespiratoryRate (Vitals b') = None /\
  CoreHours (Sleep b') = None.
Proof.
  intros Hs Hv. unfold getHealthData, summaryValue.
  destruct (health_ingest w) as [err|err|summary].
  - cbn [Sleep Vitals appendError]. rewrite Hs, Hv. repeat split; reflexivity.
  - cbn [Sleep Vitals appendError]. rewrite Hs, Hv. repeat split; reflexivity.
  - destruct (applyHealthSummary_fields summary today b)
      as (H1 & H2 & H3 & H4 & H5).
    cbv zeta in H1, H2, H3, H4, H5 |- *.
    rewrite H1, H2, H3, H4, H5, Hs, Hv.
    repeat split; try reflexivity;
      match goal with
      | |- context [HealthSummary.lookup ?m ?k] =>
          destruct (HealthSummary.lookup m k); reflexivity
      end.
Qed.

(** What the store step does to the fields it shares with the summary. *)
Lemma getHealthDataFromSQLite_fields (w : World) (b : MorningBriefing)
  (today : string) :
  let b' := getHealthDataFromSQLite w b today in
  HRV (Vitals b') = override (storeHRV (health_db w) today) (HRV (Vitals b)) /\
  DeepHours (Sleep b')
  = override (storeDeep (health_db w) today) (DeepHours (Sleep b)) /\
  REMHours (Sleep b')
  = override (storeREM (health_db w) today) (REMHours (Sleep b)) /\
  RespiratoryRate (Vitals b')
  = override (storeRR (health_db w) today) (RespiratoryRate (Vitals b)).
Proof.
  unfold getHealthDataFromSQLite, storeHRV, storeDeep, storeREM, storeRR.
  destruct (health_db w) as [err|db].
  - repeat split; reflexivity.
  - unfold storeAverageHRV, storeSleepStages, storeRespiratoryRate.
    destruct (queryAverageHRV db today) as [[v|] [e|]];
      destruct (querySleepStages db today) as [[[[d|] [r|]] [c|]] [e'|]];
      destruct (queryLatestRespiratoryRate db today) as [[rr|] [e''|]];
      repeat split; reflexivity.
Qed.

(** C4 (as amended). In the final report of the morning pipeline each
    field the metrics store can supply (HRV, deep and REM sleep hours,
    respiratory rate) holds the store's value whenever the store
    reports one for the target date, whatever the summary provider
    reported; when the store reports none (it cannot be opened, the
    query fails, or the answer is NULL or empty) the field is as the
    summary step left it.  For HRV, deep and REM hours that is the
    summary provider's value.  For the respiratory rate it is nothing:
    the summary step never reads the provider's respiratory rate, so
    the final respiratory rate is the store's value or absent. *)
Theorem main_store_overrides_summary (w : World) :
  let today := todayOf w in
  let summarised := getHealthData w (initialBriefing w) today in
  let final := main w in
  HRV (Vitals final)
  = override (storeHRV (health_db w) today) (HRV (Vitals summarised)) /\
  DeepHours (Sleep final)
  = override (storeDeep (health_db w) today) (DeepHours (Sleep summarised)) /\
  REMHours (Sleep final)
  = override (storeREM (health_db w) today) (REMHours (Sleep summarised)) /\
  RespiratoryRate (Vitals final)
  = override (storeRR (health_db w) today)
             (RespiratoryRate (Vitals summarised)) /\
  HRV (Vitals summarised)
  = summaryValue (health_ingest w) "heart_rate_variability" /\
  DeepHours (Sleep summarised) = summaryValue (health_ingest w) "sleep_deep" /\
  REMHours (Sleep summarised) = summaryValue (health_ingest w) "sleep_rem" /\
  RespiratoryRate (Vitals summarised) = None /\
  RespiratoryRate (Vitals final) = storeRR (health_db w) today.
Proof.
  intros today summarised final.
  destruct (main_parts w) as (Hs & Hv & _).
  subst final. rewrite Hs, Hv. unfold afterHealth. fold today. fold summarised.
  destruct (getHealthDataFromSQLite_fields w summarised today)
    as (H1 & H2 & H3 & H4).
  destruct (getHealthData_fields w (initialBriefing w) today eq_refl eq_refl)
    as (G1 & G2 & G3 & G4 & _).
  fold summarised in G1, G2, G3, G4.
  repeat (split; [assumption|]).
  rewrite H4, G4. destruct (storeRR (health_db w) today); reflexivity.
Qed.

End Precedence.

(** ** Fetch isolation *)

Lemma calendarWarnings_mention (source : string)
  (r : Fetched Gog.CalendarResponse) :
  mentioning "calendar" (calendarWarnings source r) = calendarWarnings source r /\
  List.length (calendarWarnings source r) = (if failed r then 1 else 0)%nat.
Proof.
  destruct r as [err|err|resp]; split; reflexivity.
Qed.

Section Isolation.

Context {T : time.Lib}.

Lemma initialBriefing_now (w w' : World) :
  now_main w = now_main w' ->
  initialBriefing w = initialBriefing w' /\ todayOf w = todayOf w'.
Proof.
  unfold initialBriefing, todayOf. intros ->. split; reflexivity.
Qed.

(** C9 (as amended). The run always yields a briefing, and for every
    combination of outcomes: the sleep and vitals fields depend only on
    what the two health sources answered, the calendar fields only on
    the two calendar queries, the meds fields only on the task query and
    the training fields only on the workout query, so a failure
    elsewhere leaves them exactly as without it; the warnings are those
    of the failing queries, in query order; and when every source but
    the calendar answers, there is one warning per failing calendar
    account (none, one or two), each mentioning "calendar". *)
Theorem main_fetch_isolation (w w' : World) :
  now_main w = now_main w' ->
  (health_ingest w = health_ingest w' -> health_db w = health_db w' ->
   Sleep (main w) = Sleep (main w') /\ Vitals (main w) = Vitals (main w')) /\
  (gog_calendar w accountPersonal = gog_calendar w' accountPersonal ->
   gog_calendar w accountWork = gog_calendar w' accountWork ->
   Calendar (main w) = Calendar (main w')) /\
  (td_today w = td_today w' -> Meds (main w) = Meds (main w')) /\
  (hevy_workouts w = hevy_workouts w' -> now_training w = now_training w' ->
   Training (main w) = Training (main w')) /\
  Errors (main w) =
    (healthWarnings (health_ingest w)
     ++ storeWarnings (health_db w) (todayOf w)
     ++ calendarWarnings "personal" (gog_calendar w accountPersonal)
     ++ calendarWarnings "work" (gog_calendar w accountWork)
     ++ medsWarnings (td_today w)
     ++ trainingWarnings (hevy_workouts w))%list /\
  (healthWarnings (health_ingest w) = [] ->
   storeWarnings (health_db w) (todayOf w) = [] ->
   medsWarnings (td_today w) = [] ->
   trainingWarnings (hevy_workouts w) = [] ->
   mentioning "calendar" (Errors (main w)) = Errors (main w) /\
   List.length (Errors (main w)) =
     ((if failed (gog_calendar w accountPersonal) then 1 else 0)
      + (if failed (gog_calendar w accountWork) then 1 else 0))%nat).
Proof.
  intros Hnow.
  destruct (initialBriefing_now w w' Hnow) as (Hb0 & Htoday).
  destruct (main_parts w) as (Hs & Hv & Hc & Hm & Ht & He).
  destruct (main_parts w') as (Hs' & Hv' & Hc' & Hm' & Ht' & _).
  split; [|split; [|split; [|split; [|split]]]].
  - intros Hh Hd. rewrite Hs, Hv, Hs', Hv'.
    unfold afterHealth, getHealthDataFromSQLite, getHealthData.
    rewrite Hh, Hd, Hb0, Htoday. split; reflexivity.
  - intros Hp Hw. rewrite Hc, Hc'.
    unfold getCalendarData, getCalendarEvents.
    rewrite Hp, Hw, Hb0, Htoday. reflexivity.
  - intros Htd. rewrite Hm, Hm'.
    unfold getMedsData. rewrite Htd, Hb0, Htoday. reflexivity.
  - intros Hh Hn. rewrite Ht, Ht'.
    unfold getTrainingData. rewrite Hh, Hn, Hb0. reflexivity.
  - exact He.
  - intros H1 H2 H3 H4. rewrite He, H1, H2, H3, H4.
    rewrite app_nil_r. simpl app.
    destruct (calendarWarnings_mention "personal"
                (gog_calendar w accountPersonal)) as (Mp & Lp).
    destruct (calendarWarnings_mention "work"
                (gog_calendar w accountWork)) as (Mw & Lw).
    split.
    + unfold mentioning in *. rewrite filter_app, Mp, Mw. reflexivity.
    + rewrite length_app, Lp, Lw. reflexivity.
Qed.

End Isolation.

(** ** Absent inputs *)

Lemma keepsEnergy_comp (f g : Evening.EveningBriefing -> Evening.EveningBriefing) :
  keepsEnergy f -> keepsEnergy g -> keepsEnergy (fun b => g (f b)).
Proof.
  intros Hf Hg b. now rewrite Hg, Hf.
Qed.

Ltac keepsEnergy_blocks :=
  lazymatch goal with
  | |- keepsEnergy (fun b => let x := @?f b in @?g x) =>
      apply (keepsEnergy_comp f g); [|keepsEnergy_blocks]
  | |- _ => idtac
  end.

Lemma getEveningHealthData_Energy (db : sql.DB) (b : Evening.EveningBriefing)
  (today yesterday : string) :
  Evening.Energy (Evening.getEveningHealthData (inr db) b today yesterday)
  = Evening.Energy (Evening.energyBlocks db today b).
Proof.
  cbv beta iota delta [Evening.getEveningHealthData].
  lazymatch goal with
  | |- Evening.Energy (let x := ?fb in @?g x) = _ =>
      change (Evening.Energy (g fb) = Evening.Energy fb);
      generalize fb; change (keepsEnergy g)
  end.
  keepsEnergy_blocks;
    match goal with
    | |- context [queryDayTotal ?d ?m ?t] =>
        destruct (queryDayTotal d m t) as [v [e|]]
    | |- context [queryAverageHRV ?d ?t] =>
        destruct (queryAverageHRV d t) as [[v|] [e|]]
    | |- context [queryLatestValue ?d ?m ?t] =>
        destruct (queryLatestValue d m t) as [[v|] [e|]]
    end; intros b0; reflexivity.
Qed.

(** With no row of a metric on a date, the day total is 0 and no error. *)
Lemma queryDayTotal_no_rows (db : sql.DB) (metricName date : string) :
  sql.fault db = None -> sql.select db metricName date = [] ->
  queryDayTotal db metricName date = (f0, None).
Proof.
  intros Hf Hsel. unfold queryDayTotal. rewrite Hf, Hsel. reflexivity.
Qed.

(** C8 (as amended). In the morning classification an absent input is
    not read as zero: without an HRV value the recovery status is
    UNKNOWN, with sleep data unavailable or not of the current day the
    sleep quality is UNKNOWN, and absent deep-sleep hours leave the base
    quality of the total hours.  The evening report has no absent value
    for its totals: when the store answers and has no dietary-energy row
    for the date, consumed energy is 0 kcal and the balance and status
    are those computed with 0. *)
Theorem absent_inputs :
  (forall b : MorningBriefing,
      HRV (Vitals b) = None ->
      RecoveryStatus (Classification_ (classify b)) = "UNKNOWN") /\
  (forall b : MorningBriefing,
      DataAvailable (Sleep b) = false \/ IsCurrentDay (Sleep b) = false ->
      SleepQuality (Classification_ (classify b)) = "UNKNOWN") /\
  (forall (b : MorningBriefing) (h : float64),
      DataAvailable (Sleep b) = true -> IsCurrentDay (Sleep b) = true ->
      TotalHours (Sleep b) = Some h -> DeepHours (Sleep b) = None ->
      baseQuality h (SleepQuality (Classification_ (classify b)))) /\
  (forall (db : sql.DB) (b : Evening.EveningBriefing) (today yesterday : string),
      sql.fault db = None ->
      sql.select db "dietary_energy" today = [] ->
      let e := Evening.Energy
                 (Evening.getEveningHealthData (inr db) b today yesterday) in
      Evening.ConsumedKcal e = f0 /\
      (Evening.DeficitOrSurplusKcal e, Evening.Status e)
      = CalculateEnergyBalance (Evening.BMRKcal (Evening.Energy b))
                               (Evening.ActiveKcal e) f0).
Proof.
  split; [|split; [|split]].
  - intros b H. rewrite classify_RecoveryStatus. unfold recoveryStatusOf.
    now rewrite H.
  - intros b H. rewrite classify_SleepQuality.
    now apply sleepQualityOf_unknown.
  - intros b h Ha Hc Ht Hd. rewrite classify_SleepQuality.
    rewrite (sleepQualityOf_present b h Ha Hc Ht), Hd. simpl.
    apply baseQuality_thresholds.
  - intros db b today yesterday Hf Hsel e. subst e.
    rewrite getEveningHealthData_Energy.
    unfold Evening.energyBlocks.
    rewrite (queryDayTotal_no_rows db "dietary_energy" today Hf Hsel).
    destruct (queryDayTotal db "active_energy" today) as [v [err|]];
      cbn [Evening.Energy Evening.setEnergy Evening.appendError
           Evening.ConsumedKcal Evening.ActiveKcal Evening.BMRKcal];
      destruct (CalculateEnergyBalance _ _ _) as [bal st];
      split; reflexivity.
Qed.

(** On the sample store, which has no dietary-energy row for the day,
    the evening report takes 0 kcal as consumed and computes the balance
    from it. *)
Lemma no_dietary_rows_counted_as_zero :
  let e := Evening.Energy
             (Evening.getEveningHealthData (inr Sample.store)
                (Evening.initial "2024-01-15T21:00:00Z" Sample.today)
                Sample.today "2024-01-14") in
  sql.select Sample.store "dietary_energy" Sample.today = [] /\
  Evening.ConsumedKcal e = f0 /\
  (Evening.DeficitOrSurplusKcal e, Evening.Status e)
  = CalculateEnergyBalance UserBMRKcal (F64.of_Z 611) f0 /\
  (Evening.DeficitOrSurplusKcal e, Evening.Status e) = (-2246, "deficit").
Proof. vm_compute. repeat split; reflexivity. Qed.

(** With the data flagged available and current but the total hours
    absent, [classify] writes no sleep quality at all: a fresh briefing
    keeps the empty string. *)
Example classify_total_absent :
  SleepQuality
    (Classification_
       (classify
          (setSleep zeroBriefing
             {| TotalHours := None; DeepHours := None; REMHours := None;
                CoreHours := None; DataDate := ""; IsCurrentDay := true;
                DataAvailable := true |}))) = "".
Proof. reflexivity. Qed.

(** ** Further properties of the morning pipeline *)

Section MorningMore.

Context {T : time.Lib}.

(** The loop over the events of an account only appends events. *)
Lemma calendarEventStep_appends (today source : string)
  (events : list Gog.CalendarEvent) :
  forall b : MorningBriefing,
    let b' := fold_left (calendarEventStep today source) events b in
    exists ms afs : list CalendarEvent,
      MorningEvents (Calendar b') = (MorningEvents (Calendar b) ++ ms)%list /\
      AfternoonEvents (Calendar b')
      = (AfternoonEvents (Calendar b) ++ afs)%list /\
      MorningCount (Calendar b') = MorningCount (Calendar b) /\
      FirstEventTime (Calendar b') = FirstEventTime (Calendar b) /\
      Forall (fun e => Source e = source) (ms ++ afs) /\
      (List.length ms + List.length afs
       <= List.length (filter (eventOfDay today) events))%nat.
Proof.
  induction events as [|e events IH]; intros b; simpl.
  - exists [], []. rewrite !app_nil_r. repeat split; auto.
  - destruct (IH (calendarEventStep today source b e))
      as (ms & afs & Hm & Ha & Hc & Hf & Hs & Hl).
    cbv zeta in *. rewrite Hm, Ha, Hc, Hf.
    unfold calendarEventStep, eventOfDay in *.
    destruct (Gog.DateTime (Gog.Start e) =? "")%string; simpl.
    { exists ms, afs. repeat split; auto. }
    destruct (strings.HasPrefix (Gog.DateTime (Gog.Start e)) today); simpl.
    2:{ exists ms, afs. repeat split; auto. }
    destruct (time.Parse_RFC3339 (Gog.DateTime (Gog.Start e))) as [t|].
    2:{ exists ms, afs. repeat split; auto. }
    destruct (time.Hour t <? 12); [|destruct (time.Hour t <? 18)]; simpl.
    + eexists (_ :: ms), afs. rewrite <- app_assoc. simpl.
      repeat split; auto. simpl. lia.
    + exists ms. eexists (_ :: afs). rewrite <- app_assoc. simpl.
      repeat split; auto.
      * apply Forall_app in Hs. destruct Hs as [Hs1 Hs2].
        apply Forall_app. split; [exact Hs1|]. constructor; auto.
      * simpl. lia.
    + exists ms, afs. repeat split; auto.
Qed.

Lemma getCalendarEvents_FirstEventTime (w : World) (b : MorningBriefing)
  (today account source : string) :
  FirstEventTime (Calendar (getCalendarEvents w b today account source))
  = FirstEventTime (Calendar b).
Proof.
  unfold getCalendarEvents.
  destruct (gog_calendar w account) as [err|err|resp];
    [reflexivity | reflexivity |].
  destruct (calendarEventStep_appends today source (Gog.Events resp) b)
    as (ms & afs & _ & _ & _ & F & _).
  exact F.
Qed.

Lemma getCalendarData_totals (w : World) (b : MorningBriefing) (today : string) :
  let c := Calendar (getCalendarData w b today) in
  MorningCount c = Z.of_nat (List.length (MorningEvents c)) /\
  FirstEventTime c = match MorningEvents c with
                     | e :: _ => Time e
                     | [] => FirstEventTime (Calendar b)
                     end.
Proof.
  rewrite getCalendarData_eq.
  set (b1 := getCalendarEvents w b today accountPersonal "personal").
  set (b2 := getCalendarEvents w b1 today accountWork "work").
  pose proof (getCalendarEvents_FirstEventTime w b today accountPersonal
                "personal") as F1.
  pose proof (getCalendarEvents_FirstEventTime w b1 today accountWork
                "work") as F2.
  fold b1 in F1. fold b2 in F2.
  unfold calendarTotals. cbn [Calendar setCalendar MorningEvents].
  destruct (MorningEvents (Calendar b2)) as [|e es] eqn:E;
    cbn [Calendar setCalendar MorningEvents MorningCount FirstEventTime
         List.length].
  - split; [reflexivity|]. now rewrite F2, F1.
  - split; reflexivity.
Qed.

Lemma main_MorningLoad (w : World) :
  MorningLoad (Classification_ (main w))
  = (if MorningCount (Calendar (main w)) =? 0 then "CLEAR"
     else if MorningCount (Calendar (main w)) <=? 2 then "LIGHT"
     else "PACKED").
Proof.
  rewrite main_eq.
  set (bT := getTrainingData w _ _).
  rewrite classify_MorningLoad.
  destruct (classify_frame bT) as (_ & _ & Hc & _).
  rewrite Hc. reflexivity.
Qed.

(** X2. In the final morning report the morning count is the number of
    morning events listed, the load is CLEAR for none, LIGHT for one or
    two and PACKED from three on, and the first-event time is the time
    of the first listed morning event (the order of the queries, not of
    the clock), empty when there is none. *)
Theorem main_morning_load (w : World) :
  let c := Calendar (main w) in
  MorningCount c = Z.of_nat (List.length (MorningEvents c)) /\
  MorningLoad (Classification_ (main w))
  = loadOfCount (List.length (MorningEvents c)) /\
  FirstEventTime c = match MorningEvents c with
                     | e :: _ => Time e
                     | [] => ""
                     end.
Proof.
  intros c. subst c.
  pose proof (main_MorningLoad w) as Hload.
  destruct (main_parts w) as (_ & _ & Hc & _).
  cbv zeta in Hc.
  destruct (getCalendarData_totals w (initialBriefing w) (todayOf w))
    as (Hn & Hf).
  rewrite <- Hc in Hn, Hf.
  split; [exact Hn|]. split; [|exact Hf].
  rewrite Hload, Hn.
  destruct (MorningEvents (Calendar (main w))) as [|e1 [|e2 [|e3 es]]];
    try reflexivity.
  unfold loadOfCount.
  destruct (Z.eqb_spec (Z.of_nat (List.length (e1 :: e2 :: e3 :: es))) 0)
    as [H0|H0]; [simpl in H0; lia|].
  destruct (Z.leb_spec (Z.of_nat (List.length (e1 :: e2 :: e3 :: es))) 2)
    as [H2|H2]; [simpl in H2; lia|]. reflexivity.
Qed.

End MorningMore.

Section MorningBuckets.

Context {T : time.Lib}.

Lemma calendarEventStep_buckets (today source : string)
  (events : list Gog.CalendarEvent) :
  forall b : MorningBriefing,
    let b' := fold_left (calendarEventStep today source) events b in
    MorningEvents (Calendar b')
    = (MorningEvents (Calendar b)
       ++ listedEvents today source morningHour events)%list /\
    AfternoonEvents (Calendar b')
    = (AfternoonEvents (Calendar b)
       ++ listedEvents today source afternoonHour events)%list.
Proof.
  induction events as [|e events IH]; intros b.
  - cbn. now rewrite !app_nil_r.
  - cbn [fold_left]. cbv zeta in IH |- *.
    destruct (IH (calendarEventStep today source b e)) as (Hm & Ha).
    rewrite Hm, Ha. clear Hm Ha IH.
    unfold listedEvents. cbn [flat_map].
    unfold calendarEventStep, eventOfDay, morningHour, afternoonHour.
    destruct (Gog.DateTime (Gog.Start e) =? "")%string; cbn [negb andb];
      [split; reflexivity|].
    destruct (strings.HasPrefix (Gog.DateTime (Gog.Start e)) today);
      cbn [negb]; [|split; reflexivity].
    destruct (time.Parse_RFC3339 (Gog.DateTime (Gog.Start e))) as [t|];
      [|split; reflexivity].
    cbv zeta.
    destruct (time.Hour t <? 12); cbn [negb andb].
    + cbn [Calendar setCalendar MorningEvents AfternoonEvents app].
      rewrite <- app_assoc. split; reflexivity.
    + destruct (time.Hour t <? 18);
        cbn [Calendar setCalendar MorningEvents AfternoonEvents app];
        rewrite <- ?app_assoc; split; reflexivity.
Qed.

Lemma getCalendarEvents_lists (w : World) (b : MorningBriefing)
  (today account source : string) :
  let b' := getCalendarEvents w b today account source in
  let fetched := fetchedEvents (gog_calendar w account) in
  MorningEvents (Calendar b')
  = (MorningEvents (Calendar b)
     ++ listedEvents today source morningHour fetched)%list /\
  AfternoonEvents (Calendar b')
  = (AfternoonEvents (Calendar b)
     ++ listedEvents today source afternoonHour fetched)%list.
Proof.
  cbv zeta. unfold getCalendarEvents, fetchedEvents.
  destruct (gog_calendar w account) as [err|err|resp].
  - cbn. rewrite !app_nil_r. split; reflexivity.
  - cbn. rewrite !app_nil_r. split; reflexivity.
  - apply calendarEventStep_buckets.
Qed.

(** X1. One calendar fetch appends to the morning list an entry for
    each fetched event of the target day whose start time parses to an
    hour before 12, and to the afternoon list one for each with an hour
    from 12 to 17, in the order fetched and tagged with the account's
    source; events from 18:00 on, all-day events, events of other days
    and events whose start time does not parse are listed nowhere.  The
    count and the first-event time are not touched, and a failed fetch
    adds no event. *)
Theorem getCalendarEvents_buckets (w : World) (b : MorningBriefing)
  (today account source : string) :
  let b' := getCalendarEvents w b today account source in
  let fetched := fetchedEvents (gog_calendar w account) in
  MorningEvents (Calendar b')
  = (MorningEvents (Calendar b)
     ++ listedEvents today source morningHour fetched)%list /\
  AfternoonEvents (Calendar b')
  = (AfternoonEvents (Calendar b)
     ++ listedEvents today source afternoonHour fetched)%list /\
  MorningCount (Calendar b') = MorningCount (Calendar b) /\
  FirstEventTime (Calendar b') = FirstEventTime (Calendar b).
Proof.
  cbv zeta.
  destruct (getCalendarEvents_lists w b today account source) as (Hm & Ha).
  split; [exact Hm|]. split; [exact Ha|].
  unfold getCalendarEvents.
  destruct (gog_calendar w account) as [err|err|resp];
    [split; reflexivity | split; reflexivity |].
  destruct (calendarEventStep_appends today source (Gog.Events resp) b)
    as (ms & afs & _ & _ & Hc & Hf & _).
  split; assumption.
Qed.

Lemma calendarTotals_lists (b : MorningBriefing) :
  MorningEvents (Calendar (calendarTotals b)) = MorningEvents (Calendar b) /\
  AfternoonEvents (Calendar (calendarTotals b))
  = AfternoonEvents (Calendar b).
Proof.
  unfold calendarTotals. cbn [Calendar setCalendar MorningEvents].
  destruct (MorningEvents (Calendar b)); split; reflexivity.
Qed.

(** X3. In the final morning report each of the two event lists holds
    the entries of the personal account followed by those of the work
    account, each in the order fetched: the lists are not sorted by
    time, so a work event is listed after every personal event even
    when it starts earlier, and events from 18:00 on are in neither
    list. *)
Theorem main_calendar_lists (w : World) :
  let c := Calendar (main w) in
  let today := todayOf w in
  let personal := fetchedEvents (gog_calendar w accountPersonal) in
  let work := fetchedEvents (gog_calendar w accountWork) in
  MorningEvents c
  = (listedEvents today "personal" morningHour personal
     ++ listedEvents today "work" morningHour work)%list /\
  AfternoonEvents c
  = (listedEvents today "personal" afternoonHour personal
     ++ listedEvents today "work" afternoonHour work)%list.
Proof.
  cbv zeta.
  destruct (main_parts w) as (_ & _ & Hc & _). cbv zeta in Hc.
  rewrite Hc, getCalendarData_eq.
  destruct (calendarTotals_lists
              (getCalendarEvents w
                 (getCalendarEvents w (initialBriefing w) (todayOf w)
                    accountPersonal "personal")
                 (todayOf w) accountWork "work")) as (Hm & Ha).
  rewrite Hm, Ha.
  destruct (getCalendarEvents_lists w
              (getCalendarEvents w (initialBriefing w) (todayOf w)
                 accountPersonal "personal")
              (todayOf w) accountWork "work") as (Hm2 & Ha2).
  cbv zeta in Hm2, Ha2. rewrite Hm2, Ha2.
  destruct (getCalendarEvents_lists w (initialBriefing w) (todayOf w)
              accountPersonal "personal") as (Hm1 & Ha1).
  cbv zeta in Hm1, Ha1. rewrite Hm1, Ha1.
  split; reflexivity.
Qed.

End MorningBuckets.

Section MorningSleep.

Context {T : time.Lib}.

Lemma applyHealthSummary_sleep (summary : HealthSummary.t) (today : string)
  (b : MorningBriefing) :
  let s' := Sleep (applyHealthSummary summary today b) in
  match HealthSummary.lookup (HealthSummary.LatestStats summary)
          "sleep_total" with
  | Some st =>
      TotalHours s' = Some (HealthSummary.Value st) /\
      DataAvailable s' = true /\
      DataDate s' = HealthSummary.Timestamp st /\
      IsCurrentDay s'
      = (if strings.Contains (HealthSummary.Timestamp st) today
            || strings.Contains (HealthSummary.Timestamp st) (yesterday today)
         then true else IsCurrentDay (Sleep b))
  | None =>
      TotalHours s' = TotalHours (Sleep b) /\
      DataAvailable s' = DataAvailable (Sleep b) /\
      DataDate s' = DataDate (Sleep b) /\
      IsCurrentDay s' = IsCurrentDay (Sleep b)
  end.
Proof.
  cbv zeta. cbv beta delta [applyHealthSummary].
  set (o1 := HealthSummary.lookup _ "sleep_total").
  set (o2 := HealthSummary.lookup _ "sleep_deep").
  set (o3 := HealthSummary.lookup _ "sleep_rem").
  set (o4 := HealthSummary.lookup _ "resting_heart_rate").
  set (o5 := HealthSummary.lookup _ "heart_rate_variability").
  set (o6 := HealthSummary.lookup _ "blood_oxygen_saturation").
  destruct o1, o2, o3, o4, o5, o6; repeat split; reflexivity.
Qed.

Lemma getHealthDataFromSQLite_sleep (w : World) (b : MorningBriefing)
  (today : string) :
  let s' := Sleep (getHealthDataFromSQLite w b today) in
  TotalHours s' = TotalHours (Sleep b) /\
  DataAvailable s' = DataAvailable (Sleep b) /\
  DataDate s' = DataDate (Sleep b) /\
  IsCurrentDay s' = IsCurrentDay (Sleep b).
Proof.
  set (stamp := fun b : MorningBriefing =>
                  (TotalHours (Sleep b), DataAvailable (Sleep b),
                   DataDate (Sleep b), IsCurrentDay (Sleep b))).
  assert (H1 : forall db x, stamp (storeAverageHRV db today x) = stamp x).
  { intros db x. unfold storeAverageHRV.
    destruct (queryAverageHRV db today) as [[v|] [e|]]; reflexivity. }
  assert (H2 : forall db x, stamp (storeSleepStages db today x) = stamp x).
  { intros db x. unfold storeSleepStages.
    destruct (querySleepStages db today) as [[[d r] c] [e|]]; reflexivity. }
  assert (H3 : forall db x, stamp (storeRespiratoryRate db today x) = stamp x).
  { intros db x. unfold storeRespiratoryRate.
    destruct (queryLatestRespiratoryRate db today) as [[v|] [e|]];
      reflexivity. }
  assert (H : stamp (getHealthDataFromSQLite w b today) = stamp b).
  { unfold getHealthDataFromSQLite.
    destruct (health_db w) as [err|db]; [reflexivity|].
    cbv zeta. now rewrite H3, H2, H1. }
  unfold stamp in H. injection H as E1 E2 E3 E4. cbv zeta.
  rewrite E1, E2, E3, E4. repeat split; reflexivity.
Qed.

Lemma sleepQualityOf_documented (b : MorningBriefing) (h : float64) :
  DataAvailable (Sleep b) = true -> IsCurrentDay (Sleep b) = true ->
  TotalHours (Sleep b) = Some h ->
  In (sleepQualityOf b) ["GOOD"; "OK"; "POOR"].
Proof.
  intros Ha Hc Ht. rewrite (sleepQualityOf_present b h Ha Hc Ht).
  unfold thresholdQuality.
  destruct (deepSleepLow _), (F64.ge h f7), (F64.ge h f5); simpl; auto.
Qed.


(** X4. In the final morning report the total hours, and with them the
    availability flag, come from the summary provider's sleep_total
    entry alone.  Without that entry (or with the provider failing) the
    data is not available and the sleep quality is UNKNOWN, whatever the
    metrics store holds; with it, the data counts as current only when
    its timestamp contains the target date or the day before, the
    quality then being GOOD, OK or POOR, and UNKNOWN otherwise. *)
Theorem main_sleep_quality (w : World) :
  let today := todayOf w in
  let s := Sleep (main w) in
  let q := SleepQuality (Classification_ (main w)) in
  match summaryStat (health_ingest w) "sleep_total" with
  | Some st =>
      TotalHours s = Some (HealthSummary.Value st) /\
      DataAvailable s = true /\
      if strings.Contains (HealthSummary.Timestamp st) today
         || strings.Contains (HealthSummary.Timestamp st) (yesterday today)
      then IsCurrentDay s = true /\ In q ["GOOD"; "OK"; "POOR"]
      else IsCurrentDay s = false /\ q = "UNKNOWN"
  | None =>
      TotalHours s = None /\ DataAvailable s = false /\ q = "UNKNOWN"
  end.
Proof.
  intros today s q.
  assert (Hq : q = sleepQualityOf (afterHealth w)).
  { subst q. rewrite main_eq.
    set (bT := getTrainingData w _ _).
    rewrite classify_SleepQuality.
    assert (Hs : Sleep bT = Sleep (afterHealth w)).
    { destruct (main_parts w) as (Hs & _). rewrite <- Hs.
      rewrite main_eq. fold bT.
      destruct (classify_frame bT) as (H & _). now rewrite H. }
    assert (Hc : SleepQuality (Classification_ bT) = "").
    { subst bT.
      destruct (getTrainingData_confined w (todayOf w)
                  (getMedsData w (getCalendarData w (afterHealth w) (todayOf w))
                     (todayOf w))) as (_ & R5 & _).
      destruct (getMedsData_confined w (todayOf w)
                  (getCalendarData w (afterHealth w) (todayOf w)))
        as (_ & R4 & _).
      destruct (getCalendarData_confined w (todayOf w) (afterHealth w))
        as (_ & R3 & _).
      destruct (getHealthDataFromSQLite_confined w (todayOf w)
                  (getHealthData w (initialBriefing w) (todayOf w)))
        as (_ & R2 & _).
      destruct (getHealthData_confined w (todayOf w) (initialBriefing w))
        as (_ & R1 & _).
      unfold trainingRest in R5. unfold medsRest in R4.
      unfold calendarRest in R3. unfold healthRest in R2, R1.
      injection R5 as _ _ _ _ _ _ C5. injection R4 as _ _ _ _ _ _ C4.
      injection R3 as _ _ _ _ _ _ C3. injection R2 as _ _ _ _ _ C2.
      injection R1 as _ _ _ _ _ C1.
      rewrite C5, C4, C3. unfold afterHealth. rewrite C2, C1. reflexivity. }
    unfold sleepQualityOf. rewrite Hs, Hc.
    destruct (negb (DataAvailable (Sleep (afterHealth w)))
              || negb (IsCurrentDay (Sleep (afterHealth w)))); [reflexivity|].
    destruct (TotalHours (Sleep (afterHealth w))) eqn:Ht; [reflexivity|].
    (* no total hours: the field is still the initial empty string, and so
       is what the summary of the health part gives *)
    assert (Hinit : SleepQuality (Classification_ (afterHealth w)) = "").
    { unfold afterHealth.
      destruct (getHealthDataFromSQLite_confined w (todayOf w)
                  (getHealthData w (initialBriefing w) (todayOf w)))
        as (_ & R2 & _).
      destruct (getHealthData_confined w (todayOf w) (initialBriefing w))
        as (_ & R1 & _).
      unfold healthRest in R2, R1.
      injection R2 as _ _ _ _ _ C2. injection R1 as _ _ _ _ _ C1.
      rewrite C2, C1. reflexivity. }
    now rewrite Hinit. }
  assert (Hs : s = Sleep (afterHealth w)).
  { subst s. destruct (main_parts w) as (Hs & _). exact Hs. }
  rewrite Hq, Hs. clear Hq Hs q s.
  unfold afterHealth. fold today.
  set (b1 := getHealthData w (initialBriefing w) today).
  destruct (getHealthDataFromSQLite_sleep w b1 today) as (Ht & Ha & _ & Hc).
  cbv zeta in Ht, Ha, Hc.
  set (b2 := getHealthDataFromSQLite w b1 today) in *.
  assert (Hb1 :
    match summaryStat (health_ingest w) "sleep_total" with
    | Some st =>
        TotalHours (Sleep b1) = Some (HealthSummary.Value st) /\
        DataAvailable (Sleep b1) = true /\
        IsCurrentDay (Sleep b1)
        = (strings.Contains (HealthSummary.Timestamp st) today
           || strings.Contains (HealthSummary.Timestamp st) (yesterday today))
    | None =>
        TotalHours (Sleep b1) = None /\ DataAvailable (Sleep b1) = false /\
        IsCurrentDay (Sleep b1) = false
    end).
  { subst b1. unfold getHealthData, summaryStat.
    destruct (health_ingest w) as [err|err|summary];
      [repeat split; reflexivity | repeat split; reflexivity |].
    pose proof (applyHealthSummary_sleep summary today (initialBriefing w))
      as H. cbv zeta in H.
    destruct (HealthSummary.lookup _ "sleep_total") as [st|].
    - destruct H as (H1 & H2 & _ & H4). rewrite H1, H2, H4.
      repeat split.
      destruct (strings.Contains _ today || strings.Contains _ _);
        reflexivity.
    - destruct H as (H1 & H2 & _ & H4). rewrite H1, H2, H4.
      repeat split; reflexivity. }
  destruct (summaryStat (health_ingest w) "sleep_total") as [st|].
  - destruct Hb1 as (H1 & H2 & H3).
    rewrite Ht, Ha, Hc, H1, H2, H3.
    split; [reflexivity|]. split; [reflexivity|].
    destruct (strings.Contains _ today || strings.Contains _ _) eqn:Hcur.
    + split; [reflexivity|].
      apply (sleepQualityOf_documented b2 (HealthSummary.Value st));
        congruence.
    + split; [reflexivity|].
      apply sleepQualityOf_unknown. right. congruence.
  - destruct Hb1 as (H1 & H2 & H3).
    rewrite Ht, Ha, H1, H2.
    split; [reflexivity|]. split; [reflexivity|].
    apply sleepQualityOf_unknown. left. congruence.
Qed.

End MorningSleep.

Section MorningWarnings.

Context {T : time.Lib}.

Lemma storeWarnings_answers (r : string + sql.DB) (today : string) :
  (storeWarnings r today = [] <-> storeAnswers r today = true) /\
  (List.length (storeWarnings r today) <= 3)%nat.
Proof.
  unfold storeWarnings, storeAnswers.
  destruct r as [err|db].
  - split; [split; discriminate | simpl; lia].
  - destruct (snd (queryAverageHRV db today)),
      (snd (querySleepStages db today)),
      (snd (queryLatestRespiratoryRate db today));
      (split; [split; (reflexivity || discriminate) | simpl; lia]).
Qed.

Lemma fetch_warnings_failed :
  (forall r, healthWarnings r = [] <-> failed r = false) /\
  (forall s r, calendarWarnings s r = [] <-> failed r = false) /\
  (forall r, medsWarnings r = [] <-> failed r = false) /\
  (forall r, trainingWarnings r = [] <-> failed r = false).
Proof.
  repeat split; intros H;
    match goal with
    | r : Fetched _ |- _ => destruct r; try reflexivity; discriminate H
    end.
Qed.

Lemma fetch_warnings_length :
  (forall r, List.length (healthWarnings r) <= 1)%nat /\
  (forall s r, List.length (calendarWarnings s r) <= 1)%nat /\
  (forall r, List.length (medsWarnings r) <= 1)%nat /\
  (forall r, List.length (trainingWarnings r) <= 1)%nat.
Proof.
  repeat split; intros;
    match goal with
    | r : Fetched _ |- _ => destruct r; simpl; lia
    end.
Qed.

(** X5. The final morning report carries no warning exactly when every
    source answered: the summary provider, the store (opened, and none
    of its three queries returning an error), both calendar accounts,
    the task list and the workout list; and it never carries more than
    eight (one per command, three for the three store queries). *)
Theorem main_no_warning_iff (w : World) :
  (Errors (main w) = [] <->
   failed (health_ingest w) = false /\
   storeAnswers (health_db w) (todayOf w) = true /\
   failed (gog_calendar w accountPersonal) = false /\
   failed (gog_calendar w accountWork) = false /\
   failed (td_today w) = false /\
   failed (hevy_workouts w) = false) /\
  (List.length (Errors (main w)) <= 8)%nat.
Proof.
  destruct (main_parts w) as (_ & _ & _ & _ & _ & He). cbv zeta in He.
  rewrite He. clear He.
  destruct fetch_warnings_failed as (F1 & F2 & F3 & F4).
  destruct fetch_warnings_length as (L1 & L2 & L3 & L4).
  destruct (storeWarnings_answers (health_db w) (todayOf w)) as (S1 & S2).
  split.
  - split.
    + intros H.
      apply app_eq_nil in H. destruct H as [H1 H].
      apply app_eq_nil in H. destruct H as [H2 H].
      apply app_eq_nil in H. destruct H as [H3 H].
      apply app_eq_nil in H. destruct H as [H4 H].
      apply app_eq_nil in H. destruct H as [H5 H6].
      repeat split;
        [apply F1 | apply S1 | apply (F2 "personal") | apply (F2 "work")
         | apply F3 | apply F4]; assumption.
    + intros (H1 & H2 & H3 & H4 & H5 & H6).
      apply F1 in H1. apply S1 in H2. apply (F2 "personal") in H3.
      apply (F2 "work") in H4. apply F3 in H5. apply F4 in H6.
      now rewrite H1, H2, H3, H4, H5, H6.
  - rewrite !length_app.
    specialize (L1 (health_ingest w)).
    specialize (L2 "personal" (gog_calendar w accountPersonal)) as L2p.
    specialize (L2 "work" (gog_calendar w accountWork)) as L2w.
    specialize (L3 (td_today w)). specialize (L4 (hevy_workouts w)).
    lia.
Qed.

End MorningWarnings.

(** ** Further properties of classify *)

Lemma sleepQualityOf_stable (b : MorningBriefing) :
  sleepQualityOf (classify b) = sleepQualityOf b.
Proof.
  unfold sleepQualityOf at 1.
  destruct (classify_frame b) as (Hs & _). rewrite Hs.
  rewrite classify_SleepQuality.
  unfold sleepQualityOf.
  destruct (negb (DataAvailable (Sleep b)) || negb (IsCurrentDay (Sleep b)));
    [reflexivity|].
  destruct (TotalHours (Sleep b)); reflexivity.
Qed.

Lemma classify_Recommendation (b : MorningBriefing) :
  Recommendation (Classification_ (classify b)) =
  firstMatch
    (recommendationRules (sleepQualityOf b) (morningLoadOf b)
                         (recoveryStatusOf b) (HRV (Vitals b)))
    msgUnavailable.
Proof.
  rewrite classify_eq, classifyRecommendation_rules. reflexivity.
Qed.

Lemma Classification_ext (c c' : Classification) :
  SleepQuality c = SleepQuality c' -> MorningLoad c = MorningLoad c' ->
  RecoveryStatus c = RecoveryStatus c' ->
  Recommendation c = Recommendation c' -> c = c'.
Proof.
  destruct c, c'; simpl; intros; subst; reflexivity.
Qed.

Lemma classify_ext (b b' : MorningBriefing) :
  GeneratedAt b = GeneratedAt b' -> TargetDate b = TargetDate b' ->
  Sleep b = Sleep b' -> Vitals b = Vitals b' -> Calendar b = Calendar b' ->
  Meds b = Meds b' -> Training b = Training b' -> Errors b = Errors b' ->
  Classification_ b = Classification_ b' -> b = b'.
Proof.
  destruct b, b'; simpl; intros; subst; reflexivity.
Qed.

(** X6. [classify] reads the report and writes the classification only:
    sleep, vitals, calendar, meds, training and warnings come out as
    they went in; and classifying a classified briefing again changes
    nothing. *)
Theorem classify_read_only_idempotent (b : MorningBriefing) :
  Sleep (classify b) = Sleep b /\ Vitals (classify b) = Vitals b /\
  Calendar (classify b) = Calendar b /\ Meds (classify b) = Meds b /\
  Training (classify b) = Training b /\ Errors (classify b) = Errors b /\
  classify (classify b) = classify b.
Proof.
  destruct (classify_frame b) as (Hs & Hv & Hc & Hm & Ht & He).
  repeat (split; [assumption|]).
  destruct (classify_frame (classify b)) as (Hs' & Hv' & Hc' & Hm' & Ht' & He').
  assert (Hq : sleepQualityOf (classify b) = sleepQualityOf b)
    by apply sleepQualityOf_stable.
  assert (Hr : recoveryStatusOf (classify b) = recoveryStatusOf b)
    by (unfold recoveryStatusOf; now rewrite Hv).
  assert (Hl : morningLoadOf (classify b) = morningLoadOf b)
    by (unfold morningLoadOf; now rewrite Hc).
  assert (Hgen : forall x, GeneratedAt (classify x) = GeneratedAt x
                           /\ TargetDate (classify x) = TargetDate x).
  { intros x. rewrite classify_eq. unfold classifyRecommendation.
    destruct (RecoveryStatus _ =? "POOR")%string;
      [destruct (HRV _)|];
      repeat match goal with
      | |- context [if ?c then _ else _] => destruct c
      end; split; reflexivity. }
  destruct (Hgen b) as (G1 & G2). destruct (Hgen (classify b)) as (G1' & G2').
  apply classify_ext; try congruence.
  pose proof (classify_SleepQuality (classify b)) as Q1.
  pose proof (classify_RecoveryStatus (classify b)) as Q2.
  pose proof (classify_MorningLoad (classify b)) as Q3.
  pose proof (classify_Recommendation (classify b)) as Q4.
  pose proof (classify_SleepQuality b) as P1.
  pose proof (classify_RecoveryStatus b) as P2.
  pose proof (classify_MorningLoad b) as P3.
  pose proof (classify_Recommendation b) as P4.
  apply Classification_ext.
  - now rewrite Q1, P1.
  - now rewrite Q3, P3.
  - now rewrite Q2, P2.
  - rewrite Q4, P4, Hq, Hr, Hl, Hv. reflexivity.
Qed.

(** X7. The recommendation rules have no case for a decent night with a
    morning that is not packed, nor for unknown sleep: whenever recovery
    is not POOR and the sleep quality is OK with a load other than
    PACKED, or UNKNOWN, the report says that sleep data is unavailable. *)
Theorem classify_recommendation_fallback (b : MorningBriefing) :
  let c := Classification_ (classify b) in
  RecoveryStatus c <> "POOR" ->
  (SleepQuality c = "OK" /\ MorningLoad c <> "PACKED")
  \/ SleepQuality c = "UNKNOWN" ->
  Recommendation c = msgUnavailable.
Proof.
  intros c Hrec Hcase. subst c.
  rewrite classify_Recommendation.
  rewrite classify_RecoveryStatus in Hrec.
  rewrite classify_SleepQuality, classify_MorningLoad in Hcase.
  unfold recommendationRules.
  apply String.eqb_neq in Hrec.
  destruct Hcase as [(Hq & Hl) | Hq]; rewrite Hq.
  - apply String.eqb_neq in Hl. rewrite Hrec, Hl.
    destruct (HRV (Vitals b)); reflexivity.
  - rewrite Hrec. destruct (HRV (Vitals b)); reflexivity.
Qed.

(** ** Further properties of the meds and training fetchers *)

Section MedsTrainingMore.

Context {T : time.Lib}.

Lemma medTasksWith_lengths (today : string) (tasks : list Todoist.Task) :
  (List.length (medTasksWith today StatusDueToday tasks)
   + List.length (medTasksWith today StatusOverdue tasks)
   + List.length (medTasksWith today StatusCompleted tasks)
   = List.length (filter (fun t => isMed (Todoist.Labels t)) tasks))%nat.
Proof.
  unfold medTasksWith. rewrite !length_map.
  induction tasks as [|t tasks IH]; [reflexivity|].
  assert (Hc : In (hasStatus today StatusDueToday t,
                   hasStatus today StatusOverdue t,
                   hasStatus today StatusCompleted t,
                   isMed (Todoist.Labels t))
                  [(false, false, false, false); (true, false, false, true);
                   (false, true, false, true); (false, false, true, true)]).
  { unfold hasStatus, medStatus.
    destruct (isMed (Todoist.Labels t)); simpl; auto.
    destruct (Todoist.IsCompleted t); simpl; auto.
    destruct (Todoist.Due t) as [due|]; simpl; auto.
    destruct (strings.lt (Todoist.Date due) today); simpl; auto. }
  cbn [filter].
  destruct (hasStatus today StatusDueToday t),
    (hasStatus today StatusOverdue t),
    (hasStatus today StatusCompleted t),
    (isMed (Todoist.Labels t));
    simpl in Hc; intuition (try discriminate); cbn [List.length]; lia.
Qed.

Lemma medStatus_exclusive (today : string) (task : Todoist.Task) :
  if isMed (Todoist.Labels task)
  then exists k : MedStatus,
         forall k' : MedStatus, hasStatus today k' task = true <-> k' = k
  else forall k' : MedStatus, hasStatus today k' task = false.
Proof.
  unfold hasStatus, medStatus.
  destruct (isMed (Todoist.Labels task)); cbn [negb];
    [|intros k'; reflexivity].
  destruct (Todoist.IsCompleted task).
  { exists StatusCompleted. intros [| |]; split; congruence. }
  destruct (Todoist.Due task) as [due|].
  - destruct (strings.lt (Todoist.Date due) today).
    + exists StatusOverdue. intros [| |]; split; congruence.
    + exists StatusDueToday. intros [| |]; split; congruence.
  - exists StatusDueToday. intros [| |]; split; congruence.
Qed.

(** X8. The tasks fetched are split over the three meds lists without
    loss or repetition.  Each list grows by the entries of the fetched
    tasks of its status, in the order fetched; a task that carries a
    medication label has exactly one of the three statuses, so it is
    entered once, in one list; a task without such a label has none, so
    it is entered nowhere.  Together the lists therefore grow by exactly
    the number of fetched tasks that carry a medication label, and a
    failed fetch leaves the three lists as they were. *)
Theorem getMedsData_partition (w : World) (b : MorningBriefing)
  (today : string) :
  let m := Meds b in
  let m' := Meds (getMedsData w b today) in
  let tasks := fetchedTasks (td_today w) in
  (DueToday m' = (DueToday m ++ medTasksWith today StatusDueToday tasks)%list /\
   Overdue m' = (Overdue m ++ medTasksWith today StatusOverdue tasks)%list /\
   Completed m'
   = (Completed m ++ medTasksWith today StatusCompleted tasks)%list) /\
  (forall task : Todoist.Task,
      isMed (Todoist.Labels task) = true ->
      exists k : MedStatus,
        forall k' : MedStatus, hasStatus today k' task = true <-> k' = k) /\
  (forall (task : Todoist.Task) (k : MedStatus),
      isMed (Todoist.Labels task) = false ->
      hasStatus today k task = false) /\
  (List.length (DueToday m') + List.length (Overdue m')
   + List.length (Completed m')
   = List.length (DueToday m) + List.length (Overdue m)
     + List.length (Completed m)
     + List.length (filter (fun t => isMed (Todoist.Labels t)) tasks))%nat /\
  (failed (td_today w) = true -> m' = m).
Proof.
  cbv zeta.
  assert (Hlists :
    Meds (getMedsData w b today)
    = {| DueToday := DueToday (Meds b)
                     ++ medTasksWith today StatusDueToday
                          (fetchedTasks (td_today w));
         Overdue := Overdue (Meds b)
                    ++ medTasksWith today StatusOverdue
                         (fetchedTasks (td_today w));
         Completed := Completed (Meds b)
                      ++ medTasksWith today StatusCompleted
                           (fetchedTasks (td_today w)) |}).
  { unfold getMedsData, fetchedTasks.
    destruct (td_today w) as [err|err|resp];
      [| | apply medsStep_loop];
      cbn [Meds appendError medTasksWith filter map];
      rewrite !app_nil_r; destruct (Meds b); reflexivity. }
  split; [|split; [|split; [|split]]].
  - rewrite Hlists. repeat split; reflexivity.
  - intros task Hmed.
    pose proof (medStatus_exclusive today task) as H.
    rewrite Hmed in H. exact H.
  - intros task k Hmed.
    pose proof (medStatus_exclusive today task) as H.
    rewrite Hmed in H. apply H.
  - rewrite Hlists. cbn [DueToday Overdue Completed].
    rewrite !length_app.
    pose proof (medTasksWith_lengths today (fetchedTasks (td_today w))). lia.
  - intros Hfail. unfold getMedsData.
    destruct (td_today w) as [err|err|resp];
      [reflexivity | reflexivity | discriminate Hfail].
Qed.

Lemma trainingStep_later (now weekAgo : time.Time) (ws : list Hevy.Workout) :
  forall (k : nat) (tr : TrainingData) (n : Z),
    let '(tr', n') :=
      fold_left (trainingStep now weekAgo)
                (combine (seq (S k) (List.length ws)) ws) (tr, n) in
    LastWorkout tr' = LastWorkout tr /\
    DaysSinceLast tr' = DaysSinceLast tr /\
    WeeklyCount tr' = WeeklyCount tr /\
    RecentWorkouts tr' = (RecentWorkouts tr ++ parsedSummaries ws)%list /\
    n' = n + Z.of_nat (List.length (filter (startedAfter weekAgo) ws)).
Proof.
  induction ws as [|w ws IH]; intros k tr n.
  - simpl. rewrite app_nil_r. repeat split; lia.
  - cbn [List.length seq combine fold_left].
    unfold trainingStep at 2. unfold parsedSummaries, startedAfter.
    cbn [flat_map filter].
    fold (parsedSummaries ws).
    destruct (time.Parse_RFC3339 (Hevy.StartTime w)) as [t|].
    + match goal with
      | |- context [fold_left _ _ (?tr1, ?n1)] =>
          specialize (IH (S k) tr1 n1)
      end.
      destruct (fold_left _ _ _) as [tr' n'].
      destruct IH as (H1 & H2 & H3 & H4 & H5).
      cbn [LastWorkout DaysSinceLast WeeklyCount RecentWorkouts] in *.
      rewrite H1, H2, H3, H4, H5. rewrite <- app_assoc.
      fold (workoutSummaryOf w t). cbn [app].
      unfold startedAfter.
      repeat split.
      destruct (time.After t weekAgo); cbn [List.length]; lia.
    + specialize (IH (S k) tr n).
      destruct (fold_left _ _ _) as [tr' n'].
      destruct IH as (H1 & H2 & H3 & H4 & H5).
      rewrite H1, H2, H3, H4, H5. repeat split.
Qed.

Lemma trainingStep_first (now weekAgo : time.Time) (tr : TrainingData)
  (w0 : Hevy.Workout) (ws : list Hevy.Workout) :
  let '(tr', n') :=
    fold_left (trainingStep now weekAgo)
              (combine (seq 0 (List.length (w0 :: ws))) (w0 :: ws)) (tr, 0) in
  RecentWorkouts tr' = (RecentWorkouts tr ++ parsedSummaries (w0 :: ws))%list /\
  n' = Z.of_nat (List.length (filter (startedAfter weekAgo) (w0 :: ws))) /\
  match time.Parse_RFC3339 (Hevy.StartTime w0) with
  | Some t =>
      LastWorkout tr' = Some (workoutSummaryOf w0 t) /\
      DaysSinceLast tr' = F64.to_int (time.Sub_Hours now t / f24)%f64
  | None =>
      LastWorkout tr' = LastWorkout tr /\
      DaysSinceLast tr' = DaysSinceLast tr
  end.
Proof.
  cbn [List.length seq combine fold_left].
  set (acc1 := trainingStep now weekAgo (tr, 0) (0%nat, w0)).
  assert (Hacc :
    acc1 = match time.Parse_RFC3339 (Hevy.StartTime w0) with
           | Some t =>
               ({| LastWorkout := Some (workoutSummaryOf w0 t);
                   DaysSinceLast :=
                     F64.to_int (time.Sub_Hours now t / f24)%f64;
                   RecentWorkouts :=
                     (RecentWorkouts tr ++ [workoutSummaryOf w0 t])%list;
                   WeeklyCount := WeeklyCount tr |},
                if time.After t weekAgo then 0 + 1 else 0)
           | None => (tr, 0)
           end).
  { unfold acc1, trainingStep.
    destruct (time.Parse_RFC3339 (Hevy.StartTime w0)); reflexivity. }
  destruct acc1 as [tr1 n1].
  pose proof (trainingStep_later now weekAgo ws 0 tr1 n1) as H.
  destruct (fold_left _ _ _) as [tr' n'].
  destruct H as (H1 & H2 & H3 & H4 & H5).
  unfold parsedSummaries, startedAfter. cbn [flat_map filter].
  fold (parsedSummaries ws). fold (startedAfter weekAgo).
  destruct (time.Parse_RFC3339 (Hevy.StartTime w0)) as [t|];
    injection Hacc as -> ->.
  - rewrite H1, H2, H4, H5.
    cbn [LastWorkout DaysSinceLast RecentWorkouts].
    rewrite <- app_assoc. cbn [app].
    split; [reflexivity|]. split; [|split; reflexivity].
    destruct (time.After t weekAgo); cbn [List.length]; lia.
  - rewrite H1, H2, H4, H5.
    split; [reflexivity|]. split; [lia | split; reflexivity].
Qed.

(** X9. From the workouts fetched, [getTrainingData] lists those whose
    start time parses, in order, after the ones already listed, and
    counts as weekly those started after the instant a week before now.
    The last workout is taken from the first fetched workout only: when
    its start time does not parse, the last workout and the days since
    it stay as they were, although later workouts are listed.  An empty
    or failed fetch changes nothing in the training data. *)
Theorem getTrainingData_spec (w : World) (b : MorningBriefing)
  (today : string) :
  let tr := Training b in
  let tr' := Training (getTrainingData w b today) in
  let now := now_training w in
  match fetchedWorkouts (hevy_workouts w) with
  | [] => tr' = tr
  | w0 :: ws =>
      RecentWorkouts tr'
      = (RecentWorkouts tr ++ parsedSummaries (w0 :: ws))%list /\
      WeeklyCount tr'
      = Z.of_nat (List.length
                    (filter (startedAfter (time.AddDate now 0 0 (-7)))
                            (w0 :: ws))) /\
      match time.Parse_RFC3339 (Hevy.StartTime w0) with
      | Some t =>
          LastWorkout tr' = Some (workoutSummaryOf w0 t) /\
          DaysSinceLast tr' = F64.to_int (time.Sub_Hours now t / f24)%f64
      | None =>
          LastWorkout tr' = LastWorkout tr /\
          DaysSinceLast tr' = DaysSinceLast tr
      end
  end.
Proof.
  unfold getTrainingData, fetchedWorkouts.
  destruct (hevy_workouts w) as [err|err|[|w0 ws]]; cbv zeta;
    try reflexivity.
  pose proof (trainingStep_first (now_training w)
                (time.AddDate (now_training w) 0 0 (-7)) (Training b) w0 ws)
    as H.
  destruct (fold_left _ _ _) as [tr' n'].
  destruct H as (H1 & H2 & H3).
  cbn [Training setTraining LastWorkout DaysSinceLast WeeklyCount
       RecentWorkouts].
  split; [exact H1|]. split; [exact H2 | exact H3].
Qed.

End MedsTrainingMore.

(** ** The sleep stages query *)

Lemma sleep_stage_names (name : string) :
  In ((name =? "sleep_deep")%string, (name =? "sleep_rem")%string,
      (name =? "sleep_core")%string)
     [(true, false, false); (false, true, false); (false, false, true);
      (false, false, false)].
Proof.
  destruct (String.eqb_spec name "sleep_deep") as [->|Hd];
    [left; reflexivity|].
  destruct (String.eqb_spec name "sleep_rem") as [->|Hr];
    [right; left; reflexivity|].
  destruct (String.eqb_spec name "sleep_core") as [->|Hc];
    [right; right; left; reflexivity|].
  right; right; right; left; reflexivity.
Qed.

Lemma querySleepStages_loop (date : string) (metrics : list sql.Row) :
  forall deep rem core : option float64,
    fold_left
      (fun (acc : option float64 * option float64 * option float64) r =>
         let '(deep, rem, core) := acc in
         match sql.value r with
         | None => acc
         | Some v =>
             if (sql.metric_name r =? "sleep_deep")%string
             then (Some v, rem, core)
             else if (sql.metric_name r =? "sleep_rem")%string
             then (deep, Some v, core)
             else if (sql.metric_name r =? "sleep_core")%string
             then (deep, rem, Some v)
             else acc
         end)
      (filter (fun r =>
                 ((sql.metric_name r =? "sleep_deep")%string
                  || (sql.metric_name r =? "sleep_rem")%string
                  || (sql.metric_name r =? "sleep_core")%string)
                 && sql.like_prefix (sql.timestamp r) date) metrics)
      (deep, rem, core)
    = (lastValueOr deep
         (filter (fun r => (sql.metric_name r =? "sleep_deep")%string
                           && sql.like_prefix (sql.timestamp r) date) metrics),
       lastValueOr rem
         (filter (fun r => (sql.metric_name r =? "sleep_rem")%string
                           && sql.like_prefix (sql.timestamp r) date) metrics),
       lastValueOr core
         (filter (fun r => (sql.metric_name r =? "sleep_core")%string
                           && sql.like_prefix (sql.timestamp r) date) metrics)).
Proof.
  induction metrics as [|r metrics IH]; intros deep rem core; [reflexivity|].
  cbn [filter].
  pose proof (sleep_stage_names (sql.metric_name r)) as Hn.
  destruct (sql.metric_name r =? "sleep_deep")%string eqn:Ed,
    (sql.metric_name r =? "sleep_rem")%string eqn:Er,
    (sql.metric_name r =? "sleep_core")%string eqn:Ec;
    cbn in Hn; try (exfalso; intuition congruence); clear Hn;
    cbn [orb andb];
    destruct (sql.like_prefix (sql.timestamp r) date);
    try apply IH;
    cbn [fold_left]; unfold lastValueOr; cbn [fold_left];
    rewrite ?Ed, ?Er, ?Ec;
    destruct (sql.value r); cbv beta iota; rewrite IH; reflexivity.
Qed.

(** X10. [querySleepStages] keeps, for each of the three stages, the
    value of the last row of that stage and date that has one, in the
    order the rows come (a later row replaces an earlier one; nothing is
    added up), and nothing when there is none; rows of the other stages
    and rows without a value do not matter.  When the query fails, the
    error comes with no value at all. *)
Theorem querySleepStages_last_row (db : sql.DB) (date : string) :
  querySleepStages db date
  = match sql.fault db with
    | Some msg => (None, None, None, Some (sql.Failure msg))
    | None =>
        (lastValue (sql.select db "sleep_deep" date),
         lastValue (sql.select db "sleep_rem" date),
         lastValue (sql.select db "sleep_core" date), None)
    end.
Proof.
  unfold querySleepStages. destruct (sql.fault db); [reflexivity|].
  rewrite querySleepStages_loop. reflexivity.
Qed.

(** ** Further properties of the evening mode *)

Lemma energyBlocks_spec (db : sql.DB) (today : string)
  (b : Evening.EveningBriefing) :
  let e := Evening.Energy b in
  let e' := Evening.Energy (Evening.energyBlocks db today b) in
  let pick (name : string) (old : float64) :=
    match queryDayTotal db name today with
    | (v, None) => v
    | (_, Some _) => old
    end in
  Evening.BMRKcal e' = Evening.BMRKcal e /\
  Evening.ActiveKcal e' = pick "active_energy" (Evening.ActiveKcal e) /\
  Evening.ConsumedKcal e' = pick "dietary_energy" (Evening.ConsumedKcal e) /\
  Evening.TotalBurnedKcal e'
  = (F64.of_Z (Evening.BMRKcal e') + Evening.ActiveKcal e')%f64 /\
  (Evening.DeficitOrSurplusKcal e', Evening.Status e')
  = CalculateEnergyBalance (Evening.BMRKcal e') (Evening.ActiveKcal e')
                           (Evening.ConsumedKcal e').
Proof.
  cbv zeta. unfold Evening.energyBlocks.
  destruct (queryDayTotal db "active_energy" today) as [a [ea|]];
    destruct (queryDayTotal db "dietary_energy" today) as [c [ec|]];
    cbn [Evening.Energy Evening.setEnergy Evening.appendError
         Evening.ConsumedKcal Evening.ActiveKcal Evening.BMRKcal];
    destruct (CalculateEnergyBalance _ _ _) as [bal st];
    repeat split; reflexivity.
Qed.

(** X11. When the store cannot be opened, [getEveningHealthData]
    returns at once: one warning, the energy record untouched, so no
    balance and no status.  When it opens, the BMR is kept, a total
    whose query fails keeps its previous value, and the record is always
    consistent: total burned is BMR plus active energy, and balance and
    status are those of BMR, active and consumed energy, the status
    being one of deficit, surplus and maintenance. *)
Theorem getEveningHealthData_energy (opened : string + sql.DB)
  (b : Evening.EveningBriefing) (today yesterday : string) :
  let b' := Evening.getEveningHealthData opened b today yesterday in
  let e := Evening.Energy b in
  let e' := Evening.Energy b' in
  match opened with
  | inl err =>
      e' = e /\
      Evening.Errors b' = (Evening.Errors b
                           ++ [("sqlite open error: " ++ err)%string])%list
  | inr db =>
      let pick (name : string) (old : float64) :=
        match queryDayTotal db name today with
        | (v, None) => v
        | (_, Some _) => old
        end in
      Evening.BMRKcal e' = Evening.BMRKcal e /\
      Evening.ActiveKcal e' = pick "active_energy" (Evening.ActiveKcal e) /\
      Evening.ConsumedKcal e' = pick "dietary_energy" (Evening.ConsumedKcal e) /\
      Evening.TotalBurnedKcal e'
      = (F64.of_Z (Evening.BMRKcal e') + Evening.ActiveKcal e')%f64 /\
      (Evening.DeficitOrSurplusKcal e', Evening.Status e')
      = CalculateEnergyBalance (Evening.BMRKcal e') (Evening.ActiveKcal e')
                               (Evening.ConsumedKcal e') /\
      In (Evening.Status e') ["deficit"; "surplus"; "maintenance"]
  end.
Proof.
  destruct opened as [err|db]; cbv zeta.
  - split; reflexivity.
  - rewrite getEveningHealthData_Energy.
    destruct (energyBlocks_spec db today b) as (H1 & H2 & H3 & H4 & H5).
    cbv zeta in H1, H2, H3, H4, H5.
    repeat (split; [assumption|]).
    assert (Hst : Evening.Status (Evening.Energy (Evening.energyBlocks db today b))
                  = snd (CalculateEnergyBalance
                           (Evening.BMRKcal (Evening.Energy (Evening.energyBlocks db today b)))
                           (Evening.ActiveKcal (Evening.Energy (Evening.energyBlocks db today b)))
                           (Evening.ConsumedKcal (Evening.Energy (Evening.energyBlocks db today b)))))
      by (rewrite <- H5; reflexivity).
    rewrite Hst. unfold CalculateEnergyBalance. cbn [snd].
    destruct (_ <? -50); [|destruct (_ >? 50)]; simpl; auto.
Qed.

Section EveningMore.

Context {T : time.Lib}.
Variable Before : time.Time -> time.Time -> bool.
Variable ToLower : string -> string.

Lemma find_existsb {A : Type} (p : A -> bool) (l : list A) :
  existsb p l = match find p l with Some _ => true | None => false end.
Proof.
  induction l as [|a l IH]; [reflexivity|]. simpl.
  destruct (p a); [reflexivity | exact IH].
Qed.

(** X13. After [getEveningWorkoutData] the workout entry is always
    present.  It is marked done exactly when some fetched workout's
    start time begins with the target date, and then carries the title
    and duration of the first such workout; a failed fetch gives an
    entry not done, with one warning.  Steps and stand hours are not
    touched. *)
Theorem getEveningWorkoutData_spec (w : EveningWorld)
  (b : Evening.EveningBriefing) (today : string) :
  let b' := getEveningWorkoutData w b today in
  let ofToday := fun x => strings.HasPrefix (Hevy.StartTime x) today in
  let fetched := fetchedWorkouts (hevy_recent w) in
  exists info : Evening.WorkoutInfo,
    Evening.Workout (Evening.Activity b') = Some info /\
    Evening.Done info = existsb ofToday fetched /\
    match find ofToday fetched with
    | Some x => Evening.Title info = Hevy.Title x
                /\ Evening.Duration info = Hevy.Duration x
    | None => Evening.Title info = "" /\ Evening.Duration info = ""
    end /\
    Evening.Steps (Evening.Activity b') = Evening.Steps (Evening.Activity b) /\
    Evening.StandHours (Evening.Activity b')
    = Evening.StandHours (Evening.Activity b) /\
    Evening.Errors b'
    = (Evening.Errors b ++ eveningWorkoutWarnings (hevy_recent w))%list.
Proof.
  cbv zeta. unfold getEveningWorkoutData, fetchedWorkouts.
  destruct (hevy_recent w) as [err|err|workouts].
  - exists workoutNotDone. repeat split; reflexivity.
  - exists workoutNotDone. repeat split; reflexivity.
  - rewrite find_existsb.
    destruct (find _ workouts) as [x|].
    + eexists. split; [reflexivity|].
      cbn [Evening.Done Evening.Title Evening.Duration].
      repeat split. cbn. now rewrite app_nil_r.
    + exists workoutNotDone. repeat split. cbn. now rewrite app_nil_r.
Qed.

Lemma protocolStep_loop (today : string) (tasks : list Todoist.Task) :
  forall b : Evening.EveningBriefing,
    let b' := fold_left (protocolStep today) tasks b in
    Evening.Protocols b'
    = {| Evening.Completed :=
           Evening.Completed (Evening.Protocols b)
           ++ map Todoist.Content (filter protocolDone tasks);
         Evening.Missed :=
           Evening.Missed (Evening.Protocols b)
           ++ map Todoist.Content (filter (protocolMissed today) tasks) |} /\
    Evening.Errors b' = Evening.Errors b.
Proof.
  induction tasks as [|task tasks IH]; intros b; cbn [fold_left filter map].
  - rewrite !app_nil_r. destruct (Evening.Protocols b). split; reflexivity.
  - destruct (IH (protocolStep today b task)) as (H1 & H2).
    cbv zeta in H1, H2 |- *. rewrite H1, H2.
    unfold protocolStep, protocolDone, protocolMissed.
    destruct (isMed (Todoist.Labels task)); cbn [negb andb];
      [|split; reflexivity].
    destruct (Todoist.IsCompleted task); cbn [negb andb].
    + cbn [Evening.Protocols setProtocols Evening.Completed Evening.Missed
           Evening.Errors map].
      rewrite <- app_assoc. split; reflexivity.
    + destruct (match Todoist.Due task with
                | Some due => strings.le (Todoist.Date due) today
                | None => false
                end).
      * cbn [Evening.Protocols setProtocols Evening.Completed Evening.Missed
             Evening.Errors map].
        rewrite <- app_assoc. split; reflexivity.
      * split; reflexivity.
Qed.

(** X14. [getEveningProtocolData] adds to the completed list the names
    of the fetched tasks that carry a medication label and are
    completed, and to the missed list the names of those that are not
    completed and have a due date on or before the target date, both in
    order; a medication task that is not completed and has no due
    object, or a later due date, is in neither list.  A failed fetch
    leaves both lists as they were and appends one warning. *)
Theorem getEveningProtocolData_spec (w : EveningWorld)
  (b : Evening.EveningBriefing) (today : string) :
  let b' := getEveningProtocolData w b today in
  let tasks := fetchedTasks (td_today_evening w) in
  Evening.Completed (Evening.Protocols b')
  = (Evening.Completed (Evening.Protocols b)
     ++ map Todoist.Content (filter protocolDone tasks))%list /\
  Evening.Missed (Evening.Protocols b')
  = (Evening.Missed (Evening.Protocols b)
     ++ map Todoist.Content (filter (protocolMissed today) tasks))%list /\
  Evening.Errors b'
  = (Evening.Errors b ++ medsWarnings (td_today_evening w))%list /\
  (forall task : Todoist.Task,
      Todoist.IsCompleted task = false ->
      (Todoist.Due task = None
       \/ exists due, Todoist.Due task = Some due
                      /\ strings.le (Todoist.Date due) today = false) ->
      protocolDone task = false /\ protocolMissed today task = false).
Proof.
  cbv zeta. unfold getEveningProtocolData, fetchedTasks, medsWarnings.
  split; [|split; [|split]].
  - destruct (td_today_evening w) as [err|err|resp];
      [cbn; now rewrite app_nil_r | cbn; now rewrite app_nil_r |].
    destruct (protocolStep_loop today (Todoist.Results resp) b) as (H & _).
    cbv zeta in H. now rewrite H.
  - destruct (td_today_evening w) as [err|err|resp];
      [cbn; now rewrite app_nil_r | cbn; now rewrite app_nil_r |].
    destruct (protocolStep_loop today (Todoist.Results resp) b) as (H & _).
    cbv zeta in H. now rewrite H.
  - destruct (td_today_evening w) as [err|err|resp];
      [reflexivity | reflexivity |].
    destruct (protocolStep_loop today (Todoist.Results resp) b) as (_ & H).
    cbv zeta in H. rewrite H. now rewrite app_nil_r.
  - intros task Hdone Hdue. unfold protocolDone, protocolMissed.
    rewrite Hdone, andb_false_r. split; [reflexivity|].
    destruct Hdue as [-> | (due & -> & ->)]; now rewrite andb_false_r.
Qed.

Lemma strings_lt_le (s t : string) :
  strings.lt s t = true -> strings.le s t = true.
Proof.
  unfold strings.lt, strings.le, String.ltb, String.leb.
  destruct (String.compare s t); intros H; try reflexivity; discriminate H.
Qed.

Lemma string_compare_refl (s : string) : String.compare s s = Eq.
Proof.
  pose proof (String.compare_antisym s s) as H.
  destruct (String.compare s s); [reflexivity | discriminate H | discriminate H].
Qed.

Lemma strings_le_refl (s : string) : strings.le s s = true.
Proof.
  unfold strings.le, String.leb. now rewrite string_compare_refl.
Qed.

Lemma overdue_is_missed (today : string) (task : Todoist.Task) :
  hasStatus today StatusOverdue task = true ->
  protocolMissed today task = true.
Proof.
  unfold hasStatus, medStatus, protocolMissed.
  destruct (isMed (Todoist.Labels task)); cbn [negb andb]; [|discriminate].
  destruct (Todoist.IsCompleted task); cbn [negb andb]; [discriminate|].
  destruct (Todoist.Due task) as [due|]; [|discriminate].
  destruct (strings.lt (Todoist.Date due) today) eqn:Hlt; [|discriminate].
  intros _. now apply strings_lt_le.
Qed.

Lemma due_on_the_day (today : string) (task : Todoist.Task)
  (due : Todoist.Due_) :
  isMed (Todoist.Labels task) = true -> Todoist.IsCompleted task = false ->
  Todoist.Due task = Some due -> Todoist.Date due = today ->
  hasStatus today StatusDueToday task = true /\
  protocolMissed today task = true.
Proof.
  unfold hasStatus, medStatus, protocolMissed.
  intros -> -> -> Hd. cbn [negb andb]. rewrite Hd, strings_le_refl.
  assert (Hlt : strings.lt today today = false).
  { unfold strings.lt, String.ltb. now rewrite string_compare_refl. }
  rewrite Hlt. split; reflexivity.
Qed.

Lemma medTaskOf_Name (task : Todoist.Task) :
  Name (medTaskOf task) = Todoist.Content task.
Proof.
  unfold medTaskOf. destruct (Todoist.Due task); reflexivity.
Qed.

(** X15. Morning and evening read the same task list differently.  When
    both fetch the same answer, every task the morning report files as
    overdue is named in the evening report's missed list, and so is a
    medication task that is not completed and due on the target date
    itself, which the morning report files as due today. *)
Theorem morning_overdue_is_evening_missed (w : World) (ew : EveningWorld)
  (b : MorningBriefing) (eb : Evening.EveningBriefing) (today : string) :
  td_today w = td_today_evening ew ->
  let m' := Meds (getMedsData w b today) in
  let p' := Evening.Protocols (getEveningProtocolData ew eb today) in
  (forall med : MedTask,
      In med (Overdue m') ->
      In med (Overdue (Meds b)) \/ In (Name med) (Evening.Missed p')) /\
  (forall (task : Todoist.Task) (due : Todoist.Due_),
      In task (fetchedTasks (td_today w)) ->
      isMed (Todoist.Labels task) = true ->
      Todoist.IsCompleted task = false ->
      Todoist.Due task = Some due -> Todoist.Date due = today ->
      In (medTaskOf task) (DueToday m') /\
      In (Todoist.Content task) (Evening.Missed p')).
Proof.
  intros Hsame m' p'. subst m' p'.
  unfold getMedsData, getEveningProtocolData, fetchedTasks.
  rewrite <- Hsame.
  destruct (td_today w) as [err|err|resp].
  - split; [intros med H; left; exact H | intros task due []].
  - split; [intros med H; left; exact H | intros task due []].
  - rewrite medsStep_loop.
    destruct (protocolStep_loop today (Todoist.Results resp) eb) as (Hp & _).
    cbv zeta in Hp. rewrite Hp.
    cbn [Overdue DueToday Evening.Missed]. unfold medTasksWith.
    split.
    + intros med Hin. apply in_app_or in Hin.
      destruct Hin as [Hin | Hin]; [left; exact Hin | right].
      apply in_map_iff in Hin. destruct Hin as (task & <- & Hin).
      apply filter_In in Hin. destruct Hin as (Hin & Hst).
      rewrite medTaskOf_Name. apply in_or_app. right.
      apply in_map. apply filter_In. split; [exact Hin|].
      now apply overdue_is_missed.
    + intros task due Hin Hmed Hdone Hdue Hdate.
      destruct (due_on_the_day today task due Hmed Hdone Hdue Hdate)
        as (H1 & H2).
      split; apply in_or_app; right; apply in_map; apply filter_In;
        split; assumption.
Qed.

End EveningMore.

Section TomorrowMore.

Context {T : time.Lib}.
Variable Before : time.Time -> time.Time -> bool.
Variable ToLower : string -> string.

Lemma flagWorkout_twice (r r' : bool) (b : Evening.EveningBriefing) :
  flagWorkout r' (flagWorkout r b) = flagWorkout (r || r') b.
Proof.
  destruct r, r'; reflexivity.
Qed.

Lemma tomorrowStep_briefing (events : list calendarEventWithTime) :
  forall (fe : option Evening.EventInfo) (ft : time.Time)
         (b : Evening.EveningBriefing),
    snd (fold_left (tomorrowStep Before ToLower) events (fe, ft, b))
    = flagWorkout (existsb (isWorkoutEvent ToLower) events) b.
Proof.
  induction events as [|e events IH]; intros fe ft b; [reflexivity|].
  cbn [fold_left existsb].
  unfold tomorrowStep at 2.
  destruct (match fe with None => true | Some _ => false end
            || Before (parsedTime e) ft);
    rewrite IH; fold (isWorkoutEvent ToLower e);
    change (if isWorkoutEvent ToLower e
            then setTomorrow b
                   {| Evening.FirstEvent := Evening.FirstEvent (Evening.Tomorrow b);
                      Evening.WorkoutScheduled := true;
                      Evening.MedsDue := Evening.MedsDue (Evening.Tomorrow b) |}
            else b) with (flagWorkout (isWorkoutEvent ToLower e) b);
    apply flagWorkout_twice.
Qed.

Hypothesis Before_irrefl : forall x, Before x x = false.
Hypothesis Before_trans :
  forall x y z, Before x y = true -> Before y z = true -> Before x z = true.

Lemma tomorrowStep_started (events : list calendarEventWithTime) :
  forall (i : Evening.EventInfo) (ft : time.Time)
         (b : Evening.EveningBriefing),
    let '(fe', ft', _) :=
      fold_left (tomorrowStep Before ToLower) events (Some i, ft, b) in
    ((fe' = Some i /\ ft' = ft)
     \/ exists e, In e events /\ fe' = Some (eventInfoOf e)
                  /\ ft' = parsedTime e) /\
    (forall e', In e' events -> Before (parsedTime e') ft' = false) /\
    (Before ft' ft = true \/ ft' = ft).
Proof.
  induction events as [|e events IH]; intros i ft b.
  - cbn. split; [left; auto|]. split; [intros e' []|right; reflexivity].
  - cbn [fold_left]. unfold tomorrowStep at 2. cbn [orb].
    destruct (Before (parsedTime e) ft) eqn:Hb.
    + match goal with
      | |- context [fold_left _ _ (Some ?i1, ?ft1, ?b1)] =>
          specialize (IH i1 ft1 b1)
      end.
      destruct (fold_left _ _ _) as [[fe' ft'] b'].
      destruct IH as (Hsel & Hmin & Hle).
      split; [|split].
      * right. destruct Hsel as [(-> & ->) | (e1 & Hin & -> & ->)].
        -- exists e. split; [left; reflexivity | split; reflexivity].
        -- exists e1. split; [right; exact Hin | split; reflexivity].
      * intros e' [<- | Hin]; [|now apply Hmin].
        destruct Hle as [Hlt | ->]; [|apply Before_irrefl].
        destruct (Before (parsedTime e) ft') eqn:Hc; [|reflexivity].
        rewrite <- (Before_irrefl (parsedTime e)).
        symmetry. now apply (Before_trans _ ft').
      * left. destruct Hle as [Hlt | ->]; [|exact Hb].
        now apply (Before_trans _ (parsedTime e)).
    + specialize (IH i ft).
      match goal with
      | |- context [fold_left _ _ (Some i, ft, ?b1)] => specialize (IH b1)
      end.
      destruct (fold_left _ _ _) as [[fe' ft'] b'].
      destruct IH as (Hsel & Hmin & Hle).
      split; [|split].
      * destruct Hsel as [H | (e1 & Hin & H)]; [left; exact H|].
        right. exists e1. split; [right; exact Hin | exact H].
      * intros e' [<- | Hin]; [|now apply Hmin].
        destruct Hle as [Hlt | ->]; [|exact Hb].
        destruct (Before (parsedTime e) ft') eqn:Hc; [|reflexivity].
        rewrite <- Hb. symmetry. now apply (Before_trans _ ft').
      * exact Hle.
Qed.

(** X16. With [Before] a strict order of instants, the first event
    [getTomorrowCalendar] records is an earliest one of the events of
    the day after over both accounts (none of them is before it), kept
    as its clock time and summary.  With no event at all (none fetched
    for the day, or both fetches failed) the briefing is returned as it
    was. *)
Theorem getTomorrowCalendar_first_event (w : EveningWorld)
  (b : Evening.EveningBriefing) (tomorrow : string) :
  let b' := getTomorrowCalendar Before ToLower w b tomorrow in
  match tomorrowEvents w tomorrow with
  | [] => b' = b
  | _ :: _ =>
      exists e : calendarEventWithTime,
        In e (tomorrowEvents w tomorrow) /\
        Evening.FirstEvent (Evening.Tomorrow b') = Some (eventInfoOf e) /\
        forall e' : calendarEventWithTime,
          In e' (tomorrowEvents w tomorrow) ->
          Before (parsedTime e') (parsedTime e) = false
  end.
Proof.
  cbv zeta. unfold getTomorrowCalendar. fold (tomorrowEvents w tomorrow).
  destruct (tomorrowEvents w tomorrow) as [|e0 events]; [reflexivity|].
  cbn [fold_left]. unfold tomorrowStep at 2. cbn [orb].
  match goal with
  | |- context [fold_left _ _ (Some ?i1, ?ft1, ?b1)] =>
      pose proof (tomorrowStep_started events i1 ft1 b1) as H
  end.
  destruct (fold_left _ _ _) as [[fe' ft'] b1'].
  destruct H as (Hsel & Hmin & Hle).
  cbn [Evening.Tomorrow setTomorrow Evening.FirstEvent].
  destruct Hsel as [(-> & ->) | (e1 & Hin & -> & ->)].
  - exists e0. split; [left; reflexivity|]. split; [reflexivity|].
    intros e' [<- | Hin]; [apply Before_irrefl | now apply Hmin].
  - exists e1. split; [right; exact Hin|]. split; [reflexivity|].
    intros e' [<- | Hin']; [|now apply Hmin].
    destruct Hle as [Hlt | Heq].
    + destruct (Before (parsedTime e0) (parsedTime e1)) eqn:Hc;
        [|reflexivity].
      rewrite <- (Before_irrefl (parsedTime e1)).
      symmetry. now apply (Before_trans _ (parsedTime e0)).
    + rewrite Heq. apply Before_irrefl.
Qed.

End TomorrowMore.

Section TomorrowData.

Context {T : time.Lib}.
Variable Before : time.Time -> time.Time -> bool.
Variable ToLower : string -> string.

Lemma getTomorrowCalendar_frame (w : EveningWorld)
  (b : Evening.EveningBriefing) (tomorrow : string) :
  let b' := getTomorrowCalendar Before ToLower w b tomorrow in
  Evening.WorkoutScheduled (Evening.Tomorrow b')
  = Evening.WorkoutScheduled (Evening.Tomorrow b)
    || existsb (isWorkoutEvent ToLower) (tomorrowEvents w tomorrow) /\
  Evening.MedsDue (Evening.Tomorrow b') = Evening.MedsDue (Evening.Tomorrow b) /\
  setTomorrow b' (Evening.Tomorrow b) = b.
Proof.
  cbv zeta. unfold getTomorrowCalendar. fold (tomorrowEvents w tomorrow).
  destruct (tomorrowEvents w tomorrow) as [|e0 events] eqn:Hev.
  - cbn [existsb]. rewrite orb_false_r.
    split; [reflexivity|]. split; [reflexivity|].
    destruct b; reflexivity.
  - pose proof (tomorrowStep_briefing Before ToLower (e0 :: events)
                  None time.zero b) as H.
    destruct (fold_left _ _ _) as [[fe ft] b1]. cbn [snd] in H. subst b1.
    destruct (existsb (isWorkoutEvent ToLower) (e0 :: events)).
    + rewrite orb_true_r. cbn [flagWorkout].
      split; [reflexivity|]. split; [reflexivity|].
      destruct b; reflexivity.
    + rewrite orb_false_r. cbn [flagWorkout].
      split; [reflexivity|]. split; [reflexivity|].
      destruct b; reflexivity.
Qed.

(** X17. [getTomorrowCalendar] raises the workout flag exactly when the
    summary of some event of the day after, lowered, contains one of
    the four words; a flag already raised stays raised.  It writes the
    first event and the flag only: the medications due and everything
    outside the preview are as before, and a failed calendar fetch is
    not reported. *)
Theorem getTomorrowCalendar_workout_flag (w : EveningWorld)
  (b : Evening.EveningBriefing) (tomorrow : string) :
  let b' := getTomorrowCalendar Before ToLower w b tomorrow in
  Evening.WorkoutScheduled (Evening.Tomorrow b')
  = Evening.WorkoutScheduled (Evening.Tomorrow b)
    || existsb (isWorkoutEvent ToLower) (tomorrowEvents w tomorrow) /\
  Evening.MedsDue (Evening.Tomorrow b') = Evening.MedsDue (Evening.Tomorrow b) /\
  setTomorrow b' (Evening.Tomorrow b) = b /\
  Evening.Errors b' = Evening.Errors b.
Proof.
  cbv zeta.
  destruct (getTomorrowCalendar_frame w b tomorrow) as (H1 & H2 & H3).
  cbv zeta in H1, H2, H3.
  repeat (split; [assumption|]).
  exact (f_equal Evening.Errors H3).
Qed.

Lemma addMedsDue_nil (b : Evening.EveningBriefing) : addMedsDue [] b = b.
Proof.
  destruct b as [? ? ? ? ? ? ? ? [? ? ?] ?]. unfold addMedsDue.
  cbn [Evening.Tomorrow Evening.FirstEvent Evening.WorkoutScheduled
       Evening.MedsDue]. rewrite app_nil_r. reflexivity.
Qed.

Lemma addMedsDue_twice (xs ys : list string) (b : Evening.EveningBriefing) :
  addMedsDue ys (addMedsDue xs b) = addMedsDue (xs ++ ys) b.
Proof.
  unfold addMedsDue.
  cbn [Evening.Tomorrow setTomorrow Evening.FirstEvent
       Evening.WorkoutScheduled Evening.MedsDue].
  rewrite <- app_assoc. reflexivity.
Qed.

Lemma getTomorrowMeds_eq (w : EveningWorld) (b : Evening.EveningBriefing)
  (tomorrow : string) :
  getTomorrowMeds w b tomorrow
  = addMedsDue
      (map Todoist.Content
           (filter (fun task => isMed (Todoist.Labels task))
                   (fetchedTasks (td_filter w ("due: " ++ tomorrow))))) b.
Proof.
  unfold getTomorrowMeds, fetchedTasks.
  destruct (td_filter w _) as [err|err|resp];
    [now rewrite addMedsDue_nil | now rewrite addMedsDue_nil |].
  generalize b. clear b.
  induction (Todoist.Results resp) as [|task tasks IH]; intros b.
  - now rewrite addMedsDue_nil.
  - cbn [fold_left filter].
    destruct (isMed (Todoist.Labels task)); [|apply IH].
    rewrite IH. cbn [map].
    change (setTomorrow b _) with (addMedsDue [Todoist.Content task] b).
    apply addMedsDue_twice.
Qed.

Lemma getTomorrowData_frame (w : EveningWorld)
  (b : Evening.EveningBriefing) (today : string) :
  let b' := getTomorrowData Before ToLower w b today in
  let tomorrow := addDays today 1 in
  Evening.MedsDue (Evening.Tomorrow b')
  = (Evening.MedsDue (Evening.Tomorrow b)
     ++ map Todoist.Content
          (filter (fun task => isMed (Todoist.Labels task))
                  (fetchedTasks (td_filter w ("due: " ++ tomorrow)))))%list /\
  Evening.WorkoutScheduled (Evening.Tomorrow b')
  = Evening.WorkoutScheduled (Evening.Tomorrow b)
    || existsb (isWorkoutEvent ToLower) (tomorrowEvents w tomorrow) /\
  Evening.FirstEvent (Evening.Tomorrow b')
  = Evening.FirstEvent
      (Evening.Tomorrow (getTomorrowCalendar Before ToLower w b tomorrow)) /\
  setTomorrow b' (Evening.Tomorrow b) = b.
Proof.
  cbv zeta. unfold getTomorrowData. rewrite getTomorrowMeds_eq.
  destruct (getTomorrowCalendar_frame w b (addDays today 1))
    as (H1 & H2 & H3).
  cbv zeta in H1, H2, H3.
  unfold addMedsDue at 1 2 3.
  cbn [Evening.Tomorrow setTomorrow Evening.FirstEvent
       Evening.WorkoutScheduled Evening.MedsDue].
  rewrite H1, H2.
  split; [reflexivity|]. split; [reflexivity|]. split; [reflexivity|].
  exact H3.
Qed.

(** X18. [getTomorrowData] writes the preview of the day after and
    nothing else, whatever the two sources answer: no warning is added
    when a calendar or the task filter fails.  The medications due grow
    by the names of the tasks of the filter [due: <day after>] that
    carry a medication label, in order and whether completed or not,
    and by nothing when the filter fails. *)
Theorem getTomorrowData_preview_only (w : EveningWorld)
  (b : Evening.EveningBriefing) (today : string) :
  let b' := getTomorrowData Before ToLower w b today in
  let tomorrow := addDays today 1 in
  Evening.MedsDue (Evening.Tomorrow b')
  = (Evening.MedsDue (Evening.Tomorrow b)
     ++ map Todoist.Content
          (filter (fun task => isMed (Todoist.Labels task))
                  (fetchedTasks (td_filter w ("due: " ++ tomorrow)))))%list /\
  setTomorrow b' (Evening.Tomorrow b) = b /\
  Evening.Errors b' = Evening.Errors b.
Proof.
  cbv zeta.
  destruct (getTomorrowData_frame w b today) as (H1 & _ & _ & H4).
  cbv zeta in H1, H4.
  split; [exact H1|]. split; [exact H4|].
  exact (f_equal Evening.Errors H4).
Qed.

End TomorrowData.

(** ** The evening run as a whole *)

Lemma eveningEffect_comp (ws1 ws2 : list string)
  (f g : Evening.EveningBriefing -> Evening.EveningBriefing) :
  eveningEffect ws1 f -> eveningEffect ws2 g ->
  eveningEffect (ws1 ++ ws2) (fun b => let x := f b in g x).
Proof.
  intros Hf Hg b. cbv zeta. destruct (Hf b) as (F1 & F2). destruct (Hg (f b)) as (G1 & G2).
  split; [now rewrite G1, F1|]. rewrite G2, F2. now rewrite app_assoc.
Qed.

Ltac eveningEffect_blocks :=
  lazymatch goal with
  | |- eveningEffect _ (fun b => let x := @?f b in @?g x) =>
      refine (eveningEffect_comp _ _ f g _ _); [|eveningEffect_blocks]
  | |- _ => idtac
  end.

Lemma energyBlocks_effect (db : sql.DB) (today : string) :
  eveningEffect (dayTotalWarning db "active_energy" today
                 ++ dayTotalWarning db "dietary_energy" today)
                (Evening.energyBlocks db today).
Proof.
  intros b. unfold Evening.energyBlocks, dayTotalWarning.
  destruct (queryDayTotal db "active_energy" today) as [a [ea|]];
    destruct (queryDayTotal db "dietary_energy" today) as [c [ec|]];
    destruct (CalculateEnergyBalance _ _ _) as [bal st];
    (split; [reflexivity|]);
    cbn [Evening.Errors Evening.setEnergy Evening.appendError app];
    rewrite <- ?app_assoc, ?app_nil_r; reflexivity.
Qed.

Lemma getEveningHealthData_blocks (db : sql.DB) (today yesterday : string) :
  eveningEffect
    ((dayTotalWarning db "active_energy" today
      ++ dayTotalWarning db "dietary_energy" today)
     ++ dayTotalWarning db "protein" today
     ++ dayTotalWarning db "steps" today
     ++ dayTotalWarning db "stand_hours" today
     ++ [] ++ [] ++ [] ++ [] ++ [])
    (fun b => Evening.getEveningHealthData (inr db) b today yesterday).
Proof.
  cbv beta iota delta [Evening.getEveningHealthData].
  eveningEffect_blocks; [apply energyBlocks_effect | ..];
    unfold dayTotalWarning;
    match goal with
    | |- context [queryDayTotal ?d ?m ?t] =>
        destruct (queryDayTotal d m t) as [v [e|]]
    | |- context [queryAverageHRV ?d ?t] =>
        destruct (queryAverageHRV d t) as [[v|] [e|]]
    | |- context [queryLatestValue ?d ?m ?t] =>
        destruct (queryLatestValue d m t) as [[v|] [e|]]
    end; intros b0;
    try destruct (CalculateProteinStatus _ _) as [remaining onTrack];
    (split; [reflexivity|]);
    cbn [Evening.Errors Evening.setProtein Evening.setActivity
         Evening.setRecovery Evening.appendError];
    rewrite ?app_nil_r; reflexivity.
Qed.

Lemma getEveningHealthData_effect (opened : string + sql.DB)
  (today yesterday : string) :
  eveningEffect (eveningHealthWarnings opened today)
    (fun b => Evening.getEveningHealthData opened b today yesterday).
Proof.
  destruct opened as [err|db]; [intros b; split; reflexivity|].
  intros b.
  destruct (getEveningHealthData_blocks db today yesterday b) as (H1 & H2).
  split; [exact H1|]. rewrite H2. unfold eveningHealthWarnings.
  cbn [app]. rewrite !app_nil_r, <- !app_assoc. reflexivity.
Qed.

(** X12. [getEveningHealthData] reports a failure of the store for the
    five day totals only: the warnings it appends are the one for a
    store that does not open, or else one for each of active energy,
    dietary energy, protein, steps and stand hours whose query fails, in
    this order; a failing read of HRV, resting heart rate or sleep is
    silent.  It never writes the header, the BMR, the protein target,
    the workout entry, the protocol lists or the preview. *)
Theorem getEveningHealthData_warnings (opened : string + sql.DB)
  (b : Evening.EveningBriefing) (today yesterday : string) :
  let b' := Evening.getEveningHealthData opened b today yesterday in
  Evening.Errors b'
  = (Evening.Errors b ++ eveningHealthWarnings opened today)%list /\
  healthUntouched b' = healthUntouched b.
Proof.
  cbv zeta.
  destruct (getEveningHealthData_effect opened today yesterday b)
    as (H1 & H2).
  split; assumption.
Qed.

Lemma getEveningHealthData_stage (opened : string + sql.DB)
  (b : Evening.EveningBriefing) (today yesterday : string) :
  let b' := Evening.getEveningHealthData opened b today yesterday in
  eveningFixed b' = eveningFixed b /\
  Evening.Protocols b' = Evening.Protocols b /\
  Evening.Tomorrow b' = Evening.Tomorrow b /\
  Evening.Errors b'
  = (Evening.Errors b ++ eveningHealthWarnings opened today)%list.
Proof.
  cbv zeta.
  generalize (getEveningHealthData_effect opened today yesterday b).
  generalize (Evening.getEveningHealthData opened b today yesterday).
  intros b' (HU & HE). unfold healthUntouched in HU.
  split; [exact (f_equal (fun p => fst (fst (fst p))) HU)|].
  split; [exact (f_equal (fun p => snd (fst p)) HU)|].
  split; [exact (f_equal snd HU) | exact HE].
Qed.

Section EveningRun.

Context {T : time.Lib}.
Variable Before : time.Time -> time.Time -> bool.
Variable ToLower : string -> string.

Lemma getEveningWorkoutData_stage (w : EveningWorld)
  (b : Evening.EveningBriefing) (today : string) :
  let b' := getEveningWorkoutData w b today in
  Evening.Workout (Evening.Activity b')
  = Some (workoutToday today (fetchedWorkouts (hevy_recent w))) /\
  eveningFixed b' = eveningFixed b /\
  Evening.Protocols b' = Evening.Protocols b /\
  Evening.Tomorrow b' = Evening.Tomorrow b /\
  Evening.Errors b'
  = (Evening.Errors b ++ eveningWorkoutWarnings (hevy_recent w))%list.
Proof.
  cbv zeta.
  unfold getEveningWorkoutData, workoutToday, fetchedWorkouts,
    eveningWorkoutWarnings.
  destruct (hevy_recent w) as [err|err|workouts];
    [repeat split; reflexivity | repeat split; reflexivity |].
  destruct (find _ workouts) as [x|];
    repeat (split; [reflexivity|]);
    cbn [Evening.Errors setWorkout Evening.setActivity];
    now rewrite app_nil_r.
Qed.

Lemma protocolStep_frame (today : string) (tasks : list Todoist.Task) :
  forall b : Evening.EveningBriefing,
    let b' := fold_left (protocolStep today) tasks b in
    eveningFixed b' = eveningFixed b /\
    Evening.Workout (Evening.Activity b')
    = Evening.Workout (Evening.Activity b) /\
    Evening.Tomorrow b' = Evening.Tomorrow b.
Proof.
  induction tasks as [|task tasks IH]; intros b; [repeat split|].
  cbn [fold_left]. cbv zeta in IH |- *.
  destruct (IH (protocolStep today b task)) as (H1 & H2 & H3).
  rewrite H1, H2, H3.
  unfold protocolStep.
  destruct (isMed (Todoist.Labels task)); cbn [negb]; [|repeat split].
  destruct (Todoist.IsCompleted task); [repeat split|].
  destruct (match Todoist.Due task with
            | Some due => strings.le (Todoist.Date due) today
            | None => false
            end); repeat split.
Qed.

Lemma getEveningProtocolData_stage (w : EveningWorld)
  (b : Evening.EveningBriefing) (today : string) :
  let b' := getEveningProtocolData w b today in
  let tasks := fetchedTasks (td_today_evening w) in
  Evening.Protocols b'
  = {| Evening.Completed :=
         Evening.Completed (Evening.Protocols b)
         ++ map Todoist.Content (filter protocolDone tasks);
       Evening.Missed :=
         Evening.Missed (Evening.Protocols b)
         ++ map Todoist.Content (filter (protocolMissed today) tasks) |} /\
  eveningFixed b' = eveningFixed b /\
  Evening.Workout (Evening.Activity b')
  = Evening.Workout (Evening.Activity b) /\
  Evening.Tomorrow b' = Evening.Tomorrow b /\
  Evening.Errors b'
  = (Evening.Errors b ++ medsWarnings (td_today_evening w))%list.
Proof.
  cbv zeta. unfold getEveningProtocolData, fetchedTasks, medsWarnings.
  destruct (td_today_evening w) as [err|err|resp].
  - cbn [filter map]. rewrite !app_nil_r.
    destruct b as [? ? ? ? ? ? ? [? ?] ? ?]. repeat split; reflexivity.
  - cbn [filter map]. rewrite !app_nil_r.
    destruct b as [? ? ? ? ? ? ? [? ?] ? ?]. repeat split; reflexivity.
  - destruct (protocolStep_loop today (Todoist.Results resp) b) as (H1 & H2).
    cbv zeta in H1, H2. rewrite H1, H2, app_nil_r.
    split; [reflexivity|].
    destruct (protocolStep_frame today (Todoist.Results resp) b)
      as (F & W & U).
    cbv zeta in F, W, U. repeat split; assumption.
Qed.

(** X19. The report of an evening run.  Mode, timestamps, BMR (1636)
    and protein target (152) are the fixed ones whatever the sources
    answer; the workout entry is present and is the one of the workouts
    fetched; the protocol lists and the medications due the day after
    hold exactly the names selected from the two task fetches; the
    workout flag is raised exactly when an event of the day after looks
    like a workout; and the warnings are those of the health data, then
    of the workout fetch, then of the task fetch, the preview of the
    day after adding none. *)
Theorem RunEveningBriefing_report (w : EveningWorld) :
  let b := RunEveningBriefing Before ToLower w in
  let today := time.Format_date (now_evening w) in
  let tomorrow := addDays today 1 in
  let tasks := fetchedTasks (td_today_evening w) in
  eveningFixed b
  = ("evening", time.Format_RFC3339 (now_evening w), today,
     UserBMRKcal, UserProteinTargetG) /\
  Evening.Workout (Evening.Activity b)
  = Some (workoutToday today (fetchedWorkouts (hevy_recent w))) /\
  Evening.Protocols b
  = {| Evening.Completed := map Todoist.Content (filter protocolDone tasks);
       Evening.Missed :=
         map Todoist.Content (filter (protocolMissed today) tasks) |} /\
  Evening.MedsDue (Evening.Tomorrow b)
  = map Todoist.Content
      (filter (fun task => isMed (Todoist.Labels task))
              (fetchedTasks (td_filter w ("due: " ++ tomorrow)))) /\
  Evening.WorkoutScheduled (Evening.Tomorrow b)
  = existsb (isWorkoutEvent ToLower) (tomorrowEvents w tomorrow) /\
  Evening.Errors b
  = (eveningHealthWarnings (evening_db w) today
     ++ eveningWorkoutWarnings (hevy_recent w)
     ++ medsWarnings (td_today_evening w))%list.
Proof.
  cbv zeta. unfold RunEveningBriefing. cbv zeta.
  set (today := time.Format_date (now_evening w)).
  set (b0 := Evening.initial (time.Format_RFC3339 (now_evening w)) today).
  destruct (getEveningHealthData_stage (evening_db w) b0 today
              (yesterday today)) as (F1 & P1 & T1 & HE1).
  cbv zeta in F1, P1, T1, HE1.
  remember (Evening.getEveningHealthData _ _ _ _) as b1 eqn:Eb1. clear Eb1.
  destruct (getEveningWorkoutData_stage w b1 today)
    as (HW2 & F2 & P2 & T2 & HE2).
  cbv zeta in HW2, F2, P2, T2, HE2.
  remember (getEveningWorkoutData w b1 today) as b2 eqn:Eb2. clear Eb2.
  destruct (getEveningProtocolData_stage w b2 today)
    as (HP3 & F3 & W3 & T3 & HE3).
  cbv zeta in HP3, F3, W3, T3, HE3.
  remember (getEveningProtocolData w b2 today) as b3 eqn:Eb3. clear Eb3.
  destruct (getTomorrowData_frame Before ToLower w b3 today)
    as (HM4 & HS4 & _ & HF4).
  cbv zeta in HM4, HS4, HF4.
  remember (getTomorrowData Before ToLower w b3 today) as b4 eqn:Eb4.
  clear Eb4.
  assert (F4 : eveningFixed b4 = eveningFixed b3)
    by exact (f_equal eveningFixed HF4).
  assert (W4 : Evening.Workout (Evening.Activity b4)
               = Evening.Workout (Evening.Activity b3))
    by exact (f_equal (fun x => Evening.Workout (Evening.Activity x)) HF4).
  assert (P4 : Evening.Protocols b4 = Evening.Protocols b3)
    by exact (f_equal Evening.Protocols HF4).
  assert (E4 : Evening.Errors b4 = Evening.Errors b3)
    by exact (f_equal Evening.Errors HF4).
  split; [|split; [|split; [|split; [|split]]]].
  - rewrite F4, F3, F2, F1. reflexivity.
  - rewrite W4, W3. exact HW2.
  - rewrite P4, HP3, P2, P1. reflexivity.
  - rewrite HM4, T3, T2, T1. reflexivity.
  - rewrite HS4, T3, T2, T1. reflexivity.
  - rewrite E4, HE3, HE2, HE1. unfold b0.
    cbn [Evening.Errors Evening.initial app]. now rewrite <- app_assoc.
Qed.

End EveningRun.

(** ** The theorems at the sample worlds *)

#[local] Existing Instance WallClock.lib.

Lemma getMedsData_buckets_sample :
  td_today Sample.world = Payload Sample.tasks /\
  Overdue (Meds (getMedsData Sample.world zeroBriefing Sample.today))
  = (Overdue (Meds zeroBriefing)
     ++ medTasksWith Sample.today StatusOverdue
          (Todoist.Results Sample.tasks))%list.
Proof.
  split; [reflexivity|].
  exact (proj1 (proj2 (getMedsData_buckets Sample.world zeroBriefing
                         Sample.today Sample.tasks eq_refl))).
Defined.

Lemma main_fetch_isolation_sample :
  now_main Sample.world = now_main Sample.worldCalendarDown /\
  Meds (main Sample.world) = Meds (main Sample.worldCalendarDown).
Proof.
  split; [reflexivity|].
  exact (proj1 (proj2 (proj2 (main_fetch_isolation Sample.world
                                Sample.worldCalendarDown eq_refl)))
           eq_refl).
Defined.

(** With the calendar command failing for both accounts and every other
    source answering, two warnings mention the calendar, not one. *)
Lemma calendar_down_two_warnings :
  healthWarnings (health_ingest Sample.worldCalendarDown) = [] /\
  storeWarnings (health_db Sample.worldCalendarDown) Sample.today = [] /\
  medsWarnings (td_today Sample.worldCalendarDown) = [] /\
  trainingWarnings (hevy_workouts Sample.worldCalendarDown) = [] /\
  mentioning "calendar" (Errors (main Sample.worldCalendarDown))
  = ["calendar error (personal): exit status 1";
     "calendar error (work): exit status 1"] /\
  List.length (mentioning "calendar" (Errors (main Sample.worldCalendarDown)))
  <> 1%nat.
Proof. vm_compute. repeat split; try reflexivity. discriminate. Qed.

(** With the summary provider reporting a respiratory rate of 14 and the
    store holding no respiratory-rate row for the day, the final report
    has no respiratory rate: the provider's value is not left in place. *)
Lemma summary_respiratory_rate_not_used :
  summaryValue (health_ingest Sample.world) "respiratory_rate"
  = Some (F64.of_Z 14) /\
  storeRR (health_db Sample.world) (todayOf Sample.world) = None /\
  RespiratoryRate (Vitals (main Sample.world)) = None.
Proof. vm_compute. repeat split; reflexivity. Qed.

Lemma classify_recommendation_fallback_sample :
  SleepQuality (Classification_ (classify decentNight)) = "OK" /\
  MorningLoad (Classification_ (classify decentNight)) = "CLEAR" /\
  Recommendation (Classification_ (classify decentNight)) = msgUnavailable.
Proof.
  split; [vm_compute; reflexivity|]. split; [vm_compute; reflexivity|].
  apply (classify_recommendation_fallback decentNight).
  - vm_compute. discriminate.
  - left. split; [vm_compute; reflexivity | vm_compute; discriminate].
Defined.

Lemma morning_overdue_is_evening_missed_sample :
  td_today Sample.world = td_today_evening SampleEvening.world /\
  forall med : MedTask,
    In med (Overdue (Meds (getMedsData Sample.world zeroBriefing Sample.today))) ->
    In med (Overdue (Meds zeroBriefing))
    \/ In (Name med)
          (Evening.Missed
             (Evening.Protocols
                (getEveningProtocolData SampleEvening.world
                   (Evening.initial "" Sample.today) Sample.today))).
Proof.
  split; [reflexivity|].
  exact (proj1 (morning_overdue_is_evening_missed Sample.world
                  SampleEvening.world zeroBriefing
                  (Evening.initial "" Sample.today) Sample.today eq_refl)).
Defined.

Lemma before_irrefl (x : WallClock.t) : SampleEvening.before x x = false.
Proof.
  apply Z.ltb_irrefl.
Qed.

Lemma before_trans (x y z : WallClock.t) :
  SampleEvening.before x y = true -> SampleEvening.before y z = true ->
  SampleEvening.before x z = true.
Proof.
  unfold SampleEvening.before. rewrite !Z.ltb_lt. lia.
Qed.

Lemma getTomorrowCalendar_first_event_sample :
  exists e : calendarEventWithTime,
    In e (tomorrowEvents SampleEvening.world "2024-01-16") /\
    Evening.FirstEvent
      (Evening.Tomorrow
         (getTomorrowCalendar SampleEvening.before SampleEvening.lower
            SampleEvening.world (Evening.initial "" "2024-01-15")
            "2024-01-16"))
    = Some (eventInfoOf e) /\
    forall e' : calendarEventWithTime,
      In e' (tomorrowEvents SampleEvening.world "2024-01-16") ->
      SampleEvening.before (parsedTime e') (parsedTime e) = false.
Proof.
  pose proof (getTomorrowCalendar_first_event SampleEvening.before
                SampleEvening.lower before_irrefl before_trans
                SampleEvening.world (Evening.initial "" "2024-01-15")
                "2024-01-16") as H.
  cbv zeta in H.
  destruct (tomorrowEvents SampleEvening.world "2024-01-16") as [|e0 es] eqn:E.
  - apply (f_equal (@List.length _)) in E. vm_compute in E. discriminate E.
  - exact H.
Defined.
